(** * noclip.website (Wind Waker): foliage packets, grass spawner, JStudio
    cutscene engine and the toon-texture gain curve.

    A shallow embedding of the parts of the TypeScript sources that the
    specification's claims talk about, followed by the theorems.

    - [JS]          the JavaScript values the code computes with
    - [glMatrix]    the gl-matrix calls the packets make
    - [Grass]       src/WindWaker/Grass.ts (production packets)
    - [DGrass]      src/WindWaker/d_a.ts (d_a_grass, the foliage spawner)
    - [LegacyGrass] src/j3d/WindWaker/Grass.ts (fixed-capacity flower packet)
    - [JStudio]     src/Common/JSYSTEM/JStudio.ts (STB objects, paragraphs, FVB)
    - [ToonTex]     the [gain] curve of the dynamic toon texture

    and of the code around them:

    - [Backlog]        successive frames of [update]
    - [SpawnedFoliage] the records d_a_grass registers
    - [LegacyAGrass]   src/j3d/WindWaker/Grass.ts (AGrass.create, its tables)
    - [VariableValue]  src/Common/JSYSTEM/JStudio.ts (TVariableValue, TAdaptor)
    - [ActorAdaptor]   src/Common/JSYSTEM/JStudio.ts (TActorAdaptor)
    - [RoomLayers]     src/rustlib.ts (objectLayerVisible) *)

From Stdlib Require Import ZArith Floats Lia String.
From stdpp Require Import base option list gmap.

(* ===================================================================== *)
(** ** JavaScript numbers and typed arrays *)
(* ===================================================================== *)

Module JS.
Local Open Scope float_scope.

(** A JS number is an IEEE-754 binary64 value: Rocq's primitive [float]. *)
Abbreviation number := float.

(** [Math.fround]: the binary32 value nearest to [x], as a binary64 number.
    Every store into a [Float32Array] goes through it. *)
Definition fround (x : number) : number :=
  match Prim2SF x with
  | S754_finite s m e => SF2Prim (binary_round 24 128 s m e)
  | _ => x
  end.

(** A [Float32Array] is the list of its elements.  A store outside the
    array is ignored, a load outside it yields [undefined], which every
    arithmetic context turns into [NaN]. *)
Abbreviation Float32Array := (list float).

Definition f32_get (a : Float32Array) (i : nat) : number :=
  default nan (a !! i).

Definition f32_set (a : Float32Array) (i : nat) (v : number) : Float32Array :=
  <[i := fround v]> a.

(** [new Float32Array(xs)] / element-wise fill of a fresh array. *)
Definition f32_of (xs : list number) : Float32Array := map fround xs.

(** The relational operators, as JS evaluates them on numbers. *)
Definition gt (x y : number) : bool := y <? x.
Definition ge (x y : number) : bool := y <=? x.
Definition lt (x y : number) : bool := x <? y.

Definition Math_PI : number := 0x1.921fb54442d18p+1.

(** Integers that the code turns into numbers (all far below 2^53). *)
Definition of_Z (z : Z) : number :=
  match z with
  | Z0 => 0
  | Zpos p => SF2Prim (binary_normalize 53 1024 (Zpos p) 0 false)
  | Zneg p => SF2Prim (binary_normalize 53 1024 (Zneg p) 0 false)
  end.

(** JS truthiness of the result of a bitwise [&]. *)
Definition truthy (z : Z) : bool := negb (z =? 0)%Z.

(** The numbers that [||] replaces by its right operand: [0], [-0] and
    [NaN]. *)
Definition falsy (x : number) : bool := (x =? 0) || negb (x =? x).

(** [a[i]] for an array [a] and an integer-valued number [i]: [undefined]
    (here [None]) outside the array. *)
Definition nth_Z {A} (l : list A) (i : Z) : option A :=
  if (i <? 0)%Z then None else l !! Z.to_nat i.

(** A number used as an array index: the element index it names, when it
    is a non-negative integer. *)
Definition index_of (x : number) : option nat :=
  match Prim2SF x with
  | S754_zero _ => Some O
  | S754_finite false m e =>
      if (0 <=? e)%Z then Some (Z.to_nat (Zpos m * 2 ^ e))
      else if (Zpos m mod 2 ^ (- e) =? 0)%Z
           then Some (Z.to_nat (Zpos m / 2 ^ (- e)))
           else None
  | _ => None
  end.

(** The result of an array read: a number, or [undefined] outside the
    array.  [undefined] becomes [NaN] where a number is needed. *)
Inductive value := undefined | num (x : number).

Definition to_number (v : value) : number :=
  match v with undefined => nan | num x => x end.

Definition elem (a : list number) (i : number) : value :=
  match index_of i with
  | Some k => match a !! k with Some x => num x | None => undefined end
  | None => undefined
  end.

(** [Math.sin] and [Math.cos] are not primitive operations of binary64;
    code that calls them takes them from a [MathLib]. *)
Record MathLib := { Math_sin : number -> number; Math_cos : number -> number }.

End JS.

(* ===================================================================== *)
(** ** gl-matrix *)
(* ===================================================================== *)

(** The packets keep positions in [vec3] (a 3-element [Float32Array]) and
    matrices in [mat4] (16 elements, column-major).  gl-matrix is a
    dependency of the repository; the functions below are the ones the
    embedded code calls.  Each returns the contents of its [out] argument
    after the call: gl-matrix reads its inputs into locals before it writes,
    so the result does not depend on [out] aliasing an input. *)

Module glMatrix.
Import JS.
Local Open Scope float_scope.

Abbreviation vec3 := (list float).
Abbreviation mat4 := (list float).

Definition vec3_create : vec3 := [0; 0; 0].

Definition vec3_clone (a : vec3) : vec3 :=
  f32_of [f32_get a 0; f32_get a 1; f32_get a 2].

Definition vec3_copy (a : vec3) : vec3 :=
  f32_of [f32_get a 0; f32_get a 1; f32_get a 2].

Definition vec3_set (x y z : number) : vec3 := f32_of [x; y; z].

Definition vec3_add (a b : vec3) : vec3 :=
  f32_of [f32_get a 0 + f32_get b 0;
          f32_get a 1 + f32_get b 1;
          f32_get a 2 + f32_get b 2].

Definition vec3_cross (a b : vec3) : vec3 :=
  let ax := f32_get a 0 in let ay := f32_get a 1 in let az := f32_get a 2 in
  let bx := f32_get b 0 in let by' := f32_get b 1 in let bz := f32_get b 2 in
  f32_of [ay * bz - az * by'; az * bx - ax * bz; ax * by' - ay * bx].

Definition vec3_transformMat4 (a : vec3) (m : mat4) : vec3 :=
  let x := f32_get a 0 in let y := f32_get a 1 in let z := f32_get a 2 in
  let w0 := f32_get m 3 * x + f32_get m 7 * y + f32_get m 11 * z + f32_get m 15 in
  let w := if falsy w0 then 1 else w0 in
  f32_of [(f32_get m 0 * x + f32_get m 4 * y + f32_get m 8 * z + f32_get m 12) / w;
          (f32_get m 1 * x + f32_get m 5 * y + f32_get m 9 * z + f32_get m 13) / w;
          (f32_get m 2 * x + f32_get m 6 * y + f32_get m 10 * z + f32_get m 14) / w].

Definition mat4_create : mat4 :=
  [1; 0; 0; 0;  0; 1; 0; 0;  0; 0; 1; 0;  0; 0; 0; 1].

Definition mat4_copy (a : mat4) : mat4 :=
  f32_of (map (f32_get a) (seq 0 16)).

Definition mat4_fromTranslation (v : vec3) : mat4 :=
  f32_of [1; 0; 0; 0;  0; 1; 0; 0;  0; 0; 1; 0;
          f32_get v 0; f32_get v 1; f32_get v 2; 1].

(** Row [r] of [multiply(out, a, b)]: the four entries [out[4r .. 4r+3]]. *)
Definition mat4_multiply_row (a b : mat4) (r : nat) : list number :=
  let b0 := f32_get b (4 * r) in let b1 := f32_get b (4 * r + 1) in
  let b2 := f32_get b (4 * r + 2) in let b3 := f32_get b (4 * r + 3) in
  map (fun c => b0 * f32_get a c + b1 * f32_get a (4 + c)
                + b2 * f32_get a (8 + c) + b3 * f32_get a (12 + c))
      (seq 0 4).

Definition mat4_multiply (a b : mat4) : mat4 :=
  f32_of (mat4_multiply_row a b 0 ++ mat4_multiply_row a b 1
          ++ mat4_multiply_row a b 2 ++ mat4_multiply_row a b 3).

Definition mat4_transpose (a : mat4) : mat4 :=
  f32_of (map (fun i => f32_get a (4 * (i mod 4) + i / 4)) (seq 0 16)).

Section Trig.
Variable M : MathLib.

Definition mat4_fromYRotation (rad : number) : mat4 :=
  let s := Math_sin M rad in let c := Math_cos M rad in
  f32_of [c; 0; - s; 0;  0; 1; 0; 0;  s; 0; c; 0;  0; 0; 0; 1].

Definition mat4_rotateX (a : mat4) (rad : number) : mat4 :=
  let s := Math_sin M rad in let c := Math_cos M rad in
  let g := f32_get a in
  f32_of [g 0%nat; g 1%nat; g 2%nat; g 3%nat;
          g 4%nat * c + g 8%nat * s; g 5%nat * c + g 9%nat * s;
          g 6%nat * c + g 10%nat * s; g 7%nat * c + g 11%nat * s;
          g 8%nat * c - g 4%nat * s; g 9%nat * c - g 5%nat * s;
          g 10%nat * c - g 6%nat * s; g 11%nat * c - g 7%nat * s;
          g 12%nat; g 13%nat; g 14%nat; g 15%nat].

Definition mat4_rotateY (a : mat4) (rad : number) : mat4 :=
  let s := Math_sin M rad in let c := Math_cos M rad in
  let g := f32_get a in
  f32_of [g 0%nat * c - g 8%nat * s; g 1%nat * c - g 9%nat * s;
          g 2%nat * c - g 10%nat * s; g 3%nat * c - g 11%nat * s;
          g 4%nat; g 5%nat; g 6%nat; g 7%nat;
          g 0%nat * s + g 8%nat * c; g 1%nat * s + g 9%nat * c;
          g 2%nat * s + g 10%nat * c; g 3%nat * s + g 11%nat * c;
          g 12%nat; g 13%nat; g 14%nat; g 15%nat].

End Trig.

End glMatrix.

(* ===================================================================== *)
(** ** src/WindWaker/Grass.ts: the production foliage packets *)
(* ===================================================================== *)

Module Grass.
Import JS glMatrix.
Local Open Scope Z_scope.

Definition kMaxGroundChecksPerFrame : Z := 8.
Definition kDynamicAnimCount : Z := 0.

Definition kUshortTo2PI : number := (Math_PI / 32767)%float.
Definition uShortTo2PI (x : number) : number := (x * kUshortTo2PI)%float.

(** The boundary-query system [globals.scnPlay.bgS] (d_bg, not part of these
    sources).  [GroundCross] maps the position of the ground check to the
    height it found, [-Infinity] when nothing is below;
    [GetTriPla_getNormal] is the normal of the triangle that query hit. *)
Record dBgS := {
  GroundCross : vec3 -> number;
  GetTriPla_getNormal : vec3 -> vec3;
}.

Record dGlobals := {
  bgS : dBgS;
  mStayNo : Z;
  stageName : string;
}.

(** One entry per ground-height query of an update call: the room bucket
    and the index in the bucket of the instance it was made for. *)
Abbreviation QueryLog := (list (nat * nat)).

(** The position handed to [GroundCross]: [chk.pos = pos; chk.pos[1] += 50]. *)
Definition chk_pos (pos : vec3) : vec3 :=
  let p := vec3_copy pos in
  f32_set p 1 (f32_get p 1 + 50)%float.

(** The module-level [checkGroundY], used by the Flower and Grass packets. *)
Definition checkGroundY (globals : dGlobals) (roomIdx : nat) (pos : vec3) : number :=
  let y := GroundCross (bgS globals) (chk_pos pos) in
  if gt y neg_infinity then y else f32_get pos 1.

(** The flag enums.  A flag word is an int32, on which JS's [&] and [~]
    are [Z.land] and [Z.lnot]. *)
Definition FlowerFlags_isFrustumCulled : Z := Z.shiftl 1 0.
Definition FlowerFlags_needsGroundCheck : Z := Z.shiftl 2 0.
Definition TreeFlags_isFrustumCulled : Z := Z.shiftl 1 0.
Definition TreeFlags_needsGroundCheck : Z := Z.shiftl 1 1.
Definition TreeFlags_unk8 : Z := Z.shiftl 1 3.
Definition GrassFlags_isFrustumCulled : Z := Z.shiftl 1 0.
Definition GrassFlags_needsGroundCheck : Z := Z.shiftl 1 1.
Definition BushFlags_isFrustumCulled : Z := Z.shiftl 1 0.
Definition BushFlags_needsGroundCheck : Z := Z.shiftl 1 1.

(* --------------------------------------------------------------------- *)
(** *** Flower packet *)

Module FlowerPacket.

Inductive FlowerType := WHITE | PINK | BESSOU.

Record FlowerData := {
  flags : Z;
  type : FlowerType;
  animIdx : Z;
  itemIdx : Z;
  particleLifetime : Z;
  pos : vec3;
  modelMatrix : mat4;
}.

Record FlowerAnim := {
  active : bool;
  rotationX : number;
  rotationY : number;
  matrix : mat4;
}.

Record t := {
  rooms : list (list FlowerData);
  anims : list FlowerAnim;
}.

Definition set_ground (d : FlowerData) (y : number) : FlowerData :=
  {| flags := Z.land (flags d) (Z.lnot FlowerFlags_needsGroundCheck);
     type := type d; animIdx := animIdx d; itemIdx := itemIdx d;
     particleLifetime := particleLifetime d;
     pos := f32_set (pos d) 1 y; modelMatrix := modelMatrix d |}.

Definition set_modelMatrix (d : FlowerData) (m : mat4) : FlowerData :=
  {| flags := flags d; type := type d; animIdx := animIdx d;
     itemIdx := itemIdx d; particleLifetime := particleLifetime d;
     pos := pos d; modelMatrix := m |}.

(** [newData]; [rnd] is the value of [Math.floor(Math.random() * 8)]. *)
Definition newData (p : t) (globals : dGlobals) (rnd : Z) (pos0 : vec3)
    (isPink : bool) (roomIdx itemIdx : Z) : option (t * FlowerData) :=
  let type0 := if isPink then PINK else WHITE in
  let type1 :=
    if String.eqb (stageName globals) "sea" && (roomIdx =? 0x21) && isPink
    then BESSOU else type0 in
  let data :=
    {| flags := FlowerFlags_needsGroundCheck; type := type1; animIdx := rnd;
       itemIdx := itemIdx; particleLifetime := 0;
       pos := vec3_clone pos0; modelMatrix := mat4_create |} in
  room ← nth_Z (rooms p) roomIdx;
  Some ({| rooms := <[Z.to_nat roomIdx := room ++ [data]]> (rooms p);
           anims := anims p |}, data).

Section Update.
Variable M : MathLib.
Variable globals : dGlobals.

(** The first loop of [update]: the matrices of the idle animations. *)
Definition update_anim (a : FlowerAnim) : FlowerAnim :=
  let m := mat4_fromYRotation M (rotationY a) in
  let m := mat4_rotateX M m (rotationX a) in
  let m := mat4_rotateY M m (- rotationY a)%float in
  {| active := active a; rotationX := rotationX a;
     rotationY := rotationY a; matrix := m |}.

Definition update_anims (an : list FlowerAnim) : option (list FlowerAnim) :=
  foldl (fun acc i => cur ← acc; a ← cur !! i; Some (<[i := update_anim a]> cur))
        (Some an) (seq 0 (Z.to_nat (8 + kDynamicAnimCount))).

(** The test [data.flags & FlowerFlags.needsGroundCheck]. *)
Definition flagged (data : FlowerData) : bool :=
  truthy (Z.land (flags data) FlowerFlags_needsGroundCheck).

(** The ground check of a flagged instance. *)
Definition groundCheck (roomIdx : nat) (data : FlowerData) : FlowerData :=
  set_ground data (checkGroundY globals roomIdx (pos data)).

(** The model matrix of a non-culled instance. *)
Definition updateModelMtx (an : list FlowerAnim) (data : FlowerData)
    : option FlowerData :=
  if negb (truthy (Z.land (flags data) FlowerFlags_isFrustumCulled)) then
    anim ← nth_Z an (animIdx data);
    Some (set_modelMatrix data
            (mat4_multiply (mat4_fromTranslation (pos data)) (matrix anim)))
  else Some data.

(** The body of the inner loop, for the instance at [room[i]]. *)
Definition update_data (an : list FlowerAnim) (roomIdx i : nat)
    (data : FlowerData) (n : Z) : option (FlowerData * Z * QueryLog) :=
  let '(data1, n1, log) :=
    if flagged data && (n <? kMaxGroundChecksPerFrame)
    then (groundCheck roomIdx data, n + 1, [(roomIdx, i)])
    else (data, n, []) in
  data2 ← updateModelMtx an data1;
  Some (data2, n1, log).

Fixpoint update_room (an : list FlowerAnim) (roomIdx : nat)
    (room : list FlowerData) (i : nat) (n : Z)
    : option (list FlowerData * Z * QueryLog) :=
  match room with
  | [] => Some ([], n, [])
  | data :: rest =>
      '(data', n1, l1) ← update_data an roomIdx i data n;
      '(rest', n2, l2) ← update_room an roomIdx rest (S i) n1;
      Some (data' :: rest', n2, l1 ++ l2)
  end.

Fixpoint update_rooms (an : list FlowerAnim) (rs : list (list FlowerData))
    (roomIdx : nat) (n : Z) : option (list (list FlowerData) * Z * QueryLog) :=
  match rs with
  | [] => Some ([], n, [])
  | room :: rest =>
      '(room', n1, l1) ← update_room an roomIdx room 0 n;
      '(rest', n2, l2) ← update_rooms an rest (S roomIdx) n1;
      Some (room' :: rest', n2, l1 ++ l2)
  end.

(** [update]: the packet after the call and the queries it made, [None]
    when the call throws. *)
Definition update (p : t) : option (t * QueryLog) :=
  an ← update_anims (anims p);
  '(rs, _, log) ← update_rooms an (rooms p) 0 0;
  Some ({| rooms := rs; anims := an |}, log).

End Update.
End FlowerPacket.

(* --------------------------------------------------------------------- *)
(** *** Tree packet *)

Module TreePacket.

Inductive TreeStatus := UNCUT.

Record TreeData := {
  flags : Z;
  status : TreeStatus;
  animIdx : Z;
  trunkAlpha : Z;
  pos : vec3;
  unkMatrix : mat4;
  topModelMtx : mat4;
  trunkModelMtx : mat4;
  shadowModelMtx : mat4;
}.

Record TreeAnim := {
  active : bool;
  initialRotationShort : number;
  topRotationY : number;
  topRotationX : number;
  trunkRotationX : number;
  trunkFallYaw : number;
  offset : vec3;
  topMtx : mat4;
  trunkMtx : mat4;
}.

Record t := {
  rooms : list (list TreeData);
  anims : list TreeAnim;
}.

Definition set_flags (d : TreeData) (f : Z) : TreeData :=
  {| flags := f; status := status d; animIdx := animIdx d;
     trunkAlpha := trunkAlpha d; pos := pos d; unkMatrix := unkMatrix d;
     topModelMtx := topModelMtx d; trunkModelMtx := trunkModelMtx d;
     shadowModelMtx := shadowModelMtx d |}.

Definition set_pos (d : TreeData) (v : vec3) : TreeData :=
  {| flags := flags d; status := status d; animIdx := animIdx d;
     trunkAlpha := trunkAlpha d; pos := v; unkMatrix := unkMatrix d;
     topModelMtx := topModelMtx d; trunkModelMtx := trunkModelMtx d;
     shadowModelMtx := shadowModelMtx d |}.

Definition set_shadowModelMtx (d : TreeData) (m : mat4) : TreeData :=
  {| flags := flags d; status := status d; animIdx := animIdx d;
     trunkAlpha := trunkAlpha d; pos := pos d; unkMatrix := unkMatrix d;
     topModelMtx := topModelMtx d; trunkModelMtx := trunkModelMtx d;
     shadowModelMtx := m |}.

Definition set_modelMtx (d : TreeData) (top trunk : mat4) : TreeData :=
  {| flags := flags d; status := status d; animIdx := animIdx d;
     trunkAlpha := trunkAlpha d; pos := pos d; unkMatrix := unkMatrix d;
     topModelMtx := top; trunkModelMtx := trunk;
     shadowModelMtx := shadowModelMtx d |}.

(** The shadow matrix written by [checkGroundY]: rows [right], [normal],
    [forward] with the translation in the fourth column, then transposed
    in place. *)
Definition shadowMtx (m : mat4) (pos1 : vec3) (normal : vec3) (y : number) : mat4 :=
  let right := vec3_set 1 0 0 in
  let forward := vec3_cross normal right in
  let right := vec3_cross normal forward in
  let m := f32_set m 0 (f32_get right 0) in
  let m := f32_set m 1 (f32_get right 1) in
  let m := f32_set m 2 (f32_get right 2) in
  let m := f32_set m 3 (f32_get pos1 0) in
  let m := f32_set m 4 (f32_get normal 0) in
  let m := f32_set m 5 (f32_get normal 1) in
  let m := f32_set m 6 (f32_get normal 2) in
  let m := f32_set m 7 (1.0 + y)%float in
  let m := f32_set m 8 (f32_get forward 0) in
  let m := f32_set m 9 (f32_get forward 1) in
  let m := f32_set m 10 (f32_get forward 2) in
  let m := f32_set m 11 (f32_get pos1 2) in
  mat4_transpose m.

(** The packet's own [checkGroundY]: the height it returns and the
    instance record after the call. *)
Definition checkGroundY (globals : dGlobals) (roomIdx : nat) (treeData : TreeData)
    : number * TreeData :=
  let c := chk_pos (pos treeData) in
  let y := GroundCross (bgS globals) c in
  let '(treeData1, scratchVec3a) :=
    if gt y neg_infinity
    then (set_pos treeData (f32_set (pos treeData) 1 y),
          vec3_copy (GetTriPla_getNormal (bgS globals) c))
    else (set_pos treeData (f32_set (pos treeData) 1 y),
          vec3_set 0 1 0) in
  (y, set_shadowModelMtx treeData1
        (shadowMtx (shadowModelMtx treeData1) (pos treeData1) scratchVec3a y)).

(** [newData]; [rnd] is the value of [Math.floor(Math.random() * 8)]. *)
Definition newData (p : t) (rnd : Z) (pos0 : vec3) (initialStatus : TreeStatus)
    (roomIdx : Z) : option (t * TreeData) :=
  let data :=
    {| flags := TreeFlags_needsGroundCheck; animIdx := rnd;
       status := initialStatus; trunkAlpha := 0xFF; pos := vec3_clone pos0;
       unkMatrix := mat4_create; topModelMtx := mat4_create;
       trunkModelMtx := mat4_create; shadowModelMtx := mat4_create |} in
  room ← nth_Z (rooms p) roomIdx;
  Some ({| rooms := <[Z.to_nat roomIdx := room ++ [data]]> (rooms p);
           anims := anims p |}, data).

Section Update.
Variable M : MathLib.
Variable globals : dGlobals.

Definition update_anim (anim : TreeAnim) : TreeAnim :=
  let top := mat4_fromYRotation M (trunkFallYaw anim) in
  let top := mat4_rotateX M top (topRotationX anim) in
  let top := mat4_rotateY M top (topRotationY anim - trunkFallYaw anim)%float in
  let trunk := mat4_fromYRotation M (trunkFallYaw anim) in
  let trunk := mat4_rotateX M trunk (trunkRotationX anim) in
  let trunk := mat4_rotateY M trunk
                 (uShortTo2PI (initialRotationShort anim) - trunkFallYaw anim)%float in
  {| active := active anim; initialRotationShort := initialRotationShort anim;
     topRotationY := topRotationY anim; topRotationX := topRotationX anim;
     trunkRotationX := trunkRotationX anim; trunkFallYaw := trunkFallYaw anim;
     offset := offset anim; topMtx := top; trunkMtx := trunk |}.

Definition update_anims (an : list TreeAnim) : option (list TreeAnim) :=
  foldl (fun acc i => cur ← acc; a ← cur !! i; Some (<[i := update_anim a]> cur))
        (Some an) (seq 0 (Z.to_nat (8 + kDynamicAnimCount))).

(** The test [data.flags & GrassFlags.needsGroundCheck] of [updateRoom]. *)
Definition flagged (data : TreeData) : bool :=
  truthy (Z.land (flags data) GrassFlags_needsGroundCheck).

(** The ground check of [updateRoom] on a flagged instance. *)
Definition groundCheck (roomIdx : nat) (data : TreeData) : TreeData :=
  let '(y, data1) := checkGroundY globals roomIdx data in
  let data2 := set_pos data1 (f32_set (pos data1) 1 y) in
  set_flags data2 (Z.land (flags data2) (Z.lnot TreeFlags_needsGroundCheck)).

(** The model matrices of a non-culled instance. *)
Definition updateModelMtx (an : list TreeAnim) (data : TreeData) : option TreeData :=
  if negb (truthy (Z.land (flags data) TreeFlags_isFrustumCulled)) then
    anim ← nth_Z an (animIdx data);
    let top :=
      if Z.land (flags data) TreeFlags_unk8 =? 0 then
        let translation := vec3_add (pos data) (offset anim) in
        mat4_multiply (mat4_fromTranslation translation) (topMtx anim)
      else mat4_copy (unkMatrix data) in
    Some (set_modelMtx data top
            (mat4_multiply (mat4_fromTranslation (pos data)) (trunkMtx anim)))
  else Some data.

(** The loop of [updateRoom] from index [i] on; [room] is what is left of
    the bucket. *)
Fixpoint updateRoom_loop (an : list TreeAnim) (roomIdx : nat)
    (room : list TreeData) (i : nat) (groundChecksThisFrame : Z)
    : option (list TreeData * Z * QueryLog) :=
  match room with
  | [] => Some ([], groundChecksThisFrame, [])
  | data :: rest =>
      if groundChecksThisFrame >=? kMaxGroundChecksPerFrame
      then Some (room, groundChecksThisFrame, [])
      else
        let '(data1, n1, l1) :=
          if flagged data
          then (groundCheck roomIdx data, groundChecksThisFrame + 1, [(roomIdx, i)])
          else (data, groundChecksThisFrame, []) in
        data2 ← updateModelMtx an data1;
        '(rest', n2, l2) ← updateRoom_loop an roomIdx rest (S i) n1;
        Some (data2 :: rest', n2, l1 ++ l2)
  end.

Definition updateRoom (an : list TreeAnim) (rs : list (list TreeData))
    (roomIdx : Z) (groundChecksThisFrame : Z)
    : option (list (list TreeData) * Z * QueryLog) :=
  room ← nth_Z rs roomIdx;
  '(room', n, log) ← updateRoom_loop an (Z.to_nat roomIdx) room 0 groundChecksThisFrame;
  Some (<[Z.to_nat roomIdx := room']> rs, n, log).

(** The loop of [update] over the room indices still to visit. *)
Fixpoint update_loop (an : list TreeAnim) (idxs : list nat)
    (rs : list (list TreeData)) (groundChecksThisFrame : Z)
    : option (list (list TreeData) * Z * QueryLog) :=
  match idxs with
  | [] => Some (rs, groundChecksThisFrame, [])
  | roomIdx :: rest =>
      if groundChecksThisFrame >? kMaxGroundChecksPerFrame
      then Some (rs, groundChecksThisFrame, [])
      else if Z.of_nat roomIdx =? mStayNo globals
      then update_loop an rest rs groundChecksThisFrame
      else
        '(rs1, n1, l1) ← updateRoom an rs (Z.of_nat roomIdx) groundChecksThisFrame;
        '(rs2, n2, l2) ← update_loop an rest rs1 n1;
        Some (rs2, n2, l1 ++ l2)
  end.

Definition update (p : t) : option (t * QueryLog) :=
  an ← update_anims (anims p);
  '(rs1, n1, l1) ← updateRoom an (rooms p) (mStayNo globals) 0;
  '(rs2, _, l2) ← update_loop an (seq 0 (length rs1)) rs1 n1;
  Some ({| rooms := rs2; anims := an |}, l1 ++ l2).

End Update.
End TreePacket.

(* --------------------------------------------------------------------- *)
(** *** Grass packet *)

Module GrassPacket.

Record GrassData := {
  flags : Z;
  animIdx : Z;
  itemIdx : Z;
  pos : vec3;
  modelMtx : mat4;
}.

Record GrassAnim := {
  active : bool;
  rotationY : number;
  rotationX : number;
  anim_modelMtx : mat4;
}.

Record t := {
  rooms : list (list GrassData);
  anims : list GrassAnim;
}.

Definition set_ground (d : GrassData) (y : number) : GrassData :=
  {| flags := Z.land (flags d) (Z.lnot GrassFlags_needsGroundCheck);
     animIdx := animIdx d; itemIdx := itemIdx d;
     pos := f32_set (pos d) 1 y; modelMtx := modelMtx d |}.

Definition set_modelMtx (d : GrassData) (m : mat4) : GrassData :=
  {| flags := flags d; animIdx := animIdx d; itemIdx := itemIdx d;
     pos := pos d; modelMtx := m |}.

(** [newData]; [rnd] is the value of [Math.floor(Math.random() * 8)]. *)
Definition newData (p : t) (rnd : Z) (pos0 : vec3) (roomIdx itemIdx : Z)
    : option (t * GrassData) :=
  let data :=
    {| flags := GrassFlags_needsGroundCheck; animIdx := rnd;
       itemIdx := itemIdx; pos := vec3_clone pos0; modelMtx := mat4_create |} in
  room ← nth_Z (rooms p) roomIdx;
  Some ({| rooms := <[Z.to_nat roomIdx := room ++ [data]]> (rooms p);
           anims := anims p |}, data).

Section Update.
Variable M : MathLib.
Variable globals : dGlobals.

Definition update_anim (anim : GrassAnim) : GrassAnim :=
  let m := mat4_fromYRotation M (rotationY anim) in
  let m := mat4_rotateX M m (rotationX anim) in
  let m := mat4_rotateY M m (rotationY anim) in
  {| active := active anim; rotationY := rotationY anim;
     rotationX := rotationX anim; anim_modelMtx := m |}.

Definition update_anims (an : list GrassAnim) : option (list GrassAnim) :=
  foldl (fun acc i => cur ← acc; a ← cur !! i; Some (<[i := update_anim a]> cur))
        (Some an) (seq 0 (Z.to_nat (8 + kDynamicAnimCount))).

Definition flagged (data : GrassData) : bool :=
  truthy (Z.land (flags data) GrassFlags_needsGroundCheck).

Definition groundCheck (roomIdx : nat) (data : GrassData) : GrassData :=
  set_ground data (checkGroundY globals roomIdx (pos data)).

Definition updateModelMtx (an : list GrassAnim) (data : GrassData) : option GrassData :=
  if negb (truthy (Z.land (flags data) GrassFlags_isFrustumCulled)) then
    if animIdx data <? 0 then Some data
    else
      anim ← nth_Z an (animIdx data);
      Some (set_modelMtx data
              (mat4_multiply (mat4_fromTranslation (pos data)) (anim_modelMtx anim)))
  else Some data.

Fixpoint updateRoom_loop (an : list GrassAnim) (roomIdx : nat)
    (room : list GrassData) (i : nat) (groundChecksThisFrame : Z)
    : option (list GrassData * Z * QueryLog) :=
  match room with
  | [] => Some ([], groundChecksThisFrame, [])
  | data :: rest =>
      if groundChecksThisFrame >=? kMaxGroundChecksPerFrame
      then Some (room, groundChecksThisFrame, [])
      else
        let '(data1, n1, l1) :=
          if flagged data
          then (groundCheck roomIdx data, groundChecksThisFrame + 1, [(roomIdx, i)])
          else (data, groundChecksThisFrame, []) in
        data2 ← updateModelMtx an data1;
        '(rest', n2, l2) ← updateRoom_loop an roomIdx rest (S i) n1;
        Some (data2 :: rest', n2, l1 ++ l2)
  end.

Definition updateRoom (an : list GrassAnim) (rs : list (list GrassData))
    (roomIdx : Z) (groundChecksThisFrame : Z)
    : option (list (list GrassData) * Z * QueryLog) :=
  room ← nth_Z rs roomIdx;
  '(room', n, log) ← updateRoom_loop an (Z.to_nat roomIdx) room 0 groundChecksThisFrame;
  Some (<[Z.to_nat roomIdx := room']> rs, n, log).

Fixpoint update_loop (an : list GrassAnim) (idxs : list nat)
    (rs : list (list GrassData)) (groundChecksThisFrame : Z)
    : option (list (list GrassData) * Z * QueryLog) :=
  match idxs with
  | [] => Some (rs, groundChecksThisFrame, [])
  | roomIdx :: rest =>
      if groundChecksThisFrame >? kMaxGroundChecksPerFrame
      then Some (rs, groundChecksThisFrame, [])
      else if Z.of_nat roomIdx =? mStayNo globals
      then update_loop an rest rs groundChecksThisFrame
      else
        '(rs1, n1, l1) ← updateRoom an rs (Z.of_nat roomIdx) groundChecksThisFrame;
        '(rs2, n2, l2) ← update_loop an rest rs1 n1;
        Some (rs2, n2, l1 ++ l2)
  end.

Definition update (p : t) : option (t * QueryLog) :=
  an ← update_anims (anims p);
  '(rs1, n1, l1) ← updateRoom an (rooms p) (mStayNo globals) 0;
  '(rs2, _, l2) ← update_loop an (seq 0 (length rs1)) rs1 n1;
  Some ({| rooms := rs2; anims := an |}, l1 ++ l2).

End Update.
End GrassPacket.

(* --------------------------------------------------------------------- *)
(** *** Bush packet *)

Module BushPacket.

Inductive BushStatus := UNCUT.

Record BushData := {
  roomIdx : Z;
  flags : Z;
  status : BushStatus;
  animIdx : Z;
  trunkAlpha : Z;
  pos : vec3;
  unkMatrix : mat4;
  topModelMtx : mat4;
  trunkModelMtx : mat4;
  shadowModelMtx : mat4;
}.

Record BushAnim := {
  active : bool;
  initialRotationShort : number;
  topRotationY : number;
  topRotationX : number;
  trunkRotationX : number;
  trunkFallYaw : number;
  offset : vec3;
  topMtx : mat4;
  trunkMtx : mat4;
}.

Record t := {
  rooms : list (list BushData);
  anims : list BushAnim;
}.

Definition set_flags (d : BushData) (f : Z) : BushData :=
  {| roomIdx := roomIdx d; flags := f; status := status d; animIdx := animIdx d;
     trunkAlpha := trunkAlpha d; pos := pos d; unkMatrix := unkMatrix d;
     topModelMtx := topModelMtx d; trunkModelMtx := trunkModelMtx d;
     shadowModelMtx := shadowModelMtx d |}.

Definition set_pos (d : BushData) (v : vec3) : BushData :=
  {| roomIdx := roomIdx d; flags := flags d; status := status d;
     animIdx := animIdx d; trunkAlpha := trunkAlpha d; pos := v;
     unkMatrix := unkMatrix d; topModelMtx := topModelMtx d;
     trunkModelMtx := trunkModelMtx d; shadowModelMtx := shadowModelMtx d |}.

Definition set_shadowModelMtx (d : BushData) (m : mat4) : BushData :=
  {| roomIdx := roomIdx d; flags := flags d; status := status d;
     animIdx := animIdx d; trunkAlpha := trunkAlpha d; pos := pos d;
     unkMatrix := unkMatrix d; topModelMtx := topModelMtx d;
     trunkModelMtx := trunkModelMtx d; shadowModelMtx := m |}.

Definition set_trunkModelMtx (d : BushData) (m : mat4) : BushData :=
  {| roomIdx := roomIdx d; flags := flags d; status := status d;
     animIdx := animIdx d; trunkAlpha := trunkAlpha d; pos := pos d;
     unkMatrix := unkMatrix d; topModelMtx := topModelMtx d;
     trunkModelMtx := m; shadowModelMtx := shadowModelMtx d |}.

(** The packet's own [checkGroundY], the same statements as the Tree
    packet's on a [BushData]. *)
Definition checkGroundY (globals : dGlobals) (roomIdx0 : nat) (data : BushData)
    : number * BushData :=
  let c := chk_pos (pos data) in
  let y := GroundCross (bgS globals) c in
  let '(data1, scratchVec3a) :=
    if gt y neg_infinity
    then (set_pos data (f32_set (pos data) 1 y),
          vec3_copy (GetTriPla_getNormal (bgS globals) c))
    else (set_pos data (f32_set (pos data) 1 y),
          vec3_set 0 1 0) in
  (y, set_shadowModelMtx data1
        (TreePacket.shadowMtx (shadowModelMtx data1) (pos data1) scratchVec3a y)).

(** [newData]; [rnd] is the value of [Math.floor(Math.random() * 8)]. *)
Definition newData (p : t) (rnd : Z) (pos0 : vec3) (roomIdx0 : Z)
    : option (t * BushData) :=
  let data :=
    {| roomIdx := roomIdx0; flags := TreeFlags_needsGroundCheck; animIdx := rnd;
       status := UNCUT; trunkAlpha := 0xFF; pos := vec3_clone pos0;
       unkMatrix := mat4_create; topModelMtx := mat4_create;
       trunkModelMtx := mat4_create; shadowModelMtx := mat4_create |} in
  room ← nth_Z (rooms p) roomIdx0;
  Some ({| rooms := <[Z.to_nat roomIdx0 := room ++ [data]]> (rooms p);
           anims := anims p |}, data).

Section Update.
Variable M : MathLib.
Variable globals : dGlobals.

Definition update_anim (anim : BushAnim) : BushAnim :=
  let trunk := mat4_fromYRotation M (trunkFallYaw anim) in
  let trunk := mat4_rotateX M trunk (trunkRotationX anim) in
  let trunk := mat4_rotateY M trunk
                 (uShortTo2PI (initialRotationShort anim) - trunkFallYaw anim)%float in
  {| active := active anim; initialRotationShort := initialRotationShort anim;
     topRotationY := topRotationY anim; topRotationX := topRotationX anim;
     trunkRotationX := trunkRotationX anim; trunkFallYaw := trunkFallYaw anim;
     offset := offset anim; topMtx := topMtx anim; trunkMtx := trunk |}.

Definition update_anims (an : list BushAnim) : option (list BushAnim) :=
  foldl (fun acc i => cur ← acc; a ← cur !! i; Some (<[i := update_anim a]> cur))
        (Some an) (seq 0 (Z.to_nat (8 + kDynamicAnimCount))).

Definition flagged (data : BushData) : bool :=
  truthy (Z.land (flags data) TreeFlags_needsGroundCheck).

Definition groundCheck (roomIdx0 : nat) (data : BushData) : BushData :=
  let '(y, data1) := checkGroundY globals roomIdx0 data in
  let data2 := set_pos data1 (f32_set (pos data1) 1 y) in
  set_flags data2 (Z.land (flags data2) (Z.lnot TreeFlags_needsGroundCheck)).

Definition updateModelMtx (an : list BushAnim) (data : BushData) : option BushData :=
  if negb (truthy (Z.land (flags data) TreeFlags_isFrustumCulled)) then
    anim ← nth_Z an (animIdx data);
    Some (set_trunkModelMtx data
            (mat4_multiply (mat4_fromTranslation (pos data)) (trunkMtx anim)))
  else Some data.

Fixpoint updateRoom_loop (an : list BushAnim) (roomIdx0 : nat)
    (room : list BushData) (i : nat) (groundChecksThisFrame : Z)
    : option (list BushData * Z * QueryLog) :=
  match room with
  | [] => Some ([], groundChecksThisFrame, [])
  | data :: rest =>
      if groundChecksThisFrame >=? kMaxGroundChecksPerFrame
      then Some (room, groundChecksThisFrame, [])
      else
        let '(data1, n1, l1) :=
          if flagged data && (groundChecksThisFrame <? kMaxGroundChecksPerFrame)
          then (groundCheck roomIdx0 data, groundChecksThisFrame + 1, [(roomIdx0, i)])
          else (data, groundChecksThisFrame, []) in
        data2 ← updateModelMtx an data1;
        '(rest', n2, l2) ← updateRoom_loop an roomIdx0 rest (S i) n1;
        Some (data2 :: rest', n2, l1 ++ l2)
  end.

Definition updateRoom (an : list BushAnim) (rs : list (list BushData))
    (roomIdx0 : Z) (groundChecksThisFrame : Z)
    : option (list (list BushData) * Z * QueryLog) :=
  room ← nth_Z rs roomIdx0;
  '(room', n, log) ← updateRoom_loop an (Z.to_nat roomIdx0) room 0 groundChecksThisFrame;
  Some (<[Z.to_nat roomIdx0 := room']> rs, n, log).

Fixpoint update_loop (an : list BushAnim) (idxs : list nat)
    (rs : list (list BushData)) (groundChecksThisFrame : Z)
    : option (list (list BushData) * Z * QueryLog) :=
  match idxs with
  | [] => Some (rs, groundChecksThisFrame, [])
  | roomIdx0 :: rest =>
      if groundChecksThisFrame >? kMaxGroundChecksPerFrame
      then Some (rs, groundChecksThisFrame, [])
      else if Z.of_nat roomIdx0 =? mStayNo globals
      then update_loop an rest rs groundChecksThisFrame
      else
        '(rs1, n1, l1) ← updateRoom an rs (Z.of_nat roomIdx0) groundChecksThisFrame;
        '(rs2, n2, l2) ← update_loop an rest rs1 n1;
        Some (rs2, n2, l1 ++ l2)
  end.

Definition update (p : t) : option (t * QueryLog) :=
  an ← update_anims (anims p);
  '(rs1, n1, l1) ← updateRoom an (rooms p) (mStayNo globals) 0;
  '(rs2, _, l2) ← update_loop an (seq 0 (length rs1)) rs1 n1;
  Some ({| rooms := rs2; anims := an |}, l1 ++ l2).

End Update.
End BushPacket.

End Grass.

(* ===================================================================== *)
(** ** The budgeted ground-check pass, common to the four packets *)
(* ===================================================================== *)

(** The four [update] methods walk room buckets in some order, service the
    flagged instances they meet while the counter is below the budget, and
    refresh model matrices.  [pass_rooms] is that walk with the packet's
    operations and the order as parameters; each packet's [update] is shown
    below to be an instance of it, and the properties of the walk are proved
    once. *)

Module BudgetPass.
Import Grass.
Local Open Scope Z_scope.

Section Pass.
Context {D : Type}.
Variable needs : D -> bool.
Variable service : nat -> D -> D.
Variable refresh : D -> option D.
Variable brk : bool.

Fixpoint pass_room (r : nat) (room : list D) (i : nat) (n : Z)
    : option (list D * Z * QueryLog) :=
  match room with
  | [] => Some ([], n, [])
  | d :: rest =>
      if brk && (n >=? kMaxGroundChecksPerFrame)
      then Some (room, n, [])
      else
        let '(d1, n1, l1) :=
          if needs d && (n <? kMaxGroundChecksPerFrame)
          then (service r d, n + 1, [(r, i)])
          else (d, n, []) in
        d2 ← refresh d1;
        '(rest', n2, l2) ← pass_room r rest (S i) n1;
        Some (d2 :: rest', n2, l1 ++ l2)
  end.

Fixpoint pass_rooms (order : list nat) (rs : list (list D)) (n : Z)
    : option (list (list D) * Z * QueryLog) :=
  match order with
  | [] => Some (rs, n, [])
  | r :: rest =>
      room ← rs !! r;
      '(room', n1, l1) ← pass_room r room 0 n;
      '(rs2, n2, l2) ← pass_rooms rest (<[r := room']> rs) n1;
      Some (rs2, n2, l1 ++ l2)
  end.

(** The flagged instances of a bucket, by position, from index [i] on. *)
Fixpoint flagged_from (r : nat) (room : list D) (i : nat) : QueryLog :=
  match room with
  | [] => []
  | d :: rest => (if needs d then [(r, i)] else []) ++ flagged_from r rest (S i)
  end.

(** The flagged instances of the packet in the order the walk meets them. *)
Definition flagged_in_order (order : list nat) (rs : list (list D)) : QueryLog :=
  concat (map (fun r => flagged_from r (default [] (rs !! r)) 0) order).

(** What the walk may leave in place of an instance [d] of room [r]. *)
Definition serviced (r : nat) (d d' : D) : Prop := refresh (service r d) = Some d'.
Definition untouched (d d' : D) : Prop := d' = d \/ refresh d = Some d'.

(** The walk completes when every bucket it visits exists and the model
    matrices of its instances can be refreshed. *)
Definition refreshable (r : nat) (d : D) : Prop :=
  is_Some (refresh d) /\ is_Some (refresh (service r d)).

End Pass.
End BudgetPass.

(* ===================================================================== *)
(** ** The four production packets under one interface *)
(* ===================================================================== *)

Module Packets.
Import JS glMatrix Grass.

Inductive Kind := KFlower | KTree | KGrass | KBush.

Definition packet (k : Kind) : Type :=
  match k with
  | KFlower => FlowerPacket.t
  | KTree => TreePacket.t
  | KGrass => GrassPacket.t
  | KBush => BushPacket.t
  end.

Definition instance (k : Kind) : Type :=
  match k with
  | KFlower => FlowerPacket.FlowerData
  | KTree => TreePacket.TreeData
  | KGrass => GrassPacket.GrassData
  | KBush => BushPacket.BushData
  end.

Definition rooms (k : Kind) : packet k -> list (list (instance k)) :=
  match k with
  | KFlower => FlowerPacket.rooms
  | KTree => TreePacket.rooms
  | KGrass => GrassPacket.rooms
  | KBush => BushPacket.rooms
  end.

Definition flags (k : Kind) : instance k -> Z :=
  match k with
  | KFlower => FlowerPacket.flags
  | KTree => TreePacket.flags
  | KGrass => GrassPacket.flags
  | KBush => BushPacket.flags
  end.

Definition pos (k : Kind) : instance k -> vec3 :=
  match k with
  | KFlower => FlowerPacket.pos
  | KTree => TreePacket.pos
  | KGrass => GrassPacket.pos
  | KBush => BushPacket.pos
  end.

(** The shadow-projection matrix; the Flower and Grass instances have none. *)
Definition shadowModelMtx (k : Kind) : instance k -> option mat4 :=
  match k with
  | KFlower => fun _ => None
  | KTree => fun d => Some (TreePacket.shadowModelMtx d)
  | KGrass => fun _ => None
  | KBush => fun d => Some (BushPacket.shadowModelMtx d)
  end.

(** [needsGroundCheck] is bit 1 in all four flag enums. *)
Definition needsGroundCheck (f : Z) : bool := truthy (Z.land f 2).

Definition update (k : Kind) (M : MathLib) (globals : dGlobals)
    : packet k -> option (packet k * QueryLog) :=
  match k with
  | KFlower => FlowerPacket.update M globals
  | KTree => TreePacket.update M globals
  | KGrass => GrassPacket.update M globals
  | KBush => BushPacket.update M globals
  end.

(** The ground check [update] performs on an instance it services. *)
Definition groundCheck (k : Kind) (globals : dGlobals)
    : nat -> instance k -> instance k :=
  match k with
  | KFlower => FlowerPacket.groundCheck globals
  | KTree => TreePacket.groundCheck globals
  | KGrass => GrassPacket.groundCheck globals
  | KBush => BushPacket.groundCheck globals
  end.

(** The instance at index [i] of room bucket [r]. *)
Definition instance_at (k : Kind) (p : packet k) (r i : nat) : option (instance k) :=
  room ← rooms k p !! r; room !! i.

Definition animIdx (k : Kind) : instance k -> Z :=
  match k with
  | KFlower => FlowerPacket.animIdx
  | KTree => TreePacket.animIdx
  | KGrass => GrassPacket.animIdx
  | KBush => BushPacket.animIdx
  end.

Definition anims_length (k : Kind) : packet k -> nat :=
  match k with
  | KFlower => fun p => length (FlowerPacket.anims p)
  | KTree => fun p => length (TreePacket.anims p)
  | KGrass => fun p => length (GrassPacket.anims p)
  | KBush => fun p => length (BushPacket.anims p)
  end.

(** What the constructors and [newData] establish and [update] relies on
    not to throw: the eight idle animations exist, every instance points
    at an animation of the pool, and (where [update] starts with the
    occupied room) [mStayNo] is one of the buckets. *)
Definition well_formed (k : Kind) (globals : dGlobals) (p : packet k) : Prop :=
  (8 <= anims_length k p)%nat
  /\ (forall r i d, instance_at k p r i = Some d ->
        (0 <= animIdx k d < Z.of_nat (anims_length k p))%Z)
  /\ match k with
     | KFlower => True
     | _ => (0 <= mStayNo globals < Z.of_nat (length (rooms k p)))%Z
     end.

(** The instances of a bucket whose [needsGroundCheck] flag is set / clear. *)
Definition count_flagged (k : Kind) (room : list (instance k)) : nat :=
  length (filter (fun d => needsGroundCheck (flags k d) = true) room).
Definition count_clear (k : Kind) (room : list (instance k)) : nat :=
  length (filter (fun d => needsGroundCheck (flags k d) = false) room).

(** The order in which [update] visits the room buckets. *)
Definition visit_order (k : Kind) (globals : dGlobals) (nrooms : nat) : list nat :=
  match k with
  | KFlower => seq 0 nrooms
  | _ => Z.to_nat (mStayNo globals)
         :: filter (fun r => Z.of_nat r <> mStayNo globals) (seq 0 nrooms)
  end.

End Packets.

(* ===================================================================== *)
(** ** src/WindWaker/d_a.ts: d_a_grass, the foliage spawner *)
(* ===================================================================== *)

Module DGrass.
Import JS glMatrix Grass.
Local Open Scope Z_scope.

(** The fields of the actor base class [fopAc_ac_c] that [subload] reads. *)
Record fopAc_ac_c := {
  parameters : Z;
  pos : vec3;
  rot : vec3;
  roomNo : Z;
}.

Record SpawnPattern := { group : Z; count : Z }.

Definition kSpawnPatterns : list SpawnPattern :=
  [ {| group := 0; count := 1 |};
    {| group := 0; count := 7 |};
    {| group := 1; count := 15 |};
    {| group := 2; count := 3 |};
    {| group := 3; count := 7 |};
    {| group := 4; count := 11 |};
    {| group := 5; count := 7 |};
    {| group := 6; count := 5 |} ].

Definition kSpawnOffsets : list (list (list Z)) :=
  [ [ [0; 0; 0]; [3; 0; -50]; [-2; 0; 50]; [50; 0; 27]; [52; 0; -25];
      [-50; 0; 22]; [-50; 0; -29] ];
    [ [-18; 0; 76]; [-15; 0; 26]; [133; 0; 0]; [80; 0; 23]; [86; 0; -83];
      [33; 0; -56]; [83; 0; -27]; [-120; 0; -26]; [-18; 0; -65];
      [-20; 0; -21]; [-73; 0; 1]; [-67; 0; -102]; [-21; 0; 126];
      [-120; 0; -78]; [-70; 0; -49]; [32; 0; 103]; [34; 0; 51];
      [-72; 0; 98]; [-68; 0; 47]; [33; 0; -5]; [135; 0; -53] ];
    [ [-75; 0; -50]; [75; 0; -25]; [14; 0; 106] ];
    [ [-24; 0; -28]; [27; 0; -28]; [-21; 0; 33]; [-18; 0; -34]; [44; 0; -4];
      [41; 0; 10]; [24; 0; 39] ];
    [ [-55; 0; -22]; [-28; 0; -50]; [-77; 0; 11]; [55; 0; -44]; [83; 0; -71];
      [11; 0; -48]; [97; 0; -34]; [-74; 0; -57]; [31; 0; 58]; [59; 0; 30];
      [13; 0; 23]; [-12; 0; 54]; [55; 0; 97]; [10; 0; 92]; [33; 0; -10];
      [-99; 0; -27]; [40; 0; -87] ];
    [ [0; 0; 3]; [-26; 0; -29]; [7; 0; -25]; [31; 0; -5]; [-7; 0; 40];
      [-35; 0; 15]; [23; 0; 32] ];
    [ [-40; 0; 0]; [0; 0; 0]; [80; 0; 0]; [-80; 0; 0]; [40; 0; 0] ] ].

Inductive FoliageType := Grass | Tree | WhiteFlower | PinkFlower.

(** The packets of [globals.scnPlay] that the spawner registers into. *)
Record dScnPlay := {
  grassPacket : GrassPacket.t;
  treePacket : TreePacket.t;
  flowerPacket : FlowerPacket.t;
}.

(** The three fields packed into the 32-bit parameter word. *)
Definition spawnPatternId (params : Z) : Z := Z.shiftr (Z.land params 0x00F) 0.
Definition foliageTypeBits (params : Z) : Z := Z.shiftr (Z.land params 0x030) 4.
Definition itemIdx (params : Z) : Z := Z.land (Z.shiftr params 6) 0x3f.

Definition foliageType (params : Z) : option FoliageType :=
  match foliageTypeBits params with
  | 0 => Some Grass
  | 1 => Some Tree
  | 2 => Some WhiteFlower
  | 3 => Some PinkFlower
  | _ => None
  end.

(** [offsets[j]] as the three numbers the loops read from it. *)
Definition offset_at (offsets : list (list Z)) (j : nat) : option (list number) :=
  o ← offsets !! j;
  x ← o !! 0%nat; y ← o !! 1%nat; z ← o !! 2%nat;
  Some [of_Z x; of_Z y; of_Z z].

Section Subload.
Variable M : MathLib.
Variable globals : dGlobals.
(** [rnd j]: the value of [Math.floor(Math.random() * 8)] in the [j]-th
    [newData] call of this [subload]. *)
Variable rnd : nat -> Z.
Variable this : fopAc_ac_c.

(** The three [for (j = 0; j < count; j++)] loops, from [j] on, [n]
    iterations left. *)
Fixpoint grass_loop (offsets : list (list Z)) (itemIdx0 : Z) (n j : nat)
    (p : GrassPacket.t) : option GrassPacket.t :=
  match n with
  | O => Some p
  | S n' =>
      o ← offset_at offsets j;
      let offset := vec3_set (f32_get o 0) (f32_get o 1) (f32_get o 2) in
      let pos0 := vec3_add offset (pos this) in
      '(p', _) ← GrassPacket.newData p (rnd j) pos0 (roomNo this) itemIdx0;
      grass_loop offsets itemIdx0 n' (S j) p'
  end.

Fixpoint tree_loop (offsets : list (list Z)) (rotation : mat4) (n j : nat)
    (p : TreePacket.t) : option TreePacket.t :=
  match n with
  | O => Some p
  | S n' =>
      o ← offset_at offsets j;
      let offset := vec3_transformMat4 o rotation in
      let pos0 := vec3_add offset (pos this) in
      '(p', _) ← TreePacket.newData p (rnd j) pos0 TreePacket.UNCUT (roomNo this);
      tree_loop offsets rotation n' (S j) p'
  end.

Fixpoint flower_loop (offsets : list (list Z)) (isPink : bool) (itemIdx0 : Z)
    (n j : nat) (p : FlowerPacket.t) : option FlowerPacket.t :=
  match n with
  | O => Some p
  | S n' =>
      o ← offset_at offsets j;
      let offset := vec3_set (f32_get o 0) (f32_get o 1) (f32_get o 2) in
      let pos0 := vec3_add offset (pos this) in
      '(p', _) ← FlowerPacket.newData p globals (rnd j) pos0 isPink
                   (roomNo this) itemIdx0;
      flower_loop offsets isPink itemIdx0 n' (S j) p'
  end.

(** [subload]: the packets after the call, [None] when it throws.  (It
    always returns [cPhs__Status.Next].) *)
Definition subload (scn : dScnPlay) : option dScnPlay :=
  let id := spawnPatternId (parameters this) in
  let itemIdx0 := itemIdx (parameters this) in
  pattern ← nth_Z kSpawnPatterns id;
  let offsets := default [] (nth_Z kSpawnOffsets (group pattern)) in
  let n := Z.to_nat (count pattern) in
  match foliageType (parameters this) with
  | Some Grass =>
      p ← grass_loop offsets itemIdx0 n 0 (grassPacket scn);
      Some {| grassPacket := p; treePacket := treePacket scn;
              flowerPacket := flowerPacket scn |}
  | Some Tree =>
      let rotation :=
        mat4_fromYRotation M (f32_get (rot this) 1 / 32767 * Math_PI)%float in
      p ← tree_loop offsets rotation n 0 (treePacket scn);
      Some {| grassPacket := grassPacket scn; treePacket := p;
              flowerPacket := flowerPacket scn |}
  | Some WhiteFlower =>
      p ← flower_loop offsets false itemIdx0 n 0 (flowerPacket scn);
      Some {| grassPacket := grassPacket scn; treePacket := treePacket scn;
              flowerPacket := p |}
  | Some PinkFlower =>
      p ← flower_loop offsets true itemIdx0 n 0 (flowerPacket scn);
      Some {| grassPacket := grassPacket scn; treePacket := treePacket scn;
              flowerPacket := p |}
  | None => Some scn
  end.

End Subload.
End DGrass.

(* ===================================================================== *)
(** ** src/j3d/WindWaker/Grass.ts: the legacy flower packet *)
(* ===================================================================== *)

Module LegacyGrass.
Import JS glMatrix.
Local Open Scope Z_scope.

Definition kMaxFlowerDatas : Z := 200.

Inductive FlowerType := WHITE | PINK | BESSOU.

Definition FlowerFlags_isFrustumCulled : Z := Z.shiftl 1 0.
Definition FlowerFlags_needsGroundCheck : Z := Z.shiftl 2 0.

(** [nextData] is only ever [null]. *)
#[warnings="-register-all"]
Inductive FlowerData := mkFlowerData {
  flags : Z;
  type : FlowerType;
  animIdx : Z;
  itemIdx : Z;
  particleLifetime : Z;
  pos : vec3;
  modelMatrix : mat4;
  nextData : option FlowerData;
}.

(** [datas = new Array(kMaxFlowerDatas)]: a JS array of length 200.  Its
    own properties are kept by key; a key in [0, 200) is a slot of the
    array, an absent one a hole, which reads as [undefined].  An assignment
    [datas[k] = v] with a key that is not an array index (such as [-1])
    adds the property and leaves the slots and the length alone. *)
Record FlowerPacket := {
  datas : gmap Z FlowerData;
  dataCount : Z;
  stage : string;
}.

(** [console.warn] lines. *)
Abbreviation Console := (list string).

(** [datas.findIndex(d => d === undefined)], scanning slots [i], [i+1], ...
    with [n] slots left. *)
Fixpoint findIndex_undefined (ds : gmap Z FlowerData) (i : Z) (n : nat) : Z :=
  match n with
  | O => -1
  | S n' =>
      match ds !! i with
      | None => i
      | Some _ => findIndex_undefined ds (i + 1) n'
      end
  end.

(** [setData]; [rnd] is the value of [Math.floor(Math.random() * 8)]. *)
Definition setData (p : FlowerPacket) (rnd : Z) (index : Z) (pos0 : vec3)
    (type0 : FlowerType) (roomIdx itemIdx0 : Z) : FlowerPacket * FlowerData :=
  let type1 :=
    if String.eqb (stage p) "sea" && (roomIdx =? 0x21) then BESSOU else type0 in
  let data :=
    {| flags := FlowerFlags_needsGroundCheck; type := type1; animIdx := rnd;
       itemIdx := itemIdx0; particleLifetime := 0; pos := vec3_clone pos0;
       modelMatrix := mat4_create; nextData := None |} in
  ({| datas := <[index := data]> (datas p); dataCount := dataCount p;
      stage := stage p |}, data).

Definition newData (p : FlowerPacket) (rnd : Z) (pos0 : vec3)
    (type0 : FlowerType) (roomIdx itemIdx0 : Z)
    : FlowerPacket * FlowerData * Console :=
  let dataIdx := findIndex_undefined (datas p) 0 (Z.to_nat kMaxFlowerDatas) in
  let warned :=
    if dataIdx =? -1 then ["Failed to allocate flower data"%string] else [] in
  (setData p rnd dataIdx pos0 type0 roomIdx itemIdx0, warned).

(** The slot [i] of the array, for [0 <= i < 200]. *)
Definition slot (p : FlowerPacket) (i : Z) : option FlowerData := datas p !! i.

End LegacyGrass.

(* ===================================================================== *)
(** ** src/Common/JSYSTEM/JStudio.ts *)
(* ===================================================================== *)

Module JStudio.
Import JS.
Local Open Scope Z_scope.

(** *** DataView *)

(** A [DataView] is the list of its bytes; a read outside it throws a
    [RangeError] (here [None]).  Multi-byte reads are big-endian. *)
Abbreviation DataView := (list Byte.byte).

Definition byte_at (view : DataView) (i : Z) : option Z :=
  if i <? 0 then None
  else (fun b => Z.of_N (Byte.to_N b)) <$> view !! Z.to_nat i.

Definition getUint8 (view : DataView) (byteOffset : Z) : option Z :=
  byte_at view byteOffset.

Definition getUint16 (view : DataView) (byteOffset : Z) : option Z :=
  b0 ← byte_at view byteOffset;
  b1 ← byte_at view (byteOffset + 1);
  Some (Z.lor (Z.shiftl b0 8) b1).

Definition getUint32 (view : DataView) (byteOffset : Z) : option Z :=
  b0 ← byte_at view byteOffset;
  b1 ← byte_at view (byteOffset + 1);
  b2 ← byte_at view (byteOffset + 2);
  b3 ← byte_at view (byteOffset + 3);
  Some (Z.lor (Z.shiftl b0 24) (Z.lor (Z.shiftl b1 16) (Z.lor (Z.shiftl b2 8) b3))).

(** Modelled from the spec: [align] of util, which is not among the sources.
    The spec has paragraph payloads 4-byte aligned and sequence regions
    start at the next 4-byte boundary: [align n multiple] is [n] rounded up
    to the next multiple of [multiple], a power of two. *)
Definition align (n multiple : Z) : Z :=
  let mask := multiple - 1 in
  Z.land (n + mask) (Z.lnot mask).

(** *** TParagraph *)

Record TParagraph := {
  type : Z;
  dataSize : Z;
  dataOffset : Z;
  nextOffset : Z;
}.

Definition TParagraph_parse (view : DataView) (byteIdx : Z) : option TParagraph :=
  dataSize0 ← getUint16 view byteIdx;
  '(dataSize1, type1, offset) ←
    (if Z.land dataSize0 0x8000 =? 0 then
       type0 ← getUint16 view (byteIdx + 2);
       Some (dataSize0, type0, 4)
     else
       w ← getUint32 view (byteIdx + 0);
       type0 ← getUint32 view (byteIdx + 4);
       Some (Z.land w (Z.lnot 0x80000000), type0, 8));
  if dataSize1 =? 0 then
    Some {| dataSize := dataSize1; type := type1; dataOffset := 0;
            nextOffset := byteIdx + offset |}
  else
    Some {| dataSize := dataSize1; type := type1; dataOffset := byteIdx + offset;
            nextOffset := byteIdx + offset + align dataSize1 4 |}.

(** *** STB objects *)

Inductive EStatus := Still | End | Wait | Suspend | Inactive.

Definition EStatus_eqb (a b : EStatus) : bool :=
  match a, b with
  | Still, Still | End, End | Wait, Wait | Suspend, Suspend
  | Inactive, Inactive => true
  | _, _ => false
  end.

(** What a call does that is visible outside the object: the calls into
    its adaptor, the calls of the subclass hook [do_paragraph], and every
    write of [mStatus]. *)
Inductive Event :=
| adaptor_do_begin
| adaptor_do_end
| adaptor_updateVariableValue (frameCount : number)
| adaptor_do_update (frameCount : number)
| adaptor_do_data (id contentOffset contentSize : Z)
| adaptor_log (msg : string) (param : option Z)
| do_paragraph (dataSize0 dataOffset0 param : Z)
| console_debug (cmd : Z)
| set_mStatus (s : EStatus).

Abbreviation Trace := (list Event).

Record STBObject := {
  mAdaptor : bool;
  mFlags : Z;
  mStatus : EStatus;
  mIsSequence : bool;
  mSuspendFrames : number;
  mData : DataView;
  pSequence : Z;
  pSequence_next : Z;
  mWait : number;
}.

(** A call returns, throws (a failed [assert], a [TypeError], a
    [RangeError]), or is cut off by the embedding's step bound. *)
Inductive Res (A : Type) :=
| Ok (a : A)
| Throw
| OutOfFuel.
Arguments Ok {A} a.
Arguments Throw {A}.
Arguments OutOfFuel {A}.

#[global] Instance Res_bind : MBind Res := fun A B f r =>
  match r with
  | Ok a => f a
  | Throw => Throw
  | OutOfFuel => OutOfFuel
  end.

Definition of_option {A} (o : option A) : Res A :=
  match o with Some a => Ok a | None => Throw end.

Definition assert (b : bool) : Res unit := if b then Ok tt else Throw.

(** Modelled from the spec: [createDataView] of [ArrayBufferSlice], which
    is not among the sources.  The spec has paragraph 0x81 forward an
    embedded blob to set-data: the call gives the view of [byteLength]
    bytes at [offs] of the data and throws when these bytes do not lie
    within the data, a negative [byteLength] among the cases. *)
Definition createDataView (view : DataView) (offs byteLength : Z) : Res unit :=
  assert ((0 <=? offs) && (0 <=? byteLength)
          && (offs + byteLength <=? Z.of_nat (length view))).

Definition with_status (o : STBObject) (s : EStatus) : STBObject :=
  {| mAdaptor := mAdaptor o; mFlags := mFlags o; mStatus := s;
     mIsSequence := mIsSequence o; mSuspendFrames := mSuspendFrames o;
     mData := mData o; pSequence := pSequence o;
     pSequence_next := pSequence_next o; mWait := mWait o |}.

Definition with_isSequence (o : STBObject) (b : bool) : STBObject :=
  {| mAdaptor := mAdaptor o; mFlags := mFlags o; mStatus := mStatus o;
     mIsSequence := b; mSuspendFrames := mSuspendFrames o;
     mData := mData o; pSequence := pSequence o;
     pSequence_next := pSequence_next o; mWait := mWait o |}.

Definition with_suspendFrames (o : STBObject) (x : number) : STBObject :=
  {| mAdaptor := mAdaptor o; mFlags := mFlags o; mStatus := mStatus o;
     mIsSequence := mIsSequence o; mSuspendFrames := x;
     mData := mData o; pSequence := pSequence o;
     pSequence_next := pSequence_next o; mWait := mWait o |}.

Definition with_pSequence (o : STBObject) (x : Z) : STBObject :=
  {| mAdaptor := mAdaptor o; mFlags := mFlags o; mStatus := mStatus o;
     mIsSequence := mIsSequence o; mSuspendFrames := mSuspendFrames o;
     mData := mData o; pSequence := x;
     pSequence_next := pSequence_next o; mWait := mWait o |}.

Definition with_pSequence_next (o : STBObject) (x : Z) : STBObject :=
  {| mAdaptor := mAdaptor o; mFlags := mFlags o; mStatus := mStatus o;
     mIsSequence := mIsSequence o; mSuspendFrames := mSuspendFrames o;
     mData := mData o; pSequence := pSequence o;
     pSequence_next := x; mWait := mWait o |}.

Definition with_wait (o : STBObject) (x : number) : STBObject :=
  {| mAdaptor := mAdaptor o; mFlags := mFlags o; mStatus := mStatus o;
     mIsSequence := mIsSequence o; mSuspendFrames := mSuspendFrames o;
     mData := mData o; pSequence := pSequence o;
     pSequence_next := pSequence_next o; mWait := x |}.

(** [this.mStatus = s], recorded. *)
Definition assign_status (o : STBObject) (s : EStatus) (tr : Trace)
    : STBObject * Trace :=
  (with_status o s, tr ++ [set_mStatus s]).

Definition do_begin (o : STBObject) (tr : Trace) : Trace :=
  if mAdaptor o then tr ++ [adaptor_do_begin] else tr.

Definition do_end (o : STBObject) (tr : Trace) : Trace :=
  if mAdaptor o then tr ++ [adaptor_do_end] else tr.

Definition do_wait (o : STBObject) (frameCount : number) (tr : Trace) : Trace :=
  if mAdaptor o
  then tr ++ [adaptor_updateVariableValue frameCount; adaptor_do_update frameCount]
  else tr.

Definition do_data (o : STBObject) (id contentOffset contentSize : Z) (tr : Trace)
    : Trace :=
  if mAdaptor o then tr ++ [adaptor_do_data id contentOffset contentSize] else tr.

(** [this.mAdaptor.log(msg)]: a [TypeError] without an adaptor. *)
Definition log (o : STBObject) (msg : string) (param : option Z) (tr : Trace)
    : Res Trace :=
  if mAdaptor o then Ok (tr ++ [adaptor_log msg param]) else Throw.

Definition isSuspended (o : STBObject) : bool := gt (mSuspendFrames o) 0.

Definition process_paragraph_reserved_ (o : STBObject)
    (dataSize0 dataOffset0 param : Z) (tr : Trace) : Res Trace :=
  match param with
  | 0x1 | 0x2 | 0x3 | 0x80 => Ok tr
  | 0x81 =>
      idSize ← of_option (getUint16 (mData o) (dataOffset0 + 2));
      _ ← assert (idSize =? 4);
      id ← of_option (getUint32 (mData o) (dataOffset0 + 4));
      let contentOffset := dataOffset0 + 4 + align idSize 4 in
      let contentSize := dataSize0 - (contentOffset - dataOffset0) in
      _ ← createDataView (mData o) contentOffset contentSize;
      tr1 ← log o "SetData" (Some id) tr;
      Ok (do_data o id contentOffset contentSize tr1)
  | _ => Ok tr
  end.

(** The [while (byteIdx < this.pSequence_next)] loop of the Paragraph
    command. *)
Fixpoint process_paragraphs (fuel : nat) (o : STBObject) (byteIdx : Z)
    (tr : Trace) : Res Trace :=
  if byteIdx <? pSequence_next o then
    match fuel with
    | O => OutOfFuel
    | S fuel' =>
        para ← of_option (TParagraph_parse (mData o) byteIdx);
        tr1 ← (if type para <=? 0xff
               then process_paragraph_reserved_ o (dataSize para)
                      (dataOffset para) (type para) tr
               else Ok (tr ++ [do_paragraph (dataSize para) (dataOffset para)
                                 (type para)]));
        process_paragraphs fuel' o (nextOffset para) tr1
    end
  else Ok tr.

Definition process_sequence (fuel : nat) (o : STBObject) (tr : Trace)
    : Res (STBObject * Trace) :=
  let byteIdx := pSequence o in
  cmd ← of_option (getUint8 (mData o) byteIdx);
  w ← of_option (getUint32 (mData o) byteIdx);
  let param := Z.land w 0xFFFFFF in
  let next :=
    if cmd =? 0 then 0
    else if cmd <=? 0x7f then byteIdx + 4
    else byteIdx + 4 + param in
  let o := with_pSequence_next o next in
  match cmd with
  | 0 => tr1 ← log o "End" None tr; Ok (o, tr1)
  | 1 => tr1 ← log o "SetFlag" (Some param) tr; Ok (o, tr1)
  | 2 => tr1 ← log o "Wait" (Some param) tr; Ok (with_wait o (of_Z param), tr1)
  | 3 => tr1 ← log o "Skip" (Some param) tr; Ok (o, tr1)
  | 4 => tr1 ← log o "Suspend" (Some param) tr;
         Ok (with_suspendFrames o (mSuspendFrames o + of_Z param)%float, tr1)
  | 0x80 => tr1 ← process_paragraphs fuel o (byteIdx + 4) tr; Ok (o, tr1)
  | _ => Ok (o, tr ++ [console_debug cmd])
  end.

Section Forward.
(** [this.mControl && this.mControl.isSuspended()], the state of the control
    that owns the object. *)
Variable controlSuspended : bool.

(** [forward]: [forward_outer] is an entry of the outer [while (true)],
    [forward_inner] one of the inner.  The result is the returned boolean,
    the object after the call and the trace. *)
Fixpoint forward_outer (fuel : nat) (o : STBObject) (frameCount : number)
    (hasWaited : bool) (tr : Trace) {struct fuel}
    : Res (bool * STBObject * Trace) :=
  match fuel with
  | O => OutOfFuel
  | S fuel' =>
      if truthy (Z.land (mFlags o) 0x8000) then
        if negb (EStatus_eqb (mStatus o) Inactive) then
          let '(o1, tr1) := assign_status o Inactive tr in
          Ok (true, o1, if mIsSequence o1 then do_end o1 tr1 else tr1)
        else Ok (true, o, tr)
      else
        '(o1, tr1) ←
          (if EStatus_eqb (mStatus o) Inactive then
             _ ← assert (mIsSequence o);
             Ok (assign_status o Wait (do_begin o tr))
           else Ok (o, tr));
        if controlSuspended || isSuspended o1 then
          if mIsSequence o1 then
            _ ← assert (EStatus_eqb (mStatus o1) Wait
                        || EStatus_eqb (mStatus o1) Suspend);
            let '(o2, tr2) := assign_status o1 Suspend tr1 in
            Ok (true, o2, do_wait o2 frameCount tr2)
          else Ok (true, o1, tr1)
        else forward_inner fuel' o1 frameCount hasWaited tr1
  end
with forward_inner (fuel : nat) (o : STBObject) (frameCount : number)
    (hasWaited : bool) (tr : Trace) {struct fuel}
    : Res (bool * STBObject * Trace) :=
  match fuel with
  | O => OutOfFuel
  | S fuel' =>
      let o := with_pSequence o (pSequence_next o) in
      if pSequence o =? 0 then
        if mIsSequence o then
          _ ← assert (negb (EStatus_eqb (mStatus o) Still));
          let tr1 := if negb hasWaited then do_wait o 0 tr else tr in
          let o1 := with_isSequence o false in
          let '(o2, tr2) := assign_status o1 End tr1 in
          Ok (false, o2, do_end o2 tr2)
        else Ok (false, o, tr)
      else
        '(o1, tr1) ←
          (if negb (mIsSequence o) then
             _ ← assert (EStatus_eqb (mStatus o) Still);
             let o' := with_isSequence o true in
             Ok (o', do_begin o' tr)
           else Ok (o, tr));
        let '(o2, tr2) := assign_status o1 Wait tr1 in
        '(o3, tr3, brk) ←
          (if PrimFloat.eqb (mWait o2) 0 then
             '(o', tr') ← process_sequence fuel' o2 tr2;
             Ok (o', tr', PrimFloat.eqb (mWait o') 0)
           else Ok (o2, tr2, false));
        if brk : bool then forward_outer fuel' o3 frameCount hasWaited tr3
        else
          _ ← assert (gt (mWait o3) 0);
          if ge frameCount (mWait o3) then
            let wait := mWait o3 in
            let frameCount' := (frameCount - mWait o3)%float in
            let o4 := with_wait o3 0 in
            forward_inner fuel' o4 frameCount' true (do_wait o4 wait tr3)
          else
            let o4 := with_wait o3 (mWait o3 - frameCount)%float in
            Ok (true, o4, do_wait o4 frameCount tr3)
  end.

Definition forward (fuel : nat) (o : STBObject) (frameCount : number)
    : Res (bool * STBObject * Trace) :=
  forward_outer fuel o frameCount false [].

End Forward.

(** The object as the constructor leaves it for a block object with flag
    word [flag], an id of [idLength] characters, data [data], and an
    adaptor. *)
Definition new_STBObject (flag idLength : Z) (data : DataView) : STBObject :=
  {| mAdaptor := true; mFlags := flag; mStatus := Still; mIsSequence := false;
     mSuspendFrames := 0; mData := data; pSequence := 0;
     pSequence_next := 0xC + align (idLength + 1) 4; mWait := 0 |}.

(** *** FVB: the list-parameter function value *)

Module FVB.
Local Open Scope float_scope.

(** [Attribute.Interpolate.Linear]. *)
Definition Linear (t t0 v0 t1 v1 : number) : number :=
  v0 + ((v1 - v0) * (t - t0)) / (t1 - t0).

(** [Attribute.Interpolate.BSpline_Nonuniform]; [cp] and [kn] are the
    [Float64Array]s of 4 control points and 6 knots. *)
Definition BSpline_Nonuniform (t : number) (cp kn : list number) : number :=
  let c := fun i => default nan (cp !! i) in
  let k := fun i => default nan (kn !! i) in
  let knot0 := k 0%nat in let knot1 := k 1%nat in let knot2 := k 2%nat in
  let knot3 := k 3%nat in let knot4 := k 4%nat in let knot5 := k 5%nat in
  let diff0 := t - knot0 in
  let diff1 := t - knot1 in
  let diff2 := t - knot2 in
  let diff3 := knot3 - t in
  let diff4 := knot4 - t in
  let diff5 := knot5 - t in
  let inverseDeltaKnot32 := 1 / (knot3 - knot2) in
  let blendFactor3 := (diff3 * inverseDeltaKnot32) / (knot3 - knot1) in
  let blendFactor2 := (diff2 * inverseDeltaKnot32) / (knot4 - knot2) in
  let blendFactor1 := (diff3 * blendFactor3) / (knot3 - knot0) in
  let blendFactor4 := ((diff1 * blendFactor3) + (diff4 * blendFactor2)) / (knot4 - knot1) in
  let blendFactor5 := (diff2 * blendFactor2) / (knot5 - knot2) in
  let term1 := diff3 * blendFactor1 in
  let term2 := (diff0 * blendFactor1) + (diff4 * blendFactor4) in
  let term3 := (diff1 * blendFactor4) + (diff5 * blendFactor5) in
  let term4 := diff2 * blendFactor5 in
  (term1 * c 0%nat) + (term2 * c 1%nat) + (term3 * c 2%nat) + (term4 * c 3%nat).

(** [Attribute.Range.getParameter]. *)
Definition Range_getParameter (time startTime endTime : value) : value := time.

(** The methods [interpFunc] can hold. *)
Inductive InterpFunc :=
| interpolateNone | interpolateLinear | interpolatePlateau | interpolateBSpline.

(** [EInterpolateType], as the number stored by [Attribute.Interpolate.set]. *)
Definition EInterpolateType_None : Z := 0.
Definition EInterpolateType_Linear : Z := 1.
Definition EInterpolateType_Plateau : Z := 2.
Definition EInterpolateType_BSpline : Z := 3.

Record FunctionValue_ListParameter := {
  interpolate : Z;
  keyCount : number;
  keys : Float32Array;
  curKeyIdx : number;
  interpFunc : option InterpFunc;
}.

(** A fresh object: [keyCount = 0], interpolation type [None], [keys],
    [curKeyIdx] and [interpFunc] not yet assigned. *)
Definition new_ListParameter : FunctionValue_ListParameter :=
  {| interpolate := EInterpolateType_None; keyCount := 0; keys := [];
     curKeyIdx := nan; interpFunc := None |}.

Definition with_interpolate (fv : FunctionValue_ListParameter) (ty : Z) :=
  {| interpolate := ty; keyCount := keyCount fv; keys := keys fv;
     curKeyIdx := curKeyIdx fv; interpFunc := interpFunc fv |}.

Definition with_interpFunc (fv : FunctionValue_ListParameter) (f : option InterpFunc) :=
  {| interpolate := interpolate fv; keyCount := keyCount fv; keys := keys fv;
     curKeyIdx := curKeyIdx fv; interpFunc := f |}.

Definition with_curKeyIdx (fv : FunctionValue_ListParameter) (c : number) :=
  {| interpolate := interpolate fv; keyCount := keyCount fv; keys := keys fv;
     curKeyIdx := c; interpFunc := interpFunc fv |}.

(** [prepare].  The [switch] has no [break] before the one that ends the
    BSpline case: control entering at [None], [Linear] or [Plateau] runs
    every assignment below it. *)
Definition prepare (fv : FunctionValue_ListParameter) : FunctionValue_ListParameter :=
  let interp := interpolate fv in
  let at_None := (interp =? EInterpolateType_None)%Z in
  let at_Linear := at_None || (interp =? EInterpolateType_Linear)%Z in
  let at_Plateau := at_Linear || (interp =? EInterpolateType_Plateau)%Z in
  let at_BSpline := at_Plateau || (interp =? EInterpolateType_BSpline)%Z in
  let f := interpFunc fv in
  let f := if at_None then Some interpolateNone else f in
  let f := if at_Linear then Some interpolateLinear else f in
  let f := if at_Plateau then Some interpolatePlateau else f in
  let f := if at_BSpline
           then (if gt (keyCount fv) 2 then Some interpolateBSpline
                 else Some interpolateLinear)
           else f in
  with_interpFunc fv f.

Definition setData (fv : FunctionValue_ListParameter) (values : Float32Array) :=
  {| interpolate := interpolate fv;
     keyCount := of_Z (Z.of_nat (length values)) / 2;
     keys := values; curKeyIdx := 0; interpFunc := interpFunc fv |}.

Definition getStartTime (fv : FunctionValue_ListParameter) : value :=
  elem (keys fv) 0.
Definition getEndTime (fv : FunctionValue_ListParameter) : value :=
  elem (keys fv) (of_Z (Z.of_nat (length (keys fv))) - 2).

(** [keys.findIndex((k, i) => (i % 2) == 0 && k >= t)], scanning from
    index [i]. *)
Fixpoint findIndex_key (ks : list number) (i : Z) (t : number) : Z :=
  match ks with
  | [] => -1
  | k :: rest =>
      if ((i mod 2 =? 0)%Z && ge k t)%bool then i
      else findIndex_key rest (i + 1)%Z t
  end.

Definition interpolateNone_ (fv : FunctionValue_ListParameter) (t : number) : value :=
  elem (keys fv) (curKeyIdx fv).

Definition interpolateLinear_ (fv : FunctionValue_ListParameter) (t : number) : value :=
  let ks := fun i => to_number (elem (keys fv) i) in
  let c := curKeyIdx fv * 2 in
  num (Linear t (ks (c - 2)) (ks (c - 1)) (ks (c + 0)) (ks (c + 1))).

Definition interpolatePlateau_ (fv : FunctionValue_ListParameter) (t : number) : value :=
  interpolateNone_ fv t.

Definition interpolateBSpline_ (fv : FunctionValue_ListParameter) (t : number) : value :=
  let ks := fun i => to_number (elem (keys fv) i) in
  let c := curKeyIdx fv * 2 in
  let cp1 := ks (c - 1) in
  let cp2 := ks (c + 1) in
  let kn2 := ks (c + -2) in
  let kn3 := ks (c + 0) in
  let keysBefore := curKeyIdx fv in
  let keysAfter := keyCount fv - curKeyIdx fv in
  let '(cp0, cp3, kn0, kn1, kn4, kn5) :=
    if PrimFloat.eqb keysBefore 1 then
      let cp0 := 2.0 * cp1 - cp2 in
      let cp3 := ks (c + 3) in
      let kn4 := ks (c + 2) in
      let kn1 := 2.0 * kn2 - kn3 in
      let kn0 := 2.0 * kn2 - kn4 in
      let kn5 :=
        if (PrimFloat.eqb keysAfter 1 || PrimFloat.eqb keysAfter 2)%bool
        then 2.0 * kn4 - kn3
        else ks (c + 4) in
      (cp0, cp3, kn0, kn1, kn4, kn5)
    else if PrimFloat.eqb keysBefore 2 then
      let cp0 := ks (c + -3) in
      let kn1 := ks (c + -4) in
      let kn0 := 2.0 * kn1 - kn2 in
      if PrimFloat.eqb keysAfter 1 then
        (cp0, 2.0 * cp2 - cp1, kn0, kn1, 2.0 * kn3 - kn2, 2.0 * kn3 - kn1)
      else if PrimFloat.eqb keysAfter 2 then
        let kn4 := ks (c + 2) in
        (cp0, ks (c + 3), kn0, kn1, kn4, 2.0 * kn4 - kn3)
      else
        (cp0, ks (c + 3), kn0, kn1, ks (c + 2), ks (c + 4))
    else
      let cp0 := ks (c + -3) in
      let kn1 := ks (c + -4) in
      let kn0 := ks (c + -6) in
      if PrimFloat.eqb keysAfter 1 then
        (cp0, 2.0 * cp2 - cp1, kn0, kn1, 2.0 * kn3 - kn2, 2.0 * kn3 - kn1)
      else if PrimFloat.eqb keysAfter 2 then
        let kn4 := ks (c + 2) in
        (cp0, ks (c + 3), kn0, kn1, kn4, 2.0 * kn4 - kn3)
      else
        (cp0, ks (c + 3), kn0, kn1, ks (c + 2), ks (c + 4)) in
  num (BSpline_Nonuniform t [cp0; cp1; cp2; cp3] [kn0; kn1; kn2; kn3; kn4; kn5]).

Definition call_interpFunc (f : InterpFunc) (fv : FunctionValue_ListParameter)
    (t : number) : value :=
  match f with
  | interpolateNone => interpolateNone_ fv t
  | interpolateLinear => interpolateLinear_ fv t
  | interpolatePlateau => interpolatePlateau_ fv t
  | interpolateBSpline => interpolateBSpline_ fv t
  end.

(** [getValue]: the value returned and the object after the call ([curKeyIdx]
    is updated); [None] when [interpFunc] was never assigned and the call
    throws. *)
Definition getValue (fv : FunctionValue_ListParameter) (timeSec : number)
    : option (value * FunctionValue_ListParameter) :=
  let t := to_number (Range_getParameter (num timeSec) (getStartTime fv) (getEndTime fv)) in
  let fv := with_curKeyIdx fv (of_Z (findIndex_key (keys fv) 0 t) / 2) in
  if PrimFloat.eqb (curKeyIdx fv) 0 then
    Some (elem (keys fv) (curKeyIdx fv * 2 + 1), fv)
  else if lt (curKeyIdx fv) 0 then
    let fv := with_curKeyIdx fv (keyCount fv - 1) in
    Some (elem (keys fv) (curKeyIdx fv * 2 + 1), fv)
  else
    f ← interpFunc fv;
    Some (call_interpFunc f fv t, fv).

(** A curve as [TObject.prepare] builds one from its paragraphs: the key
    data, the interpolation mode, then [prepare]. *)
Definition list_parameter (interp : Z) (values : Float32Array)
    : FunctionValue_ListParameter :=
  prepare (with_interpolate (setData new_ListParameter values) interp).

End FVB.

End JStudio.

(* ===================================================================== *)
(** ** src/rustlib.ts: the gain curve of the dynamic toon texture *)
(* ===================================================================== *)

(** [gain] computes on binary64 numbers.  [Math.pow] is the one call it
    makes: the language standard fixes its result in the cases listed in
    [Math_pow] and leaves the rest to the engine. *)

Module ToonTex.
Import JS.
Local Open Scope float_scope.

Definition is_NaN (x : number) : bool := negb (x =? x).

(** Whether a number is an integer, and whether it is an odd one. *)
Definition is_integer (y : number) : bool :=
  match Prim2SF y with
  | S754_zero _ => true
  | S754_finite _ m e =>
      (0 <=? e)%Z || (Zpos m mod 2 ^ (- e) =? 0)%Z
  | _ => false
  end.

Definition is_odd_integer (y : number) : bool :=
  match Prim2SF y with
  | S754_finite _ m e =>
      if (0 <? e)%Z then false
      else (Zpos m mod 2 ^ (- e) =? 0)%Z && Z.odd (Zpos m / 2 ^ (- e))
  | _ => false
  end.

(** [Math.pow], by the cases of the language standard
    ([Number::exponentiate]).  Where the standard asks for an
    implementation-approximated power, the result is the engine's:
    [engine base exponent]. *)
Definition Math_pow (engine : number -> number -> number)
    (base exponent : number) : number :=
  if is_NaN exponent then nan
  else if exponent =? 0 then 1
  else if is_NaN base then nan
  else if base =? infinity then (if 0 <? exponent then infinity else 0)
  else if base =? neg_infinity then
    if 0 <? exponent
    then (if is_odd_integer exponent then neg_infinity else infinity)
    else (if is_odd_integer exponent then neg_zero else 0)
  else if base =? 0 then
    match classify base with
    | NZero =>
        if 0 <? exponent
        then (if is_odd_integer exponent then neg_zero else 0)
        else (if is_odd_integer exponent then neg_infinity else infinity)
    | _ => if 0 <? exponent then 0 else infinity
    end
  else if exponent =? infinity then
    (if 1 <? abs base then infinity else if abs base =? 1 then nan else 0)
  else if exponent =? neg_infinity then
    (if 1 <? abs base then 0 else if abs base =? 1 then nan else infinity)
  else if (base <? 0) && negb (is_integer exponent) then nan
  else engine base exponent.

(** [gain]. *)
Definition gain (engine : number -> number -> number) (v k : number) : number :=
  let a := 0.5 * Math_pow engine (2 * (if v <? 0.5 then v else 1.0 - v)) k in
  if v <? 0.5 then a else 1.0 - a.

End ToonTex.

(* ===================================================================== *)
(** ** Inputs for the examples *)
(* ===================================================================== *)

(** Concrete packets, curves and programs on which the theorems below are
    instantiated. *)

Module Fixtures.
Import JS glMatrix Grass.
Local Open Scope Z_scope.

(** Sine and cosine at the zero angle, the only angle the example packets
    use; [NaN] elsewhere. *)
Definition zero_angle_math : MathLib :=
  {| Math_sin := fun x => if PrimFloat.eqb x 0 then x else nan;
     Math_cos := fun x => if PrimFloat.eqb x 0 then 1%float else nan |}.

(** An engine's sine and cosine at a quarter turn, the one angle the
    example of a turned tree asks for. *)
Definition quarter_turn_math : MathLib :=
  {| Math_sin := fun _ => 1%float; Math_cos := fun _ => 0%float |}.

(** An engine whose power is exact at the exponent 1, the only exponent
    the examples hand to it. *)
Definition engine_exact_at_1 : number -> number -> number := fun base _ => base.

(** A world with level ground at height 0, and one with no ground at all. *)
Definition flat_ground : dBgS :=
  {| GroundCross := fun _ => 0%float;
     GetTriPla_getNormal := fun _ => [0; 1; 0]%float |}.
Definition no_ground : dBgS :=
  {| GroundCross := fun _ => neg_infinity;
     GetTriPla_getNormal := fun _ => [0; 1; 0]%float |}.

Definition globals_in (bg : dBgS) (stay : Z) : dGlobals :=
  {| bgS := bg; mStayNo := stay; stageName := "sea" |}.

(** A flower and a tree as [newData] registers them at the origin. *)
Definition flower : FlowerPacket.FlowerData :=
  {| FlowerPacket.flags := FlowerFlags_needsGroundCheck;
     FlowerPacket.type := FlowerPacket.WHITE; FlowerPacket.animIdx := 0;
     FlowerPacket.itemIdx := 0; FlowerPacket.particleLifetime := 0;
     FlowerPacket.pos := vec3_clone [0; 0; 0]%float;
     FlowerPacket.modelMatrix := mat4_create |}.

Definition tree : TreePacket.TreeData :=
  {| TreePacket.flags := TreeFlags_needsGroundCheck; TreePacket.animIdx := 0;
     TreePacket.status := TreePacket.UNCUT; TreePacket.trunkAlpha := 0xFF;
     TreePacket.pos := vec3_clone [0; 0; 0]%float;
     TreePacket.unkMatrix := mat4_create; TreePacket.topModelMtx := mat4_create;
     TreePacket.trunkModelMtx := mat4_create;
     TreePacket.shadowModelMtx := mat4_create |}.

Definition flower_anim : FlowerPacket.FlowerAnim :=
  {| FlowerPacket.active := true; FlowerPacket.rotationX := 0;
     FlowerPacket.rotationY := 0; FlowerPacket.matrix := mat4_create |}.

Definition tree_anim : TreePacket.TreeAnim :=
  {| TreePacket.active := true; TreePacket.initialRotationShort := 0;
     TreePacket.topRotationY := 0; TreePacket.topRotationX := 0;
     TreePacket.trunkRotationX := 0; TreePacket.trunkFallYaw := 0;
     TreePacket.offset := vec3_create; TreePacket.topMtx := mat4_create;
     TreePacket.trunkMtx := mat4_create |}.

(** 64 buckets: eight flagged flowers in room 0, one in room 1. *)
Definition flowers_8_and_1 : FlowerPacket.t :=
  {| FlowerPacket.rooms := replicate 8 flower :: [flower] :: replicate 62 [];
     FlowerPacket.anims := replicate 8 flower_anim |}.

(** 64 buckets: twenty flagged flowers in room 5, none elsewhere. *)
Definition flowers_20 : FlowerPacket.t :=
  {| FlowerPacket.rooms := <[5%nat := replicate 20 flower]> (replicate 64 []);
     FlowerPacket.anims := replicate 8 flower_anim |}.

(** 64 buckets: one flagged tree in room 0, nine in room 1. *)
Definition trees_1_and_9 : TreePacket.t :=
  {| TreePacket.rooms := [tree] :: replicate 9 tree :: replicate 62 [];
     TreePacket.anims := replicate 8 tree_anim |}.

(** 64 buckets: one flagged tree in room 0. *)
Definition one_tree : TreePacket.t :=
  {| TreePacket.rooms := [tree] :: replicate 63 [];
     TreePacket.anims := replicate 8 tree_anim |}.

(** A block object's data: a 16-byte header region, then the sequence,
    whose first command word is End. *)
Definition stb_end_first : JStudio.DataView :=
  replicate 16 Byte.x00 ++ [Byte.x00; Byte.x00; Byte.x00; Byte.x00].

(** The keys [(0,1), (1,5)] and [(0,0), (1,1), (2,4)]. *)
Definition keys_0_1_1_5 : Float32Array := [0; 1; 1; 5]%float.
Definition keys_0_0_1_1_2_4 : Float32Array := [0; 0; 1; 1; 2; 4]%float.

(** A legacy flower packet whose slots [0 .. n-1] are occupied. *)
Definition legacy_flower : LegacyGrass.FlowerData :=
  LegacyGrass.mkFlowerData LegacyGrass.FlowerFlags_needsGroundCheck
    LegacyGrass.WHITE 0 0 0 (vec3_clone [0; 0; 0]%float) mat4_create None.

Fixpoint legacy_filled (n : nat) : gmap Z LegacyGrass.FlowerData :=
  match n with
  | O => ∅
  | S n' => <[Z.of_nat n' := legacy_flower]> (legacy_filled n')
  end.

Definition legacy_full : LegacyGrass.FlowerPacket :=
  {| LegacyGrass.datas := legacy_filled 200; LegacyGrass.dataCount := 0;
     LegacyGrass.stage := "sea" |}.

(** Empty production packets with 64 buckets each. *)
Definition empty_scene : DGrass.dScnPlay :=
  {| DGrass.grassPacket :=
       {| GrassPacket.rooms := replicate 64 []; GrassPacket.anims := [] |};
     DGrass.treePacket :=
       {| TreePacket.rooms := replicate 64 []; TreePacket.anims := [] |};
     DGrass.flowerPacket :=
       {| FlowerPacket.rooms := replicate 64 []; FlowerPacket.anims := [] |} |}.

End Fixtures.

(* ===================================================================== *)
(** ** What the theorems say about spawned grass *)
(* ===================================================================== *)

Module SpawnSpec.
Import JS glMatrix Grass DGrass.

(** The record [GrassPacket.newData] registers for a position. *)
Definition spawned_grass (rnd itemIdx0 : Z) (pos0 : vec3) : GrassPacket.GrassData :=
  {| GrassPacket.flags := GrassFlags_needsGroundCheck; GrassPacket.animIdx := rnd;
     GrassPacket.itemIdx := itemIdx0; GrassPacket.pos := vec3_clone pos0;
     GrassPacket.modelMtx := mat4_create |}.

(** The actor's position plus the offset [o = [x; y; z]], as [vec3.add]
    computes it: no rotation of the offset. *)
Definition grass_pos (this : fopAc_ac_c) (o : list Z) : vec3 :=
  vec3_add (vec3_set (of_Z (o !!! 0%nat)) (of_Z (o !!! 1%nat)) (of_Z (o !!! 2%nat)))
           (pos this).

Local Open Scope float_scope.

(** The position of a spawned instance, in the arithmetic of the numbers
    themselves: the offset [o] plus the actor's position [apos], each
    component stored in single precision twice, by [vec3.add] into the
    scratch vector and by [vec3.clone] in [newData]. *)
Definition placed (apos : vec3) (o : list number) : vec3 :=
  [fround (fround (f32_get o 0 + f32_get apos 0));
   fround (fround (f32_get o 1 + f32_get apos 1));
   fround (fround (f32_get o 2 + f32_get apos 2))].

(** What the spawn tables hold: integers that single precision
    represents. *)
Definition table_offset (o : list Z) : Prop :=
  match o with
  | [x; y; z] =>
      fround (of_Z x) = of_Z x /\ fround (of_Z y) = of_Z y
      /\ fround (of_Z z) = of_Z z
  | _ => False
  end.

End SpawnSpec.

(* ===================================================================== *)
(** ** src/WindWaker/Grass.ts: the backlog of ground checks over successive frames *)
(* ===================================================================== *)

Module Backlog.
Import JS Grass BudgetPass Packets.

(** The positions (bucket, index) of the instances whose [needsGroundCheck]
    flag is set, bucket by bucket. *)
Definition pending (k : Kind) (p : packet k) : QueryLog :=
  flagged_in_order (fun d => needsGroundCheck (flags k d))
    (seq 0 (length (rooms k p))) (rooms k p).

(** [n] successive calls of [update], one per frame. *)
Fixpoint updates (k : Kind) (M : MathLib) (globals : dGlobals) (n : nat)
    (p : packet k) : option (packet k) :=
  match n with
  | O => Some p
  | S n' => '(p', _) ← update k M globals p; updates k M globals n' p'
  end.

End Backlog.

(* ===================================================================== *)
(** ** src/WindWaker/d_a.ts: the instances a spawner registers *)
(* ===================================================================== *)

Module SpawnedFoliage.
Import JS glMatrix Grass DGrass.

(** [offsets[j]] as the numbers [vec3.set] and [vec3.transformMat4] read. *)
Definition offset_numbers (o : list Z) : list number :=
  [of_Z (o !!! 0%nat); of_Z (o !!! 1%nat); of_Z (o !!! 2%nat)].

(** The record [TreePacket.newData] registers for a position. *)
Definition spawned_tree (rnd : Z) (pos0 : vec3) : TreePacket.TreeData :=
  {| TreePacket.flags := TreeFlags_needsGroundCheck; TreePacket.animIdx := rnd;
     TreePacket.status := TreePacket.UNCUT; TreePacket.trunkAlpha := 0xFF;
     TreePacket.pos := vec3_clone pos0;
     TreePacket.unkMatrix := mat4_create; TreePacket.topModelMtx := mat4_create;
     TreePacket.trunkModelMtx := mat4_create;
     TreePacket.shadowModelMtx := mat4_create |}.

(** The position of a tree: the offset turned by [rotation], plus the
    actor's position. *)
Definition tree_pos (this : fopAc_ac_c) (rotation : mat4) (o : list Z) : vec3 :=
  vec3_add (vec3_transformMat4 (offset_numbers o) rotation) (pos this).

(** The record [FlowerPacket.newData] registers for a position. *)
Definition spawned_flower (globals : dGlobals) (rnd : Z) (isPink : bool)
    (roomIdx itemIdx0 : Z) (pos0 : vec3) : FlowerPacket.FlowerData :=
  {| FlowerPacket.flags := FlowerFlags_needsGroundCheck;
     FlowerPacket.type :=
       if String.eqb (stageName globals) "sea" && (roomIdx =? 0x21)%Z && isPink
       then FlowerPacket.BESSOU
       else if isPink then FlowerPacket.PINK else FlowerPacket.WHITE;
     FlowerPacket.animIdx := rnd; FlowerPacket.itemIdx := itemIdx0;
     FlowerPacket.particleLifetime := 0;
     FlowerPacket.pos := vec3_clone pos0;
     FlowerPacket.modelMatrix := mat4_create |}.

Local Open Scope float_scope.

(** The offset [(x, y, z)] turned about the Y axis by the actor's yaw
    [rot[1]], a full turn being 2 * 0x7FFF: with [s] and [c] the sine and
    cosine of the angle in single precision, the components
    [c x + s z], [y] and [-s x + c z], with the terms that the matrix
    product adds for the zero entries of the rotation matrix. *)
Definition turned (M : MathLib) (yaw : number) (x y z : Z) : list number :=
  let rad := yaw / 32767 * Math_PI in
  let s := fround (Math_sin M rad) in
  let c := fround (Math_cos M rad) in
  let ns := fround (- Math_sin M rad) in
  [fround ((c * of_Z x + 0 * of_Z y + s * of_Z z + 0) / 1);
   of_Z y;
   fround ((ns * of_Z x + 0 * of_Z y + c * of_Z z + 0) / 1)].

(** For the offsets of the spawn tables, the homogeneous coordinate of
    the turned offset is 1 and its height is the offset's. *)
Definition level_offset (o : list Z) : Prop :=
  match o with
  | [x; y; z] =>
      0 * of_Z x + 0 * of_Z y + 0 * of_Z z + 1 = 1
      /\ fround ((0 * of_Z x + 1 * of_Z y + 0 * of_Z z + 0) / 1) = of_Z y
  | _ => False
  end.

End SpawnedFoliage.

(* ===================================================================== *)
(** ** src/j3d/WindWaker/Grass.ts: AGrass.create and its spawn tables *)
(* ===================================================================== *)

Module LegacyAGrass.
Import JS glMatrix LegacyGrass.
Local Open Scope Z_scope.

(** The fields of the actor that [AGrass.create] reads. *)
Record Actor := {
  parameters : Z;
  pos : vec3;
  roomIndex : Z;
}.

Record SpawnPattern := { group : Z; count : Z }.

Definition kGrassSpawnPatterns : list SpawnPattern :=
  [ {| group := 0; count := 1 |};
    {| group := 0; count := 7 |};
    {| group := 1; count := 15 |};
    {| group := 2; count := 3 |};
    {| group := 3; count := 7 |};
    {| group := 4; count := 11 |};
    {| group := 5; count := 7 |};
    {| group := 6; count := 5 |} ].

Definition kGrassSpawnOffsets : list (list (list Z)) :=
  [
    [ [0; 0; 0]; [3; 0; -0x32]; [-2; 0; 0x32]; [0x32; 0; 0x1b];
      [0x34; 0; -0x19]; [-0x32; 0; 0x16]; [-0x32; 0; -0x1d] ];
    [ [-0x12; 0; 0x4c]; [-0xf; 0; 0x1a]; [0x85; 0; 0]; [0x50; 0; 0x17];
      [0x56; 0; -0x53]; [0x21; 0; -0x38]; [0x53; 0; -0x1b];
      [-0x78; 0; -0x1a]; [-0x12; 0; -0x4a]; [-0x14; 0; -0x15]; [-0x49; 0; 1];
      [-0x43; 0; -0x66]; [-0x15; 0; 0x7e]; [-0x78; 0; -0x4e];
      [-0x46; 0; -0x31]; [0x20; 0; 0x67]; [0x22; 0; 0x33]; [-0x48; 0; 0x62];
      [-0x44; 0; 0x2f]; [0x21; 0; -5]; [0x87; 0; -0x35] ];
    [ [-0x4b; 0; -0x32]; [0x4b; 0; -0x19]; [0xe; 0; 0x6a] ];
    [ [-0x18; 0; -0x1c]; [0x1b; 0; -0x1c]; [-0x15; 0; 0x21];
      [-0x12; 0; -0x22]; [0x2c; 0; -4]; [0x29; 0; 10]; [0x18; 0; 0x27] ];
    [ [-0x37; 0; -0x16]; [-0x1c; 0; -0x32]; [-0x4d; 0; 0xb];
      [0x37; 0; -0x2c]; [0x53; 0; -0x47]; [0xb; 0; -0x30]; [0x61; 0; -0x22];
      [-0x4a; 0; -0x39]; [0x1f; 0; 0x3a]; [0x3b; 0; 0x1e]; [0xd; 0; 0x17];
      [-0xc; 0; 0x36]; [0x37; 0; 0x61]; [10; 0; 0x5c]; [0x21; 0; -10];
      [-99; 0; -0x1b]; [0x28; 0; -0x57] ];
    [ [0; 0; 3]; [-0x1a; 0; -0x1d]; [7; 0; -0x19]; [0x1f; 0; -5];
      [-7; 0; 0x28]; [-0x23; 0; 0xf]; [0x17; 0; 0x20] ];
    [ [-0x28; 0; 0]; [0; 0; 0]; [0x50; 0; 0]; [-0x50; 0; 0]; [0x28; 0; 0] ] ].

(** [new FlowerPacket(context)]: every slot a hole. *)
Definition new_FlowerPacket (stage0 : string) : FlowerPacket :=
  {| datas := ∅; dataCount := 0; stage := stage0 |}.

(** The flower loop of [create] from [j] on, [n] iterations left; [rnd j]
    is the value of [Math.floor(Math.random() * 8)] in the [j]-th
    [newData]. *)
Fixpoint flower_loop (rnd : nat -> Z) (actor : Actor) (offsets : list (list Z))
    (flowerType : FlowerType) (itemIdx0 : Z) (n j : nat)
    (p : FlowerPacket) (con : Console) : option (FlowerPacket * Console) :=
  match n with
  | O => Some (p, con)
  | S n' =>
      o ← DGrass.offset_at offsets j;
      let offset := vec3_set (f32_get o 0) (f32_get o 1) (f32_get o 2) in
      let pos0 := vec3_add offset (pos actor) in
      let '(p', _, warned) :=
        newData p (rnd j) pos0 flowerType (roomIndex actor) itemIdx0 in
      flower_loop rnd actor offsets flowerType itemIdx0 n' (S j) p' (con ++ warned)
  end.

(** [AGrass.create]: [context.flowerPacket] after the call and the lines
    warned; [None] when the call throws.  [stage0] is [context.stage]. *)
Definition create (rnd : nat -> Z) (stage0 : string)
    (flowerPacket : option FlowerPacket) (actor : Actor)
    : option (option FlowerPacket * Console) :=
  let spawnPatternId := Z.shiftr (Z.land (parameters actor) 0x00F) 0 in
  let type0 := Z.shiftr (Z.land (parameters actor) 0x030) 4 in
  pattern ← nth_Z kGrassSpawnPatterns spawnPatternId;
  let offsets := default [] (nth_Z kGrassSpawnOffsets (group pattern)) in
  let n := Z.to_nat (count pattern) in
  match type0 with
  | 2 | 3 =>
      let p := default (new_FlowerPacket stage0) flowerPacket in
      let itemIdx0 := Z.land (Z.shiftr (parameters actor) 6) 0x3f in
      let flowerType := if type0 =? 2 then WHITE else PINK in
      '(p', con) ← flower_loop rnd actor offsets flowerType itemIdx0 n 0 p [];
      Some (Some p', con)
  | _ => Some (flowerPacket, [])
  end.

(** The slots [0 .. m-1] are occupied, the slots [m .. 199] are holes. *)
Definition filled_to (p : FlowerPacket) (m : Z) : Prop :=
  (forall i, 0 <= i < m -> is_Some (slot p i))
  /\ (forall i, m <= i < kMaxFlowerDatas -> slot p i = None).

(** The record the [j]-th iteration of the flower loop registers. *)
Definition legacy_spawned (stage0 : string) (rnd : nat -> Z) (actor : Actor)
    (offsets : list (list Z)) (ty : FlowerType) (item : Z) (j : nat) : FlowerData :=
  snd (setData (new_FlowerPacket stage0) (rnd j) 0
         (vec3_add (vec3_set (of_Z ((offsets !!! j) !!! 0%nat))
                             (of_Z ((offsets !!! j) !!! 1%nat))
                             (of_Z ((offsets !!! j) !!! 2%nat)))
                   (pos actor))
         ty (roomIndex actor) item).

(** A packet whose slots [0 .. 4] are occupied. *)
Definition legacy_partial : FlowerPacket :=
  {| datas := Fixtures.legacy_filled 5; dataCount := 0; stage := "sea" |}.

End LegacyAGrass.

(* ===================================================================== *)
(** ** src/Common/JSYSTEM/JStudio.ts: TVariableValue and TAdaptor *)
(* ===================================================================== *)

Module VariableValue.
Import JS glMatrix.
Local Open Scope float_scope.

(** What a field of a [TVariableValue] can hold: [undefined], a number, or
    a function value, an object of which only the [getValue] method is
    used. *)
Inductive jsval :=
| js_undefined
| js_number (x : number)
| js_functionValue (getValue : number -> value).

Definition of_value (v : value) : jsval :=
  match v with undefined => js_undefined | num x => js_number x end.

(** The number a value stands for in arithmetic: [NaN] for [undefined] and
    for an object. *)
Definition ToNumber (v : jsval) : number :=
  match v with js_number x => x | _ => nan end.

Definition Number_MAX_VALUE : number := 0x1.fffffffffffffp+1023.

(** The three static update functions. *)
Inductive UpdateFunc := update_immediate | update_time | update_functionValue.

Section WithOutput.
(** The output functions an adaptor installs with [setOutput], by name;
    a call of one is recorded with the value it is passed. *)
Context {O : Type}.

Record TVariableValue := {
  mValue : jsval;
  mAge : value;
  mUpdateFunc : option UpdateFunc;
  mUpdateParam : jsval;
  mOutputFunc : option O;
}.

(** [new TVariableValue()]: no field has an initializer. *)
Definition new_TVariableValue : TVariableValue :=
  {| mValue := js_undefined; mAge := undefined; mUpdateFunc := None;
     mUpdateParam := js_undefined; mOutputFunc := None |}.

Definition getValue (vv : TVariableValue) : jsval := mValue vv.

Definition with_mAge (vv : TVariableValue) (age : value) : TVariableValue :=
  {| mValue := mValue vv; mAge := age; mUpdateFunc := mUpdateFunc vv;
     mUpdateParam := mUpdateParam vv; mOutputFunc := mOutputFunc vv |}.

Definition with_mValue (vv : TVariableValue) (v : jsval) : TVariableValue :=
  {| mValue := v; mAge := mAge vv; mUpdateFunc := mUpdateFunc vv;
     mUpdateParam := mUpdateParam vv; mOutputFunc := mOutputFunc vv |}.

Definition with_mUpdateFunc (vv : TVariableValue) (f : option UpdateFunc)
    : TVariableValue :=
  {| mValue := mValue vv; mAge := mAge vv; mUpdateFunc := f;
     mUpdateParam := mUpdateParam vv; mOutputFunc := mOutputFunc vv |}.

Definition forward (vv : TVariableValue) (frameCount : number) : TVariableValue :=
  if Number_MAX_VALUE - to_number (mAge vv) <=? frameCount
  then with_mAge vv (num Number_MAX_VALUE)
  else with_mAge vv (num (to_number (mAge vv) + frameCount)).

(** A call of [mUpdateFunc]; [None] is a [TypeError]. *)
Definition call_updateFunc (f : UpdateFunc) (varval : TVariableValue)
    (secondsPerFrame : number) : option TVariableValue :=
  match f with
  | update_immediate =>
      Some (with_mUpdateFunc (with_mValue varval (mUpdateParam varval)) None)
  | update_time =>
      Some (with_mValue varval
              (js_number (ToNumber (mUpdateParam varval)
                          * (to_number (mAge varval) * secondsPerFrame))))
  | update_functionValue =>
      let t := to_number (mAge varval) * secondsPerFrame in
      match mUpdateParam varval with
      | js_functionValue getValue0 => Some (with_mValue varval (of_value (getValue0 t)))
      | _ => None
      end
  end.

(** [update]: the variable after the call and the calls of the output
    function. *)
Definition update (vv : TVariableValue) (secondsPerFrame : number)
    : option (TVariableValue * list (O * jsval)) :=
  match mUpdateFunc vv with
  | Some f =>
      vv' ← call_updateFunc f vv secondsPerFrame;
      Some (vv', match mOutputFunc vv' with
                 | Some out => [(out, mValue vv')]
                 | None => []
                 end)
  | None => Some (vv, [])
  end.

Definition setValue_none (vv : TVariableValue) : TVariableValue :=
  with_mUpdateFunc vv None.

(** The three setters share their body; [assert(v !== undefined)] throws. *)
Definition setValue (f : UpdateFunc) (vv : TVariableValue) (v : jsval)
    : option TVariableValue :=
  match v with
  | js_undefined => None
  | _ => Some {| mValue := mValue vv; mAge := num 0; mUpdateFunc := Some f;
                 mUpdateParam := v; mOutputFunc := mOutputFunc vv |}
  end.

Definition setValue_immediate := setValue update_immediate.
Definition setValue_time := setValue update_time.
Definition setValue_functionValue := setValue update_functionValue.

Definition setOutput (vv : TVariableValue) (outputFunc : option O) : TVariableValue :=
  {| mValue := mValue vv; mAge := mAge vv; mUpdateFunc := mUpdateFunc vv;
     mUpdateParam := mUpdateParam vv; mOutputFunc := outputFunc |}.

(** *** TAdaptor: the tracks of variable values *)

Abbreviation Tracks := (list TVariableValue).

(** [nArray(mCount, i => new TVariableValue())]. *)
Definition new_Tracks (mCount : nat) : Tracks := replicate mCount new_TVariableValue.

(** [this.mVariableValues[keyIdx].method(...)]: a [TypeError] when there is
    no such track. *)
Definition at_track (vs : Tracks) (keyIdx : Z)
    (method : TVariableValue -> option TVariableValue) : option Tracks :=
  vv ← nth_Z vs keyIdx;
  vv' ← method vv;
  Some (<[Z.to_nat keyIdx := vv']> vs).

Definition adaptor_setVariableValue_Vec (vs : Tracks) (startKeyIdx : Z) (data : vec3)
    : option Tracks :=
  vs ← at_track vs (startKeyIdx + 0) (fun vv => setValue_immediate vv (of_value (elem data 0)));
  vs ← at_track vs (startKeyIdx + 1) (fun vv => setValue_immediate vv (of_value (elem data 1)));
  at_track vs (startKeyIdx + 2) (fun vv => setValue_immediate vv (of_value (elem data 2))).

(** [dst] after the call. *)
Definition adaptor_getVariableValue_Vec (vs : Tracks) (dst : vec3) (startKeyIdx : Z)
    : option vec3 :=
  v0 ← nth_Z vs (startKeyIdx + 0);
  let dst := f32_set dst 0 (ToNumber (getValue v0)) in
  v1 ← nth_Z vs (startKeyIdx + 1);
  let dst := f32_set dst 1 (ToNumber (getValue v1)) in
  v2 ← nth_Z vs (startKeyIdx + 2);
  Some (f32_set dst 2 (ToNumber (getValue v2))).

Record GfxColor := { r : jsval; g : jsval; b : jsval; a : jsval }.

Definition adaptor_setVariableValue_GXColor (vs : Tracks) (startKeyIdx : Z)
    (data : GfxColor) : option Tracks :=
  vs ← at_track vs (startKeyIdx + 0) (fun vv => setValue_immediate vv (r data));
  vs ← at_track vs (startKeyIdx + 1) (fun vv => setValue_immediate vv (g data));
  vs ← at_track vs (startKeyIdx + 2) (fun vv => setValue_immediate vv (b data));
  at_track vs (startKeyIdx + 4) (fun vv => setValue_immediate vv (a data)).

Definition adaptor_getVariableValue_GXColor (vs : Tracks) (dst : GfxColor)
    (startKeyIdx : Z) : option GfxColor :=
  v0 ← nth_Z vs (startKeyIdx + 0);
  v1 ← nth_Z vs (startKeyIdx + 1);
  v2 ← nth_Z vs (startKeyIdx + 2);
  v3 ← nth_Z vs (startKeyIdx + 2);
  Some {| r := getValue v0; g := getValue v1; b := getValue v2; a := getValue v3 |}.

(** [adaptor_updateVariableValue], from track [vs] on: the tracks after
    the call and the calls of output functions, in order. *)
Fixpoint adaptor_updateVariableValue (vs : Tracks) (secondsPerFrame frameCount : number)
    : option (Tracks * list (O * jsval)) :=
  match vs with
  | [] => Some ([], [])
  | vv :: rest =>
      '(vv', out) ← update (forward vv frameCount) secondsPerFrame;
      '(rest', outs) ← adaptor_updateVariableValue rest secondsPerFrame frameCount;
      Some (vv' :: rest', out ++ outs)
  end.

End WithOutput.
Arguments TVariableValue : clear implicits.

End VariableValue.

(* ===================================================================== *)
(** ** src/Common/JSYSTEM/JStudio.ts: TActorAdaptor *)
(* ===================================================================== *)

Module ActorAdaptor.
Import JS glMatrix VariableValue.
Local Open Scope Z_scope.

(** [EActorTrack]. *)
Definition AnimFrame : Z := 0.
Definition AnimTransition : Z := 1.
Definition TexAnimFrame : Z := 2.
Definition PosX : Z := 3.
Definition RotX : Z := 6.
Definition ScaleX : Z := 9.

(** The output functions [adaptor_do_prepare] installs. *)
Inductive Output := out_AnimTransition | out_AnimFrame | out_TexAnimFrame.

Abbreviation Tracks := (list (TVariableValue Output)).

(** The getters of the stage object that the adaptor calls.  A vector
    getter is given by what it leaves in [dst], from what [dst] held. *)
Record TActor := {
  JSGGetTranslation : vec3 -> vec3;
  JSGGetRotation : vec3 -> vec3;
  JSGGetScaling : vec3 -> vec3;
  JSGGetAnimationTransition : jsval;
  JSGGetAnimationFrame : jsval;
  JSGGetTextureAnimationFrame : jsval;
}.

(** The control's demo-space transform, present when [mTransformOrigin]
    is set. *)
Record Transform := {
  mTransformOnGetMtx : mat4;
  mTransformOnSetMtx : mat4;
  mTransformRotY : number;
}.

(** The module's scratch vectors. *)
Record Scratch := {
  scratchVec3a : vec3;
  scratchVec3b : vec3;
  scratchVec3c : vec3;
}.

(** [new TActorAdaptor(...)]: [super(14)]. *)
Definition new_TActorAdaptor : Tracks := new_Tracks 14.

Definition adaptor_do_prepare (vs : Tracks) : option Tracks :=
  vs ← at_track vs AnimTransition (fun vv => Some (setOutput vv (Some out_AnimTransition)));
  vs ← at_track vs AnimFrame (fun vv => Some (setOutput vv (Some out_AnimFrame)));
  at_track vs TexAnimFrame (fun vv => Some (setOutput vv (Some out_TexAnimFrame))).

(** [adaptor_do_begin]: the tracks and the scratch vectors after the call.
    The flag that [JSGFEnableFlag(1)] sets on the stage object is not part
    of the state modelled here. *)
Definition adaptor_do_begin (mObject : TActor) (transform : option Transform)
    (s : Scratch) (vs : Tracks) : option (Tracks * Scratch) :=
  let pos := JSGGetTranslation mObject (scratchVec3a s) in
  let rot := JSGGetRotation mObject (scratchVec3b s) in
  let scale := JSGGetScaling mObject (scratchVec3c s) in
  let '(pos, rot) :=
    match transform with
    | Some tr => (vec3_transformMat4 pos (mTransformOnGetMtx tr),
                  f32_set rot 1 (f32_get rot 1 - mTransformRotY tr)%float)
    | None => (pos, rot)
    end in
  vs ← adaptor_setVariableValue_Vec vs PosX pos;
  vs ← adaptor_setVariableValue_Vec vs RotX rot;
  vs ← adaptor_setVariableValue_Vec vs ScaleX scale;
  vs ← at_track vs AnimTransition
         (fun vv => setValue_immediate vv (JSGGetAnimationTransition mObject));
  vs ← at_track vs AnimFrame
         (fun vv => setValue_immediate vv (JSGGetAnimationFrame mObject));
  vs ← at_track vs AnimFrame
         (fun vv => setValue_immediate vv (JSGGetTextureAnimationFrame mObject));
  Some (vs, {| scratchVec3a := pos; scratchVec3b := rot; scratchVec3c := scale |}).

(** [adaptor_do_update]: the vectors passed to [JSGSetTranslation],
    [JSGSetRotation] and [JSGSetScaling]. *)
Definition adaptor_do_update (transform : option Transform) (s : Scratch)
    (vs : Tracks) : option (vec3 * vec3 * vec3) :=
  pos ← adaptor_getVariableValue_Vec vs (scratchVec3a s) PosX;
  rot ← adaptor_getVariableValue_Vec vs (scratchVec3b s) RotX;
  scale ← adaptor_getVariableValue_Vec vs (scratchVec3c s) ScaleX;
  let '(pos, rot) :=
    match transform with
    | Some tr => (vec3_transformMat4 pos (mTransformOnSetMtx tr),
                  f32_set rot 1 (f32_get rot 1 + mTransformRotY tr)%float)
    | None => (pos, rot)
    end in
  Some (pos, rot, scale).

End ActorAdaptor.

(* ===================================================================== *)
(** ** src/rustlib.ts: objectLayerVisible *)
(* ===================================================================== *)

Module RoomLayers.
Import JS.
Local Open Scope Z_scope.

(** The int32 an integer-valued number becomes as an operand of [&] and
    [<<]. *)
Definition ToInt32 (z : Z) : Z :=
  let m := z mod 2 ^ 32 in
  if m <? 2 ^ 31 then m else m - 2 ^ 32.

(** [a << b] on integer-valued numbers: the shift count is [b] modulo 32. *)
Definition shl (a b : Z) : Z := ToInt32 (Z.shiftl (ToInt32 a) (b mod 32)).

(** [a & b]. *)
Definition band (a b : Z) : Z := Z.land (ToInt32 a) (ToInt32 b).

Definition objectLayerVisible (layerMask layer : Z) : bool :=
  if layer <? 0 then true
  else truthy (band layerMask (shl 1 layer)).

End RoomLayers.

(* ===================================================================== *)
(** ** Further concrete packets, objects and adaptors *)
(* ===================================================================== *)

Module MoreFixtures.
Import JS glMatrix Grass Fixtures.
Local Open Scope Z_scope.

(** A flower whose ground check has been made. *)
Definition settled_flower : FlowerPacket.FlowerData :=
  {| FlowerPacket.flags := 0;
     FlowerPacket.type := FlowerPacket.WHITE; FlowerPacket.animIdx := 0;
     FlowerPacket.itemIdx := 0; FlowerPacket.particleLifetime := 0;
     FlowerPacket.pos := vec3_clone [0; 0; 0]%float;
     FlowerPacket.modelMatrix := mat4_create |}.

(** 64 buckets: one settled flower in room 0. *)
Definition settled_flowers : FlowerPacket.t :=
  {| FlowerPacket.rooms := [settled_flower] :: replicate 63 [];
     FlowerPacket.anims := replicate 8 flower_anim |}.

End MoreFixtures.

Module BlockFixtures.
Import JS JStudio Fixtures.
Local Open Scope Z_scope.

(** A block object's data whose first command word is Wait 5. *)
Definition stb_wait_first : DataView :=
  replicate 16 Byte.x00 ++ [Byte.x02; Byte.x00; Byte.x00; Byte.x05].

(** An object whose sequence has ended. *)
Definition ended_object : STBObject :=
  {| mAdaptor := true; mFlags := 0; mStatus := End; mIsSequence := false;
     mSuspendFrames := 0; mData := stb_end_first; pSequence := 0;
     pSequence_next := 0; mWait := 0 |}.

(** An object in its sequence, suspended for two frames. *)
Definition suspended_object : STBObject :=
  {| mAdaptor := true; mFlags := 0; mStatus := Wait; mIsSequence := true;
     mSuspendFrames := 2; mData := stb_wait_first; pSequence := 16;
     pSequence_next := 20; mWait := 0 |}.

(** The control object after [reset]: no adaptor. *)
Definition control_object : STBObject :=
  {| mAdaptor := false; mFlags := 0; mStatus := Still; mIsSequence := false;
     mSuspendFrames := 0; mData := stb_wait_first; pSequence := 0;
     pSequence_next := 16; mWait := 0 |}.

End BlockFixtures.

Module AdaptorFixtures.
Import JS glMatrix VariableValue ActorAdaptor.
Local Open Scope float_scope.

(** An actor at (1, 2, 3), unrotated, at unit scale, at frame 4 of its
    animation and frame 9 of its texture animation. *)
Definition still_actor : TActor :=
  {| JSGGetTranslation := fun _ => [1; 2; 3];
     JSGGetRotation := fun _ => [0; 0; 0];
     JSGGetScaling := fun _ => [1; 1; 1];
     JSGGetAnimationTransition := js_number 0;
     JSGGetAnimationFrame := js_number 4;
     JSGGetTextureAnimationFrame := js_number 9 |}.

Definition zero_scratch : Scratch :=
  {| scratchVec3a := vec3_create; scratchVec3b := vec3_create;
     scratchVec3c := vec3_create |}.

Definition opaque_red : GfxColor :=
  {| r := js_number 1; g := js_number 0; b := js_number 0; a := js_number 1 |}.

(** [mSecondsPerFrame]. *)
Definition seconds_per_frame : number := 1 / 30.

End AdaptorFixtures.

(* ===================================================================== *)
(** * Theorems *)
(* ===================================================================== *)

(* ===================================================================== *)
(** ** The foliage packets: one budgeted pass over the room buckets *)
(* ===================================================================== *)

Section Foliage.
Import JS glMatrix Grass BudgetPass Packets.
Local Open Scope Z_scope.

Section PassFacts.
Context {D : Type}.
Variable needs : D -> bool.
Variable service : nat -> D -> D.
Variable refresh : D -> option D.
Variable brk : bool.

Local Abbreviation pass_room := (BudgetPass.pass_room needs service refresh brk).
Local Abbreviation pass_rooms := (BudgetPass.pass_rooms needs service refresh brk).
Local Abbreviation flagged_from := (BudgetPass.flagged_from needs).
Local Abbreviation flagged_in_order := (BudgetPass.flagged_in_order needs).

Lemma pass_room_log r room : forall i n room' n' l,
  pass_room r room i n = Some (room', n', l) ->
  l = take (Z.to_nat (kMaxGroundChecksPerFrame - n)) (flagged_from r room i)
  /\ n' = n + Z.of_nat (length l) /\ length room' = length room.
Proof.
  unfold kMaxGroundChecksPerFrame.
  induction room as [|d rest IH]; intros i n room' n' l H; simpl in H.
  - inversion H; subst. simpl. rewrite take_nil. split; [done|]. split; [lia|done].
  - unfold kMaxGroundChecksPerFrame in H.
    destruct (brk && (n >=? 8)) eqn:Hb.
    + inversion H; subst. apply andb_true_iff in Hb as [_ Hn].
      replace (Z.to_nat (8 - n')) with 0%nat by lia. simpl. split; [done|]. split; [lia|done].
    + destruct (needs d && (n <? 8)) eqn:Hs.
      * apply andb_true_iff in Hs as [Hd Hn]. simpl in H.
        destruct (refresh (service r d)) as [d2|]; [|done]. simpl in H.
        destruct (pass_room r rest (S i) (n + 1)) as [[[rest' n2] l2]|] eqn:Hr; [|done].
        simpl in H. inversion H; subst. apply IH in Hr as (Hl & Hn2 & Hlen).
        simpl. rewrite Hd. simpl.
        replace (Z.to_nat (8 - n)) with (S (Z.to_nat (8 - (n + 1)))) by lia.
        simpl. rewrite <- Hl. split; [done|]. split; [simpl; lia|simpl; lia].
      * simpl in H. destruct (refresh d) as [d2|]; [|done]. simpl in H.
        destruct (pass_room r rest (S i) n) as [[[rest' n2] l2]|] eqn:Hr; [|done].
        simpl in H. inversion H; subst. apply IH in Hr as (Hl & Hn2 & Hlen).
        simpl. split; [|split; [lia|simpl; lia]].
        apply andb_false_iff in Hs as [Hd|Hn].
        -- rewrite Hd. simpl. done.
        -- replace (Z.to_nat (8 - n)) with 0%nat in * by lia.
           rewrite take_0 in Hl. subst. by rewrite take_0.
Qed.


Lemma elem_of_flagged_from r room : forall i r' k,
  (r', k) ∈ flagged_from r room i <->
  r' = r /\ (i <= k)%nat /\ exists d, room !! (k - i)%nat = Some d /\ needs d = true.
Proof.
  induction room as [|d rest IH]; intros i r' k; simpl.
  - split; [intros H; by apply elem_of_nil in H|].
    intros (_ & _ & d & Hd & _). by rewrite lookup_nil in Hd.
  - rewrite elem_of_app, IH. split.
    + intros [H|(-> & Hk & d' & Hd' & Hn)].
      * destruct (needs d) eqn:Hd; [|by apply elem_of_nil in H].
        apply list_elem_of_singleton in H. inversion H; subst.
        split; [done|]. split; [lia|]. exists d. by rewrite Nat.sub_diag.
      * split; [done|]. split; [lia|]. exists d'. split; [|done].
        replace (k - i)%nat with (S (k - S i)) by lia. done.
    + intros (-> & Hk & d' & Hd' & Hn).
      destruct (decide (k = i)) as [->|Hne].
      * left. rewrite Nat.sub_diag in Hd'. simpl in Hd'. inversion Hd'; subst.
        rewrite Hn. by apply list_elem_of_singleton.
      * right. split; [done|]. split; [lia|]. exists d'. split; [|done].
        replace (k - i)%nat with (S (k - S i)) in Hd' by lia. done.
Qed.

Lemma pass_room_at r room : forall i n room' n' l,
  pass_room r room i n = Some (room', n', l) ->
  forall j d, room !! j = Some d ->
  exists d', room' !! j = Some d' /\
    ((((r, (i + j)%nat) ∈ l) /\ serviced service refresh r d d')
     \/ (((r, (i + j)%nat) ∉ l) /\ untouched refresh d d')).
Proof.
  induction room as [|d0 rest IH]; intros i n room' n' l H j d Hj; [done|].
  simpl in H.
  destruct (brk && (n >=? kMaxGroundChecksPerFrame)) eqn:Hb.
  { inversion H; subst. exists d. split; [done|]. right.
    split; [intros Hx; by apply elem_of_nil in Hx | by left]. }
  destruct (needs d0 && (n <? kMaxGroundChecksPerFrame)) eqn:Hs; simpl in H.
  - destruct (refresh (service r d0)) as [d2|] eqn:Hd2; [|done]. simpl in H.
    destruct (pass_room r rest (S i) (n + 1)) as [[[rest' n2] l2]|] eqn:Hr; [|done].
    simpl in H. inversion H; subst. destruct j as [|j]; simpl in Hj.
    + inversion Hj; subst. exists d2. split; [done|]. left.
      split; [|done]. rewrite Nat.add_0_r. by left.
    + destruct (IH _ _ _ _ _ Hr j d Hj) as (d' & Hd' & Hcase).
      exists d'. split; [done|].
      replace (i + S j)%nat with (S i + j)%nat by lia.
      destruct Hcase as [[Hin Hsv]|[Hout Hun]]; [left|right]; split; try done.
      * by right.
      * intros Hin. apply elem_of_cons in Hin as [Heq|Hin]; [|done].
        inversion Heq; lia.
  - destruct (refresh d0) as [d2|] eqn:Hd2; [|done]. simpl in H.
    destruct (pass_room r rest (S i) n) as [[[rest' n2] l2]|] eqn:Hr; [|done].
    simpl in H. inversion H; subst. destruct j as [|j]; simpl in Hj.
    + inversion Hj; subst. exists d2. split; [done|]. right.
      split; [|by right]. intros Hin.
      apply pass_room_log in Hr as (-> & _ & _).
      apply elem_of_take in Hin as (k & Hk & _).
      apply list_elem_of_lookup_2, elem_of_flagged_from in Hk. lia.
    + destruct (IH _ _ _ _ _ Hr j d Hj) as (d' & Hd' & Hcase).
      exists d'. split; [done|].
      replace (i + S j)%nat with (S i + j)%nat by lia. done.
Qed.


Lemma elem_of_flagged_in_order order (rs : list (list D)) r k :
  (r, k) ∈ flagged_in_order order rs <->
  r ∈ order /\ exists room d, rs !! r = Some room /\ room !! k = Some d /\ needs d = true.
Proof.
  unfold BudgetPass.flagged_in_order.
  rewrite list_elem_of_In, in_concat. split.
  - intros (l & Hl & Hin). apply in_map_iff in Hl as (r0 & <- & Hr0).
    apply list_elem_of_In in Hin, Hr0.
    apply elem_of_flagged_from in Hin as (-> & _ & d & Hd & Hn).
    split; [done|]. rewrite Nat.sub_0_r in Hd.
    destruct (rs !! r0) as [room|] eqn:Hroom; simpl in Hd; [|by rewrite lookup_nil in Hd].
    by exists room, d.
  - intros (Hr & room & d & Hroom & Hd & Hn).
    exists (flagged_from r (default [] (rs !! r)) 0). split.
    + apply in_map_iff. exists r. split; [done|]. by apply list_elem_of_In.
    + apply list_elem_of_In, elem_of_flagged_from. split; [done|]. split; [lia|].
      exists d. rewrite Hroom, Nat.sub_0_r. done.
Qed.

Lemma flagged_in_order_insert_notin order (rs : list (list D)) r room' :
  r ∉ order ->
  flagged_in_order order (<[r := room']> rs) = flagged_in_order order rs.
Proof.
  intros Hr. unfold BudgetPass.flagged_in_order. f_equal.
  apply map_ext_in. intros r0 Hr0%list_elem_of_In.
  rewrite list_lookup_insert_ne; [done|]. by intros ->.
Qed.

Lemma pass_rooms_log order : forall rs n rs' n' l,
  NoDup order ->
  pass_rooms order rs n = Some (rs', n', l) ->
  l = take (Z.to_nat (kMaxGroundChecksPerFrame - n)) (flagged_in_order order rs)
  /\ n' = n + Z.of_nat (length l) /\ length rs' = length rs.
Proof.
  induction order as [|r rest IH]; intros rs n rs' n' l Hnd H; simpl in H.
  - inversion H; subst. unfold BudgetPass.flagged_in_order. simpl.
    rewrite take_nil. simpl. split; [done|]. split; [lia|done].
  - apply NoDup_cons in Hnd as [Hr Hnd].
    destruct (rs !! r) as [room|] eqn:Hroom; [|done]. simpl in H.
    destruct (pass_room r room 0 n) as [[[room' n1] l1]|] eqn:Hp; [|done].
    simpl in H.
    destruct (pass_rooms rest (<[r:=room']> rs) n1) as [[[rs2 n2] l2]|] eqn:Hq; [|done].
    simpl in H. inversion H; subst.
    apply pass_room_log in Hp as (Hl1 & Hn1 & Hlen1).
    apply IH in Hq as (Hl2 & Hn2 & Hlen2); [|done].
    rewrite flagged_in_order_insert_notin in Hl2 by done.
    rewrite length_insert in Hlen2.
    split; [|split; [rewrite length_app; lia|done]].
    unfold BudgetPass.flagged_in_order at 1. simpl. rewrite Hroom. simpl.
    fold (flagged_in_order rest rs).
    rewrite take_app. f_equal; [done|].
    rewrite Hl2. f_equal. subst n1.
    set (F := flagged_from r room 0) in *.
    set (k := Z.to_nat (kMaxGroundChecksPerFrame - n)) in *.
    assert (length l1 = Nat.min k (length F)) as Hlen by (subst l1; apply length_take).
    lia.
Qed.


Lemma pass_room_log_room r room i n room' n' l r' k :
  pass_room r room i n = Some (room', n', l) -> (r', k) ∈ l -> r' = r.
Proof.
  intros (-> & _ & _)%pass_room_log (j & Hj & _)%elem_of_take.
  by apply list_elem_of_lookup_2, elem_of_flagged_from in Hj as (-> & _).
Qed.

Lemma pass_rooms_log_room order rs n rs' n' l r k :
  NoDup order ->
  pass_rooms order rs n = Some (rs', n', l) -> (r, k) ∈ l -> r ∈ order.
Proof.
  intros Hnd (-> & _ & _)%pass_rooms_log (j & Hj & _)%elem_of_take; [|done].
  by apply list_elem_of_lookup_2, elem_of_flagged_in_order in Hj as (? & _).
Qed.

Lemma pass_rooms_notin order : forall rs n rs' n' l r,
  pass_rooms order rs n = Some (rs', n', l) -> r ∉ order -> rs' !! r = rs !! r.
Proof.
  induction order as [|r0 rest IH]; intros rs n rs' n' l r H Hr; simpl in H.
  - by inversion H.
  - apply not_elem_of_cons in Hr as [Hne Hr].
    destruct (rs !! r0) as [room|] eqn:Hroom; [|done]. simpl in H.
    destruct (pass_room r0 room 0 n) as [[[room' n1] l1]|] eqn:Hp; [|done].
    simpl in H.
    destruct (pass_rooms rest (<[r0:=room']> rs) n1) as [[[rs2 n2] l2]|] eqn:Hq; [|done].
    simpl in H. inversion H; subst.
    rewrite (IH _ _ _ _ _ _ Hq Hr). by apply list_lookup_insert_ne.
Qed.

Lemma pass_rooms_at order : forall rs n rs' n' l,
  NoDup order ->
  pass_rooms order rs n = Some (rs', n', l) ->
  forall r room, rs !! r = Some room ->
  exists room', rs' !! r = Some room' /\ length room' = length room /\
    forall j d, room !! j = Some d ->
    exists d', room' !! j = Some d' /\
      ((((r, j) ∈ l) /\ serviced service refresh r d d')
       \/ (((r, j) ∉ l) /\ untouched refresh d d')).
Proof.
  induction order as [|r0 rest IH]; intros rs n rs' n' l Hnd H r room Hr; simpl in H.
  - inversion H; subst. exists room. split; [done|]. split; [done|].
    intros j d Hd. exists d. split; [done|]. right.
    split; [intros Hx; by apply elem_of_nil in Hx | by left].
  - apply NoDup_cons in Hnd as [Hr0 Hnd].
    destruct (rs !! r0) as [room0|] eqn:Hroom; [|done]. simpl in H.
    destruct (pass_room r0 room0 0 n) as [[[room0' n1] l1]|] eqn:Hp; [|done].
    simpl in H.
    destruct (pass_rooms rest (<[r0:=room0']> rs) n1) as [[[rs2 n2] l2]|] eqn:Hq; [|done].
    simpl in H. inversion H; subst.
    destruct (decide (r = r0)) as [->|Hne].
    + rewrite Hroom in Hr. inversion Hr; subst.
      exists room0'. split.
      { rewrite (pass_rooms_notin _ _ _ _ _ _ _ Hq Hr0).
        apply list_lookup_insert_eq. by eapply lookup_lt_Some. }
      split; [by apply pass_room_log in Hp as (_ & _ & ?)|].
      intros j d Hd. destruct (pass_room_at _ _ _ _ _ _ _ Hp j d Hd) as (d' & Hd' & Hc).
      exists d'. split; [done|]. simpl in Hc.
      destruct Hc as [[Hin Hs]|[Hout Hu]]; [left|right]; split; try done.
      * apply elem_of_app. by left.
      * intros [Hin|Hin]%elem_of_app; [done|].
        by apply (pass_rooms_log_room _ _ _ _ _ _ _ _ Hnd Hq) in Hin.
    + destruct (IH _ _ _ _ _ Hnd Hq r room) as (room' & Hroom' & Hlen & Hat).
      { by rewrite list_lookup_insert_ne. }
      exists room'. split; [done|]. split; [done|].
      intros j d Hd. destruct (Hat j d Hd) as (d' & Hd' & Hc).
      exists d'. split; [done|].
      destruct Hc as [[Hin Hs]|[Hout Hu]]; [left|right]; split; try done.
      * apply elem_of_app. by right.
      * intros [Hin|Hin]%elem_of_app; [|done].
        by apply (pass_room_log_room _ _ _ _ _ _ _ _ _ Hp) in Hin.
Qed.

Local Abbreviation refreshable := (BudgetPass.refreshable service refresh).

Lemma pass_room_total r room :
  (forall d, d ∈ room -> refreshable r d) ->
  forall i n, is_Some (pass_room r room i n).
Proof.
  induction room as [|d rest IH]; intros Hok i n; simpl; [done|].
  destruct (brk && (n >=? kMaxGroundChecksPerFrame)); [done|].
  destruct (Hok d) as [[d1 Hd1] [d2 Hd2]]; [by left|].
  destruct (needs d && (n <? kMaxGroundChecksPerFrame)); simpl.
  - rewrite Hd2. simpl.
    destruct (IH (fun d' Hd' => Hok d' (list_elem_of_further _ _ _ Hd')) (S i) (n + 1))
      as [[[rest' n2] l2] ->]. done.
  - rewrite Hd1. simpl.
    destruct (IH (fun d' Hd' => Hok d' (list_elem_of_further _ _ _ Hd')) (S i) n)
      as [[[rest' n2] l2] ->]. done.
Qed.

Lemma pass_rooms_total order : forall rs n,
  NoDup order ->
  (forall r, r ∈ order ->
     exists room, rs !! r = Some room /\ forall d, d ∈ room -> refreshable r d) ->
  is_Some (pass_rooms order rs n).
Proof.
  induction order as [|r0 rest IH]; intros rs n Hnd Hok; simpl; [done|].
  apply NoDup_cons in Hnd as [Hr0 Hnd].
  destruct (Hok r0) as (room & Hroom & Hall); [by left|].
  rewrite Hroom. simpl.
  destruct (pass_room_total r0 room Hall 0%nat n) as [[[room' n1] l1] ->]. simpl.
  destruct (IH (<[r0:=room']> rs) n1 Hnd) as [[[rs2 n2] l2] ->]; [|done].
  intros r Hr. destruct (Hok r) as (room1 & Hroom1 & Hall1); [by right|].
  exists room1. split; [|done].
  rewrite list_lookup_insert_ne; [done|]. by intros ->.
Qed.

End PassFacts.

(* ------------------------------------------------------------------ *)
(* Each packet's loops are instances of the walk. *)

Lemma ge_lt_8 n : (n >=? 8) = false -> (n <? 8) = true.
Proof. lia. Qed.

Ltac room_loop_eq :=
  let room := fresh "room" in let d := fresh "d" in let IH := fresh "IH" in
  intros room; induction room as [|d rest IH]; intros i n; simpl; [done|];
  unfold kMaxGroundChecksPerFrame;
  destruct (n >=? 8) eqn:Hn; simpl; [done|];
  rewrite ?(ge_lt_8 _ Hn), ?andb_true_r;
  match goal with |- context [if ?b then _ else _] => destruct b end; simpl;
  match goal with |- context [mbind _ ?o] => destruct o; simpl; [|done] end;
  rewrite IH; done.

Lemma tree_updateRoom_loop_eq g an r : forall room i n,
  TreePacket.updateRoom_loop g an r room i n
  = pass_room TreePacket.flagged (TreePacket.groundCheck g)
      (TreePacket.updateModelMtx an) true r room i n.
Proof. room_loop_eq. Qed.

Lemma grass_updateRoom_loop_eq g an r : forall room i n,
  GrassPacket.updateRoom_loop g an r room i n
  = pass_room GrassPacket.flagged (GrassPacket.groundCheck g)
      (GrassPacket.updateModelMtx an) true r room i n.
Proof. room_loop_eq. Qed.

Lemma bush_updateRoom_loop_eq g an r : forall room i n,
  BushPacket.updateRoom_loop g an r room i n
  = pass_room BushPacket.flagged (BushPacket.groundCheck g)
      (BushPacket.updateModelMtx an) true r room i n.
Proof. room_loop_eq. Qed.

Lemma flower_update_room_eq g an r : forall room i n,
  FlowerPacket.update_room g an r room i n
  = pass_room FlowerPacket.flagged (FlowerPacket.groundCheck g)
      (FlowerPacket.updateModelMtx an) false r room i n.
Proof.
  intros room; induction room as [|d rest IH]; intros i n; simpl; [done|].
  unfold FlowerPacket.update_data.
  destruct (FlowerPacket.flagged d && (n <? kMaxGroundChecksPerFrame)); simpl.
  - destruct (FlowerPacket.updateModelMtx an _); simpl; [|done]. by rewrite IH.
  - destruct (FlowerPacket.updateModelMtx an _); simpl; [|done]. by rewrite IH.
Qed.

Lemma flower_update_rooms_eq g an rs : forall pre n,
  pass_rooms FlowerPacket.flagged (FlowerPacket.groundCheck g)
    (FlowerPacket.updateModelMtx an) false
    (seq (length pre) (length rs)) (pre ++ rs) n
  = (fun '(rs', n', l) => (pre ++ rs', n', l))
      <$> FlowerPacket.update_rooms g an rs (length pre) n.
Proof.
  induction rs as [|room rest IH]; intros pre n; simpl; [done|].
  rewrite list_lookup_middle by done. simpl.
  rewrite <- flower_update_room_eq.
  destruct (FlowerPacket.update_room g an (length pre) room 0 n)
    as [[[room' n1] l1]|]; simpl; [|done].
  rewrite insert_app_r_alt, Nat.sub_diag by done. simpl.
  replace (pre ++ room' :: rest) with ((pre ++ [room']) ++ rest)
    by (by rewrite <- app_assoc).
  replace (S (length pre)) with (length (pre ++ [room']))
    by (rewrite length_app; simpl; lia).
  rewrite IH.
  destruct (FlowerPacket.update_rooms g an rest (length (pre ++ [room'])) n1)
    as [[[rest' n2] l2]|]; simpl; [|done].
  by rewrite <- app_assoc.
Qed.

Lemma nth_Z_of_nat {A} (l : list A) (r : nat) : nth_Z l (Z.of_nat r) = l !! r.
Proof.
  unfold nth_Z. destruct (Z.ltb_spec (Z.of_nat r) 0); [exfalso; lia|]. by rewrite Nat2Z.id.
Qed.

Lemma nth_Z_nonneg {A} (l : list A) (z : Z) :
  0 <= z -> nth_Z l z = l !! Z.to_nat z.
Proof. intros H. unfold nth_Z. destruct (Z.ltb_spec z 0); [exfalso; lia|done]. Qed.

Lemma nth_Z_Some {A} (l : list A) (z : Z) x :
  nth_Z l z = Some x -> 0 <= z /\ l !! Z.to_nat z = Some x.
Proof. unfold nth_Z. destruct (Z.ltb_spec z 0); [done|]. split; [lia|done]. Qed.

Ltac update_loop_eq updateRoom room_eq :=
  let idxs := fresh "idxs" in let IH := fresh "IH" in
  intros idxs; induction idxs as [|r rest IH]; intros rs n Hn; simpl; [done|];
  unfold kMaxGroundChecksPerFrame in *;
  destruct (Z.gtb_spec n 8); [exfalso; lia|];
  rewrite filter_cons;
  match goal with |- context [Z.of_nat r =? ?s] => destruct (Z.eqb_spec (Z.of_nat r) s) end;
  [ rewrite decide_False by (intros ?; done); by apply IH
  | rewrite decide_True by done; simpl;
    unfold updateRoom;
    rewrite nth_Z_of_nat, Nat2Z.id;
    destruct (rs !! r) as [room|]; simpl; [|done];
    rewrite room_eq;
    destruct (pass_room _ _ _ _ _ _ _ _) as [[[room' n1] l1]|] eqn:Hp;
    simpl; [|done];
    apply pass_room_log in Hp as (Hl & Hn1 & _);
    assert (n1 <= 8) by
      (assert (length l1 <= Z.to_nat (8 - n))%nat
         by (rewrite Hl; unfold kMaxGroundChecksPerFrame; apply firstn_le_length);
       lia);
    rewrite IH by done; done ].

Lemma tree_update_loop_eq g an : forall idxs rs n, n <= kMaxGroundChecksPerFrame ->
  TreePacket.update_loop g an idxs rs n
  = pass_rooms TreePacket.flagged (TreePacket.groundCheck g)
      (TreePacket.updateModelMtx an) true
      (filter (fun r => Z.of_nat r <> mStayNo g) idxs) rs n.
Proof. update_loop_eq TreePacket.updateRoom tree_updateRoom_loop_eq. Qed.

Lemma grass_update_loop_eq g an : forall idxs rs n, n <= kMaxGroundChecksPerFrame ->
  GrassPacket.update_loop g an idxs rs n
  = pass_rooms GrassPacket.flagged (GrassPacket.groundCheck g)
      (GrassPacket.updateModelMtx an) true
      (filter (fun r => Z.of_nat r <> mStayNo g) idxs) rs n.
Proof. update_loop_eq GrassPacket.updateRoom grass_updateRoom_loop_eq. Qed.

Lemma bush_update_loop_eq g an : forall idxs rs n, n <= kMaxGroundChecksPerFrame ->
  BushPacket.update_loop g an idxs rs n
  = pass_rooms BushPacket.flagged (BushPacket.groundCheck g)
      (BushPacket.updateModelMtx an) true
      (filter (fun r => Z.of_nat r <> mStayNo g) idxs) rs n.
Proof. update_loop_eq BushPacket.updateRoom bush_updateRoom_loop_eq. Qed.


Lemma NoDup_stay_first (stay : Z) (n : nat) :
  0 <= stay ->
  NoDup (Z.to_nat stay :: filter (fun r => Z.of_nat r <> stay) (seq 0 n)).
Proof.
  intros Hs. apply NoDup_cons. split.
  - intros [H _]%list_elem_of_filter. lia.
  - apply NoDup_filter, NoDup_seq.
Qed.

Ltac stay_walk room_eq loop_eq :=
  match goal with H : _ = Some _ |- _ =>
    cbv [update Packets.update TreePacket.update GrassPacket.update BushPacket.update
         TreePacket.updateRoom GrassPacket.updateRoom BushPacket.updateRoom] in H;
    match type of H with context [mbind _ ?o] =>
      destruct o as [an|] eqn:Han; simpl in H; [|done] end;
    match type of H with context [nth_Z ?l ?z] =>
      destruct (nth_Z l z) as [room|] eqn:Hroom; simpl in H; [|done];
      apply nth_Z_Some in Hroom as [Hstay Hroom] end;
    rewrite room_eq in H;
    destruct (pass_room _ _ _ _ _ _ _ _) as [[[room' n1] l1]|] eqn:Hp;
    simpl in H; [|done];
    assert (n1 <= kMaxGroundChecksPerFrame) as Hbound by
      (pose proof Hp as Hlog; apply pass_room_log in Hlog as (Hl & Hn1 & _);
       assert (length l1 <= Z.to_nat (8 - 0))%nat
         by (rewrite Hl; unfold kMaxGroundChecksPerFrame; apply firstn_le_length);
       unfold kMaxGroundChecksPerFrame; lia);
    rewrite loop_eq in H by exact Hbound;
    rewrite length_insert in H;
    destruct (pass_rooms _ _ _ _ _ _ _) as [[[rs2 n2] l2]|] eqn:Hq;
    simpl in H; [|done];
    inversion H; subst; clear H
  end.

Lemma update_walk (k : Kind) M g (p p' : packet k) (log : QueryLog) :
  update k M g p = Some (p', log) ->
  exists (refresh : instance k -> option (instance k)) (brk : bool) (n' : Z),
    NoDup (visit_order k g (length (rooms k p)))
    /\ pass_rooms (fun d => needsGroundCheck (flags k d)) (groundCheck k g)
         refresh brk (visit_order k g (length (rooms k p))) (rooms k p) 0
       = Some (rooms k p', n', log)
    /\ (forall d d', refresh d = Some d' ->
          flags k d' = flags k d /\ pos k d' = pos k d
          /\ shadowModelMtx k d' = shadowModelMtx k d).
Proof.
  intros H. destruct k; simpl in *.
  - unfold FlowerPacket.update in H.
    destruct (FlowerPacket.update_anims M (FlowerPacket.anims p)) as [an|]; [|done].
    simpl in H.
    destruct (FlowerPacket.update_rooms g an (FlowerPacket.rooms p) 0 0)
      as [[[rs n'] l]|] eqn:Hr; [|done].
    simpl in H. inversion H; subst; clear H.
    exists (FlowerPacket.updateModelMtx an), false, n'.
    split; [apply NoDup_seq|]. split.
    + pose proof (flower_update_rooms_eq g an (FlowerPacket.rooms p) [] 0) as E.
      simpl in E. rewrite Hr in E. exact E.
    + intros d d'. unfold FlowerPacket.updateModelMtx.
      destruct (negb _); [|by intros [= ->]].
      destruct (nth_Z an _); simpl; [|done]. by intros [= <-].
  - stay_walk tree_updateRoom_loop_eq tree_update_loop_eq.
    exists (TreePacket.updateModelMtx an), true, n2.
    split; [by apply NoDup_stay_first|]. split.
    + assert (pass_rooms TreePacket.flagged (TreePacket.groundCheck g)
                (TreePacket.updateModelMtx an) true
                (Z.to_nat (mStayNo g)
                 :: filter (fun r => Z.of_nat r <> mStayNo g)
                      (seq 0 (length (TreePacket.rooms p))))
                (TreePacket.rooms p) 0 = Some (rs2, n2, l1 ++ l2)) as E
        by (simpl; rewrite Hroom; simpl; rewrite Hp; simpl; by rewrite Hq).
      exact E.
    + intros d d'. unfold TreePacket.updateModelMtx.
      destruct (negb _); [|by intros [= ->]].
      destruct (nth_Z an _); simpl; [|done]. by intros [= <-].
  - stay_walk grass_updateRoom_loop_eq grass_update_loop_eq.
    exists (GrassPacket.updateModelMtx an), true, n2.
    split; [by apply NoDup_stay_first|]. split.
    + assert (pass_rooms GrassPacket.flagged (GrassPacket.groundCheck g)
                (GrassPacket.updateModelMtx an) true
                (Z.to_nat (mStayNo g)
                 :: filter (fun r => Z.of_nat r <> mStayNo g)
                      (seq 0 (length (GrassPacket.rooms p))))
                (GrassPacket.rooms p) 0 = Some (rs2, n2, l1 ++ l2)) as E
        by (simpl; rewrite Hroom; simpl; rewrite Hp; simpl; by rewrite Hq).
      exact E.
    + intros d d'. unfold GrassPacket.updateModelMtx.
      destruct (negb _); [|by intros [= ->]].
      destruct (_ <? _); [by intros [= ->]|].
      destruct (nth_Z an _); simpl; [|done]. by intros [= <-].
  - stay_walk bush_updateRoom_loop_eq bush_update_loop_eq.
    exists (BushPacket.updateModelMtx an), true, n2.
    split; [by apply NoDup_stay_first|]. split.
    + assert (pass_rooms BushPacket.flagged (BushPacket.groundCheck g)
                (BushPacket.updateModelMtx an) true
                (Z.to_nat (mStayNo g)
                 :: filter (fun r => Z.of_nat r <> mStayNo g)
                      (seq 0 (length (BushPacket.rooms p))))
                (BushPacket.rooms p) 0 = Some (rs2, n2, l1 ++ l2)) as E
        by (simpl; rewrite Hroom; simpl; rewrite Hp; simpl; by rewrite Hq).
      exact E.
    + intros d d'. unfold BushPacket.updateModelMtx.
      destruct (negb _); [|by intros [= ->]].
      destruct (nth_Z an _); simpl; [|done]. by intros [= <-].
Qed.

(* ------------------------------------------------------------------ *)
(* update completes on a well-formed packet *)

Lemma anims_loop_total {A} (f : A -> A) (idxs : list nat) : forall an : list A,
  (forall i, i ∈ idxs -> (i < length an)%nat) ->
  exists an',
    foldl (fun acc i => cur ← acc; a ← cur !! i; Some (<[i := f a]> cur))
      (Some an) idxs = Some an'
    /\ length an' = length an.
Proof.
  induction idxs as [|i rest IH]; intros an Hlt; simpl.
  - by exists an.
  - destruct (lookup_lt_is_Some_2 an i) as [a Ha]; [apply Hlt; by left|].
    rewrite Ha. simpl.
    destruct (IH (<[i := f a]> an)) as (an' & E & Hlen).
    + intros j Hj. rewrite length_insert. apply Hlt. by right.
    + exists an'. split; [done|]. by rewrite Hlen, length_insert.
Qed.

Lemma seq_0_8_lt (n : nat) : (8 <= n)%nat ->
  forall i, i ∈ seq 0 (Z.to_nat (8 + kDynamicAnimCount)) -> (i < n)%nat.
Proof. intros Hn i Hi%elem_of_seq. unfold kDynamicAnimCount in Hi. lia. Qed.

Lemma nth_Z_is_Some {A} (l : list A) (z : Z) :
  0 <= z < Z.of_nat (length l) -> is_Some (nth_Z l z).
Proof.
  intros H. rewrite nth_Z_nonneg by lia. apply lookup_lt_is_Some_2. lia.
Qed.

Lemma instance_at_elem (k : Kind) (p : packet k) r room d :
  rooms k p !! r = Some room -> d ∈ room ->
  exists i, instance_at k p r i = Some d.
Proof.
  intros Hr (i & Hi)%list_elem_of_lookup_1.
  exists i. unfold instance_at. rewrite Hr. done.
Qed.

Lemma flower_refreshable g an r d :
  0 <= FlowerPacket.animIdx d < Z.of_nat (length an) ->
  refreshable (FlowerPacket.groundCheck g) (FlowerPacket.updateModelMtx an) r d.
Proof.
  intros Hidx. split; unfold FlowerPacket.updateModelMtx; destruct (negb _);
    try done; simpl; destruct (nth_Z_is_Some an _ Hidx) as [a ->]; done.
Qed.

Lemma tree_refreshable g an r d :
  0 <= TreePacket.animIdx d < Z.of_nat (length an) ->
  refreshable (TreePacket.groundCheck g) (TreePacket.updateModelMtx an) r d.
Proof.
  intros Hidx. split; unfold TreePacket.updateModelMtx; destruct (negb _);
    try done; simpl.
  - destruct (nth_Z_is_Some an _ Hidx) as [a ->]; done.
  - unfold TreePacket.groundCheck, TreePacket.checkGroundY.
    destruct (gt _ _); simpl; destruct (nth_Z_is_Some an _ Hidx) as [a ->]; done.
Qed.

Lemma grass_refreshable g an r d :
  0 <= GrassPacket.animIdx d < Z.of_nat (length an) ->
  refreshable (GrassPacket.groundCheck g) (GrassPacket.updateModelMtx an) r d.
Proof.
  intros Hidx. split; unfold GrassPacket.updateModelMtx; destruct (negb _);
    try done; simpl; destruct (_ <? _); try done;
    destruct (nth_Z_is_Some an _ Hidx) as [a ->]; done.
Qed.

Lemma bush_refreshable g an r d :
  0 <= BushPacket.animIdx d < Z.of_nat (length an) ->
  refreshable (BushPacket.groundCheck g) (BushPacket.updateModelMtx an) r d.
Proof.
  intros Hidx. split; unfold BushPacket.updateModelMtx; destruct (negb _);
    try done; simpl.
  - destruct (nth_Z_is_Some an _ Hidx) as [a ->]; done.
  - unfold BushPacket.groundCheck, BushPacket.checkGroundY.
    destruct (gt _ _); simpl; destruct (nth_Z_is_Some an _ Hidx) as [a ->]; done.
Qed.

(** The shared end of the three stay-room-first totality proofs: [Hq] says
    the walk completes, the goal is that [update]'s remaining binds do. *)
Ltac stay_total room_eq loop_eq :=
  match goal with
  | Hq : pass_rooms _ _ _ _ _ ?rs _ = Some _, Hstay : _ <= ?z < _ |- _ =>
      simpl in Hq;
      destruct (rs !! Z.to_nat z) as [room|] eqn:Hroom; simpl in Hq; [|done];
      rewrite nth_Z_nonneg, Hroom by lia; simpl;
      rewrite room_eq;
      destruct (pass_room _ _ _ _ _ _ _ _) as [[[room' n1] l1]|] eqn:Hp;
      simpl in Hq |- *; [|done];
      assert (n1 <= kMaxGroundChecksPerFrame) as Hbound by
        (apply pass_room_log in Hp as (Hl & Hn1 & _);
         assert (length l1 <= Z.to_nat (8 - 0))%nat
           by (rewrite Hl; unfold kMaxGroundChecksPerFrame; apply firstn_le_length);
         unfold kMaxGroundChecksPerFrame; lia);
      rewrite loop_eq, length_insert by done;
      destruct (pass_rooms _ _ _ _ _ _ _) as [[[rs2 n2] l2]|]; simpl in Hq |- *; done
  end.

Lemma visit_lt (stay : Z) (n r : nat) :
  0 <= stay < Z.of_nat n ->
  r ∈ Z.to_nat stay :: filter (fun r => Z.of_nat r <> stay) (seq 0 n) ->
  (r < n)%nat.
Proof.
  intros Hs [->|[_ Hr%elem_of_seq]%list_elem_of_filter]%elem_of_cons; lia.
Qed.

Lemma update_total (k : Kind) M g (p : packet k) :
  well_formed k g p -> is_Some (update k M g p).
Proof.
  intros (Han & Hidx & Hstay).
  destruct k; simpl in *.
  - unfold FlowerPacket.update, FlowerPacket.update_anims.
    destruct (anims_loop_total (FlowerPacket.update_anim M) _ (FlowerPacket.anims p)
                (seq_0_8_lt _ Han)) as (an & -> & Hlen). simpl.
    pose proof (flower_update_rooms_eq g an (FlowerPacket.rooms p) [] 0) as E.
    simpl in E.
    destruct (pass_rooms_total FlowerPacket.flagged (FlowerPacket.groundCheck g)
      (FlowerPacket.updateModelMtx an) false (seq 0 (length (FlowerPacket.rooms p)))
      (FlowerPacket.rooms p) 0 (NoDup_seq _ _)) as [[[rs n'] l] Hq].
    { intros r Hr%elem_of_seq.
      destruct (lookup_lt_is_Some_2 (FlowerPacket.rooms p) r) as [room Hroom]; [lia|].
      exists room. split; [done|]. intros d Hd.
      destruct (instance_at_elem KFlower p r room d Hroom Hd) as [i Hi].
      apply flower_refreshable. rewrite Hlen. exact (Hidx _ _ _ Hi). }
    rewrite Hq in E.
    destruct (FlowerPacket.update_rooms g an (FlowerPacket.rooms p) 0 0)
      as [[[rs' n''] l']|]; [done|done].
  - unfold TreePacket.update, TreePacket.update_anims, TreePacket.updateRoom.
    destruct (anims_loop_total (TreePacket.update_anim M) _ (TreePacket.anims p)
                (seq_0_8_lt _ Han)) as (an & -> & Hlen). simpl.
    destruct (pass_rooms_total TreePacket.flagged (TreePacket.groundCheck g)
      (TreePacket.updateModelMtx an) true _ (TreePacket.rooms p) 0
      (NoDup_stay_first (mStayNo g) (length (TreePacket.rooms p)) (proj1 Hstay)))
      as [[[rs n'] l] Hq].
    { intros r Hr%(visit_lt _ _ _ Hstay).
      destruct (lookup_lt_is_Some_2 (TreePacket.rooms p) r) as [room Hroom]; [lia|].
      exists room. split; [done|]. intros d Hd.
      destruct (instance_at_elem KTree p r room d Hroom Hd) as [i Hi].
      apply tree_refreshable. rewrite Hlen. exact (Hidx _ _ _ Hi). }
    stay_total tree_updateRoom_loop_eq tree_update_loop_eq.
  - unfold GrassPacket.update, GrassPacket.update_anims, GrassPacket.updateRoom.
    destruct (anims_loop_total (GrassPacket.update_anim M) _ (GrassPacket.anims p)
                (seq_0_8_lt _ Han)) as (an & -> & Hlen). simpl.
    destruct (pass_rooms_total GrassPacket.flagged (GrassPacket.groundCheck g)
      (GrassPacket.updateModelMtx an) true _ (GrassPacket.rooms p) 0
      (NoDup_stay_first (mStayNo g) (length (GrassPacket.rooms p)) (proj1 Hstay)))
      as [[[rs n'] l] Hq].
    { intros r Hr%(visit_lt _ _ _ Hstay).
      destruct (lookup_lt_is_Some_2 (GrassPacket.rooms p) r) as [room Hroom]; [lia|].
      exists room. split; [done|]. intros d Hd.
      destruct (instance_at_elem KGrass p r room d Hroom Hd) as [i Hi].
      apply grass_refreshable. rewrite Hlen. exact (Hidx _ _ _ Hi). }
    stay_total grass_updateRoom_loop_eq grass_update_loop_eq.
  - unfold BushPacket.update, BushPacket.update_anims, BushPacket.updateRoom.
    destruct (anims_loop_total (BushPacket.update_anim M) _ (BushPacket.anims p)
                (seq_0_8_lt _ Han)) as (an & -> & Hlen). simpl.
    destruct (pass_rooms_total BushPacket.flagged (BushPacket.groundCheck g)
      (BushPacket.updateModelMtx an) true _ (BushPacket.rooms p) 0
      (NoDup_stay_first (mStayNo g) (length (BushPacket.rooms p)) (proj1 Hstay)))
      as [[[rs n'] l] Hq].
    { intros r Hr%(visit_lt _ _ _ Hstay).
      destruct (lookup_lt_is_Some_2 (BushPacket.rooms p) r) as [room Hroom]; [lia|].
      exists room. split; [done|]. intros d Hd.
      destruct (instance_at_elem KBush p r room d Hroom Hd) as [i Hi].
      apply bush_refreshable. rewrite Hlen. exact (Hidx _ _ _ Hi). }
    stay_total bush_updateRoom_loop_eq bush_update_loop_eq.
Qed.

(* ------------------------------------------------------------------ *)
(* What a ground check does to an instance *)

Lemma needs_cleared (f : Z) : needsGroundCheck (Z.land f (Z.lnot 2)) = false.
Proof.
  unfold needsGroundCheck, truthy.
  rewrite <- Z.land_assoc. change (Z.land (Z.lnot 2) 2) with 0.
  by rewrite Z.land_0_r.
Qed.

Lemma groundCheck_flags (k : Kind) g r (d : instance k) :
  flags k (groundCheck k g r d) = Z.land (flags k d) (Z.lnot 2).
Proof.
  destruct k; simpl; try done.
  - unfold TreePacket.groundCheck, TreePacket.checkGroundY.
    by destruct (gt _ _).
  - unfold BushPacket.groundCheck, BushPacket.checkGroundY.
    by destruct (gt _ _).
Qed.

Lemma flagged_from_all {D} (needs : D -> bool) r (room : list D) : forall i,
  Forall (fun d => needs d = true) room ->
  flagged_from needs r room i = map (fun j => (r, j)) (seq i (length room)).
Proof.
  induction room as [|d rest IH]; intros i Hall; simpl; [done|].
  apply Forall_cons in Hall as [-> Hall]. simpl. by rewrite IH.
Qed.

Lemma flagged_in_order_empty {D} (needs : D -> bool) order (rs : list (list D)) :
  (forall r, r ∈ order -> default [] (rs !! r) = []) ->
  flagged_in_order needs order rs = [].
Proof.
  unfold flagged_in_order. induction order as [|r rest IH]; intros H; simpl; [done|].
  rewrite (H r) by (by left). simpl. apply IH. intros r' Hr'. apply H. by right.
Qed.

Lemma flagged_in_order_single {D} (needs : D -> bool) order (rs : list (list D)) r0 :
  NoDup order -> r0 ∈ order ->
  (forall r, r ∈ order -> r <> r0 -> default [] (rs !! r) = []) ->
  flagged_in_order needs order rs = flagged_from needs r0 (default [] (rs !! r0)) 0.
Proof.
  induction order as [|r rest IH]; intros Hnd Hin Hempty.
  - by apply elem_of_nil in Hin.
  - apply NoDup_cons in Hnd as [Hr Hnd].
    change (flagged_in_order needs (r :: rest) rs)
      with (flagged_from needs r (default [] (rs !! r)) 0
            ++ flagged_in_order needs rest rs).
    destruct (decide (r = r0)) as [->|Hne].
    + rewrite flagged_in_order_empty, app_nil_r; [done|].
      intros r' Hr'. apply Hempty; [by right|]. by intros ->.
    + rewrite (Hempty r) by (done || by left). simpl. apply IH; [done| |].
      * apply elem_of_cons in Hin as [->|Hin]; done.
      * intros r' Hr'. apply Hempty. by right.
Qed.

Lemma filter_all {A} (P : A -> Prop) `{!forall x, Decision (P x)} (l : list A) :
  Forall P l -> filter P l = l.
Proof.
  induction 1 as [|x l Hx _ IH]; [done|]. by rewrite filter_cons_True, IH.
Qed.

Lemma filter_none {A} (P : A -> Prop) `{!forall x, Decision (P x)} (l : list A) :
  Forall (fun x => ~ P x) l -> filter P l = [].
Proof.
  induction 1 as [|x l Hx _ IH]; [done|]. by rewrite filter_cons_False.
Qed.

Lemma filter_split_count {A} (P : A -> Prop) `{!forall x, Decision (P x)}
    (l : list A) (m : nat) :
  (m <= length l)%nat ->
  (forall j x, l !! j = Some x -> ((j < m)%nat -> ~ P x) /\ ((m <= j)%nat -> P x)) ->
  length (filter P l) = (length l - m)%nat
  /\ length (filter (fun x => ~ P x) l) = m.
Proof.
  intros Hm Hat. rewrite <- (take_drop m l) at 1 3.
  rewrite !filter_app, !length_app.
  assert (Forall (fun x => ~ P x) (take m l)) as Ht.
  { apply Forall_lookup. intros j x Hj. apply lookup_take_Some in Hj as [Hj Hlt].
    by apply (Hat j x Hj). }
  assert (Forall P (drop m l)) as Hd.
  { apply Forall_lookup. intros j x Hj. rewrite lookup_drop in Hj.
    apply (Hat _ x Hj). lia. }
  rewrite (filter_none P (take m l)), (filter_all P (drop m l)) by done.
  rewrite (filter_all (fun x => ~ P x) (take m l)) by done.
  rewrite (filter_none (fun x => ~ P x) (drop m l)).
  - simpl. rewrite length_take, length_drop. lia.
  - eapply Forall_impl; [exact Hd|]. intros x Hx Hn. by apply Hn.
Qed.

(* ------------------------------------------------------------------ *)

Lemma update_instances (k : Kind) M g (p p' : packet k) (log : QueryLog) :
  update k M g p = Some (p', log) ->
  exists refresh : instance k -> option (instance k),
    (forall d d', refresh d = Some d' ->
        flags k d' = flags k d /\ pos k d' = pos k d
        /\ shadowModelMtx k d' = shadowModelMtx k d)
    /\ log = take 8 (flagged_in_order (fun d => needsGroundCheck (flags k d))
                      (visit_order k g (length (rooms k p))) (rooms k p))
    /\ NoDup (visit_order k g (length (rooms k p)))
    /\ forall r room, rooms k p !! r = Some room ->
       exists room', rooms k p' !! r = Some room' /\ length room' = length room /\
       forall i d, room !! i = Some d ->
       exists d', room' !! i = Some d' /\
         ((((r, i) ∈ log) /\ refresh (groundCheck k g r d) = Some d')
          \/ (((r, i) ∉ log) /\ (d' = d \/ refresh d = Some d'))).
Proof.
  intros H. apply update_walk in H as (refresh & brk & n' & Hnd & Hq & Hr).
  exists refresh. split; [done|].
  pose proof (pass_rooms_log _ _ _ _ _ _ _ _ _ _ Hnd Hq) as (Hl & _ & _).
  split; [exact Hl|]. split; [done|].
  exact (pass_rooms_at _ _ _ _ _ _ _ _ _ _ Hnd Hq).
Qed.

(** C2: on a well-formed packet of any of the four kinds, [update] returns;
    it makes at most 8 ground-height queries over all room buckets; every
    instance it queried was flagged and comes out with the flag clear; every
    other instance keeps its flag word.  With one bucket of 20 flagged
    instances and every other bucket empty, the bucket comes out with the
    flag clear on exactly 8 instances and set on the other 12. *)
Theorem update_ground_check_budget (k : Kind) M g (p : packet k) :
  well_formed k g p ->
  exists p' log, update k M g p = Some (p', log)
    /\ (length log <= 8)%nat
    /\ (forall r i d, instance_at k p r i = Some d ->
        exists d', instance_at k p' r i = Some d' /\
          if decide ((r, i) ∈ log)
          then needsGroundCheck (flags k d) = true
               /\ needsGroundCheck (flags k d') = false
          else flags k d' = flags k d)
    /\ (forall r0 room,
          rooms k p !! r0 = Some room -> length room = 20%nat ->
          Forall (fun d => needsGroundCheck (flags k d) = true) room ->
          (forall r room1, r <> r0 -> rooms k p !! r = Some room1 -> room1 = []) ->
          exists room', rooms k p' !! r0 = Some room'
            /\ count_clear k room' = 8%nat /\ count_flagged k room' = 12%nat).
Proof.
  intros Hwf. destruct (update_total k M g p Hwf) as [[p' log] Hup].
  exists p', log. split; [done|].
  destruct (update_instances k M g p p' log Hup) as (refresh & Href & Hlog & Hnd & Hat).
  split; [rewrite Hlog; apply firstn_le_length|]. split.
  - intros r i d Hd. unfold instance_at in Hd |- *.
    destruct (rooms k p !! r) as [room|] eqn:Hroom; simpl in Hd; [|done].
    destruct (Hat r room Hroom) as (room' & -> & _ & Hpt). simpl.
    destruct (Hpt i d Hd) as (d' & Hd' & Hc). exists d'. split; [done|].
    destruct (decide ((r, i) ∈ log)) as [Hin|Hout].
    + destruct Hc as [[_ Hs]|[Hn _]]; [|done].
      apply Href in Hs as (-> & _ & _). rewrite groundCheck_flags.
      split; [|apply needs_cleared].
      rewrite Hlog in Hin. apply elem_of_take in Hin as (j & Hj & _).
      apply list_elem_of_lookup_2, elem_of_flagged_in_order in Hj
        as (_ & room1 & d1 & Hr1 & Hd1 & Hn1).
      rewrite Hroom in Hr1. inversion Hr1; subst. rewrite Hd in Hd1.
      by inversion Hd1; subst.
    + destruct Hc as [[Hin _]|[_ [->|Hs]]]; [done|done|].
      by apply Href in Hs as (-> & _ & _).
  - intros r0 room Hroom Hlen Hall Hempty.
    destruct (Hat r0 room Hroom) as (room' & Hroom' & Hlen' & Hpt).
    exists room'. split; [done|].
    assert (r0 ∈ visit_order k g (length (rooms k p))) as Hin.
    { pose proof (lookup_lt_Some _ _ _ Hroom) as Hlt.
      destruct Hwf as (_ & _ & Hstay).
      destruct k; simpl in *; try (apply elem_of_seq; lia);
        (apply elem_of_cons;
         destruct (decide (Z.of_nat r0 = mStayNo g)) as [E|E];
         [left; lia | right; apply list_elem_of_filter; split; [done|apply elem_of_seq; lia]]). }
    assert (log = map (fun j => (r0, j)) (seq 0 8)) as Hlog8.
    { rewrite Hlog, (flagged_in_order_single _ _ _ r0 Hnd Hin).
      - rewrite Hroom. simpl. rewrite flagged_from_all, Hlen by done. done.
      - intros r Hr Hne. destruct (rooms k p !! r) as [room1|] eqn:Hr1; [|done].
        simpl. by apply (Hempty r). }
    assert (forall j d', room' !! j = Some d' ->
              ((j < 8)%nat -> ~ needsGroundCheck (flags k d') = true)
              /\ ((8 <= j)%nat -> needsGroundCheck (flags k d') = true)) as Hcount.
    { intros j d' Hd'.
      destruct (lookup_lt_is_Some_2 room j) as [d Hd].
      { rewrite <- Hlen'. by eapply lookup_lt_Some. }
      destruct (Hpt j d Hd) as (d'' & Hd'' & Hc). rewrite Hd' in Hd''.
      inversion Hd''; subst d''; clear Hd''.
      assert (needsGroundCheck (flags k d) = true) as Hn
        by (eapply Forall_lookup_1 in Hall; [exact Hall|exact Hd]).
      assert ((r0, j) ∈ map (fun j => (r0, j)) (seq 0 8) <-> (j < 8)%nat) as Hmem.
      { rewrite list_elem_of_fmap. split.
        - intros (j' & [= <-] & Hj'%elem_of_seq). lia.
        - intros Hj. exists j. split; [done|]. apply elem_of_seq. lia. }
      rewrite Hlog8 in Hc. split; intros Hj.
      - destruct Hc as [[_ Hs]|[Hout _]]; [|by apply Hmem in Hj].
        apply Href in Hs as (-> & _ & _). rewrite groundCheck_flags, needs_cleared.
        done.
      - destruct Hc as [[Hi _]|[_ [->|Hs]]]; [apply Hmem in Hi; lia|done|].
        apply Href in Hs as (-> & _ & _). done. }
    destruct (filter_split_count (fun d => needsGroundCheck (flags k d) = true)
                room' 8) as [Hf Hc]; [lia|exact Hcount|].
    unfold count_clear, count_flagged. split; [|lia].
    rewrite <- Hc. f_equal. apply list_filter_iff. intros d.
    by destruct (needsGroundCheck (flags k d)).
Qed.

(* ------------------------------------------------------------------ *)
(* The occupied room first (Tree, Grass, Bush) *)

(** C1, the tree, grass and bush packets: if [update] returns while a
    flagged instance of the occupied room [mStayNo] has not been queried,
    then every instance it queried is in room [mStayNo]. *)
Theorem stay_room_first (k : Kind) M g (p p' : packet k) (log : QueryLog) i d :
  k <> KFlower ->
  update k M g p = Some (p', log) ->
  instance_at k p (Z.to_nat (mStayNo g)) i = Some d ->
  needsGroundCheck (flags k d) = true ->
  (Z.to_nat (mStayNo g), i) ∉ log ->
  forall r j, (r, j) ∈ log -> r = Z.to_nat (mStayNo g).
Proof.
  intros Hk Hup Hd Hn Hout r j Hin.
  destruct (update_instances k M g p p' log Hup) as (_ & _ & Hlog & _ & _).
  unfold instance_at in Hd.
  destruct (rooms k p !! Z.to_nat (mStayNo g)) as [room|] eqn:Hroom; [|done].
  simpl in Hd.
  assert (exists rest,
            log = take 8 (flagged_from (fun d => needsGroundCheck (flags k d))
                            (Z.to_nat (mStayNo g)) room 0 ++ rest))
    as [rest Hlog'].
  { destruct k; [done| | |]; simpl in *;
      (eexists; rewrite Hlog; unfold flagged_in_order; simpl;
       rewrite Hroom; done). }
  set (F := flagged_from _ (Z.to_nat (mStayNo g)) room 0) in *.
  assert ((Z.to_nat (mStayNo g), i) ∈ F) as HiF.
  { apply elem_of_flagged_from. split; [done|]. split; [lia|].
    exists d. by rewrite Nat.sub_0_r. }
  destruct (decide (length F <= 8)%nat) as [Hle|Hgt].
  - exfalso. apply Hout. rewrite Hlog', take_app.
    apply elem_of_app. left. by rewrite take_ge.
  - rewrite Hlog', take_app in Hin.
    replace (8 - length F)%nat with 0%nat in Hin by lia.
    rewrite take_0, app_nil_r in Hin.
    apply elem_of_take in Hin as (j' & Hj' & _).
    by apply list_elem_of_lookup_2, elem_of_flagged_from in Hj' as (-> & _).
Qed.

(* ------------------------------------------------------------------ *)
(* A ground check that misses *)

Lemma f32_get_set (a : list float) (i : nat) (v : float) :
  (i < length a)%nat -> f32_get (f32_set a i v) i = fround v.
Proof.
  intros H. unfold f32_get, f32_set. by rewrite list_lookup_insert_eq.
Qed.

Lemma f32_set_same (a : list float) (i : nat) :
  fround (f32_get a i) = f32_get a i -> f32_set a i (f32_get a i) = a.
Proof.
  intros H. unfold f32_set. rewrite H. unfold f32_get.
  destruct (a !! i) as [x|] eqn:E; simpl.
  - by apply list_insert_id.
  - apply lookup_ge_None in E. by apply list_insert_ge.
Qed.

Lemma shadowMtx_translation_y (m pos1 normal : list float) (y : float) :
  length m = 16%nat ->
  f32_get (TreePacket.shadowMtx m pos1 normal y) 13 = fround (fround (1.0 + y)%float).
Proof.
  intros Hlen.
  do 16 (destruct m as [|? m]; [done|]). destruct m; [|done].
  reflexivity.
Qed.

(** C10: let [update] query an instance whose ground lookup misses
    (returns -Infinity).  In the flower and grass packets the instance's
    position is what it was.  In the tree and bush packets the Y coordinate
    becomes -Infinity, and so does the Y translation (entry 13) of the
    instance's shadow matrix. *)
Theorem ground_miss_asymmetry (k : Kind) M g (p p' : packet k) (log : QueryLog)
    r i (d : instance k) :
  update k M g p = Some (p', log) ->
  (r, i) ∈ log ->
  instance_at k p r i = Some d ->
  GroundCross (bgS g) (chk_pos (pos k d)) = neg_infinity ->
  length (pos k d) = 3%nat ->
  fround (f32_get (pos k d) 1) = f32_get (pos k d) 1 ->
  (forall m, shadowModelMtx k d = Some m -> length m = 16%nat) ->
  exists d', instance_at k p' r i = Some d' /\
    match k with
    | KFlower | KGrass => pos k d' = pos k d
    | KTree | KBush =>
        f32_get (pos k d') 1 = neg_infinity
        /\ exists m', shadowModelMtx k d' = Some m' /\ f32_get m' 13 = neg_infinity
    end.
Proof.
  intros Hup Hin Hd Hmiss Hpos Hf32 Hshadow.
  destruct (update_instances k M g p p' log Hup) as (refresh & Href & _ & _ & Hat).
  unfold instance_at in Hd |- *.
  destruct (rooms k p !! r) as [room|] eqn:Hroom; simpl in Hd; [|done].
  destruct (Hat r room Hroom) as (room' & -> & _ & Hpt). simpl.
  destruct (Hpt i d Hd) as (d' & Hd' & [[_ Hs]|[Hout _]]); [|done].
  exists d'. split; [done|].
  apply Href in Hs as (_ & Hp & Hm).
  destruct k; simpl in *.
  - rewrite Hp. unfold FlowerPacket.groundCheck, checkGroundY. rewrite Hmiss.
    simpl. by apply f32_set_same.
  - rewrite Hp, Hm.
    unfold TreePacket.groundCheck, TreePacket.checkGroundY. rewrite Hmiss. simpl.
    split.
    + rewrite f32_get_set; [done|]. unfold f32_set. rewrite length_insert. lia.
    + eexists. split; [done|].
      rewrite shadowMtx_translation_y by (by apply Hshadow). done.
  - rewrite Hp. unfold GrassPacket.groundCheck, checkGroundY. rewrite Hmiss.
    simpl. by apply f32_set_same.
  - rewrite Hp, Hm.
    unfold BushPacket.groundCheck, BushPacket.checkGroundY. rewrite Hmiss. simpl.
    split.
    + rewrite f32_get_set; [done|]. unfold f32_set. rewrite length_insert. lia.
    + eexists. split; [done|].
      rewrite shadowMtx_translation_y by (by apply Hshadow). done.
Qed.

(* ------------------------------------------------------------------ *)
(* The theorems at the example packets *)

Section FoliageExamples.
Import Fixtures.

Lemma replicate_lookup_nil {A} (n r : nat) (l : list A) :
  replicate n ([] : list A) !! r = Some l -> l = [].
Proof. intros [-> _]%lookup_replicate. done. Qed.

Lemma flowers_20_well_formed :
  well_formed KFlower (globals_in flat_ground 0) flowers_20.
Proof.
  split; [vm_compute; lia|]. split; [|done].
  intros r i d Hd. unfold instance_at in Hd.
  change (rooms KFlower flowers_20)
    with (<[5%nat := replicate 20 flower]> (replicate 64 ([] : list FlowerPacket.FlowerData)))
    in Hd.
  destruct (decide (r = 5%nat)) as [->|Hr].
  - rewrite list_lookup_insert_eq in Hd by (rewrite length_replicate; lia).
    cbn [mbind option_bind] in Hd. apply lookup_replicate in Hd as [-> _].
    vm_compute. done.
  - rewrite list_lookup_insert_ne in Hd by done.
    destruct (replicate 64 [] !! r) as [room|] eqn:Hroom; [|done].
    apply replicate_lookup_nil in Hroom as ->. done.
Qed.

Lemma update_ground_check_budget_witness :
  well_formed KFlower (globals_in flat_ground 0) flowers_20
  /\ exists p' log,
       update KFlower zero_angle_math (globals_in flat_ground 0) flowers_20
       = Some (p', log)
       /\ (length log <= 8)%nat
       /\ exists room', rooms KFlower p' !! 5%nat = Some room'
            /\ count_clear KFlower room' = 8%nat
            /\ count_flagged KFlower room' = 12%nat.
Proof.
  split; [exact flowers_20_well_formed|].
  destruct (update_ground_check_budget KFlower zero_angle_math
              (globals_in flat_ground 0) flowers_20 flowers_20_well_formed)
    as (p' & log & Hup & Hlen & _ & H20).
  exists p', log. split; [exact Hup|]. split; [exact Hlen|].
  apply (H20 5%nat (replicate 20 flower)).
  - reflexivity.
  - reflexivity.
  - apply Forall_replicate. reflexivity.
  - intros r room1 Hr Hroom.
    change (rooms KFlower flowers_20)
      with (<[5%nat := replicate 20 flower]>
              (replicate 64 ([] : list FlowerPacket.FlowerData))) in Hroom.
    rewrite list_lookup_insert_ne in Hroom by done.
    by apply replicate_lookup_nil in Hroom.
Defined.

Lemma trees_1_and_9_update :
  snd <$> update KTree zero_angle_math (globals_in flat_ground 1) trees_1_and_9
  = Some [(1, 0); (1, 1); (1, 2); (1, 3); (1, 4); (1, 5); (1, 6); (1, 7)]%nat.
Proof. vm_compute. reflexivity. Qed.

Lemma stay_room_first_witness :
  exists p' log,
    update KTree zero_angle_math (globals_in flat_ground 1) trees_1_and_9
    = Some (p', log)
    /\ instance_at KTree trees_1_and_9 1 8 = Some tree
    /\ Forall (fun rj => rj.1 = 1%nat) log.
Proof.
  pose proof trees_1_and_9_update as Hlog.
  destruct (update KTree zero_angle_math (globals_in flat_ground 1) trees_1_and_9)
    as [[p' log]|] eqn:Hup; [|discriminate].
  injection Hlog as Hlog. cbn [snd] in Hlog.
  exists p', log. split; [reflexivity|]. split; [reflexivity|].
  apply Forall_forall. intros [r j] Hin.
  refine (stay_room_first KTree zero_angle_math (globals_in flat_ground 1)
            trees_1_and_9 p' log 8%nat tree _ Hup _ _ _ r j Hin);
    [discriminate|reflexivity|reflexivity|].
  rewrite Hlog. cbn [mStayNo globals_in]. change (Z.to_nat 1) with 1%nat.
  intros H. repeat (apply elem_of_cons in H as [H|H]; [discriminate|]).
  by apply elem_of_nil in H.
Defined.

(** C1, the flower packet: with the camera in room 1, eight flagged flowers
    in room 0 and one in room 1, [FlowerPacket.update] spends all eight
    queries in room 0; the flower of the occupied room is still flagged
    when the call returns. *)
Theorem flower_update_ignores_stay_room :
  exists p',
    update KFlower zero_angle_math (globals_in flat_ground 1) flowers_8_and_1
    = Some (p', [(0, 0); (0, 1); (0, 2); (0, 3); (0, 4); (0, 5); (0, 6); (0, 7)]%nat)
    /\ (needsGroundCheck ∘ flags KFlower) <$> instance_at KFlower flowers_8_and_1 1 0
       = Some true
    /\ (needsGroundCheck ∘ flags KFlower) <$> instance_at KFlower p' 1 0
       = Some true.
Proof. eexists. vm_compute. repeat split. Qed.

Lemma one_tree_update :
  snd <$> update KTree zero_angle_math (globals_in no_ground 0) one_tree
  = Some [(0, 0)]%nat.
Proof. vm_compute. reflexivity. Qed.

Lemma ground_miss_asymmetry_witness :
  exists p' d',
    (fst <$> update KTree zero_angle_math (globals_in no_ground 0) one_tree)
    = Some p'
    /\ instance_at KTree p' 0 0 = Some d'
    /\ f32_get (pos KTree d') 1 = neg_infinity
    /\ exists m', shadowModelMtx KTree d' = Some m' /\ f32_get m' 13 = neg_infinity.
Proof.
  pose proof one_tree_update as Hlog.
  destruct (update KTree zero_angle_math (globals_in no_ground 0) one_tree)
    as [[p' log]|] eqn:Hup; [|discriminate].
  injection Hlog as Hlog. cbn [snd] in Hlog.
  destruct (ground_miss_asymmetry KTree zero_angle_math (globals_in no_ground 0)
              one_tree p' log 0%nat 0%nat tree Hup) as (d' & Hd' & Hy & Hm).
  - rewrite Hlog. apply elem_of_cons. by left.
  - reflexivity.
  - reflexivity.
  - reflexivity.
  - vm_compute. reflexivity.
  - intros m Hm. injection Hm as <-. reflexivity.
  - exists p', d'. split; [reflexivity|]. split; [exact Hd'|]. split; [exact Hy|].
    exact Hm.
Defined.

End FoliageExamples.

Section FoliageMore.

Lemma anims_loop_length {A} (f : A -> A) (idxs : list nat) : forall an an' : list A,
  foldl (fun acc i => cur ← acc; a ← cur !! i; Some (<[i := f a]> cur))
    (Some an) idxs = Some an' ->
  length an' = length an.
Proof.
  induction idxs as [|i rest IH]; intros an an' H; simpl in H.
  - by injection H as <-.
  - destruct (an !! i) as [a|] eqn:Ha; simpl in H.
    + apply IH in H. by rewrite H, length_insert.
    + exfalso. clear -H. induction rest as [|j rest IH]; simpl in H; [done|auto].
Qed.

Lemma groundCheck_animIdx (k : Kind) g r (d : instance k) :
  animIdx k (groundCheck k g r d) = animIdx k d.
Proof.
  destruct k; simpl; try done.
  - unfold TreePacket.groundCheck, TreePacket.checkGroundY.
    by destruct (gt _ _).
  - unfold BushPacket.groundCheck, BushPacket.checkGroundY.
    by destruct (gt _ _).
Qed.

(** [update] as one budgeted pass, with everything the refresh of the model
    matrices leaves alone. *)
Lemma update_walk_full (k : Kind) M g (p p' : packet k) (log : QueryLog) :
  update k M g p = Some (p', log) ->
  exists (refresh : instance k -> option (instance k)) (brk : bool) (n' : Z),
    NoDup (visit_order k g (length (rooms k p)))
    /\ pass_rooms (fun d => needsGroundCheck (flags k d)) (groundCheck k g)
         refresh brk (visit_order k g (length (rooms k p))) (rooms k p) 0
       = Some (rooms k p', n', log)
    /\ (forall d d', refresh d = Some d' ->
          flags k d' = flags k d /\ pos k d' = pos k d
          /\ shadowModelMtx k d' = shadowModelMtx k d
          /\ animIdx k d' = animIdx k d)
    /\ anims_length k p' = anims_length k p
    /\ match k with
       | KFlower => True
       | _ => 0 <= mStayNo g < Z.of_nat (length (rooms k p))
       end.
Proof.
  intros H. destruct k; simpl in *.
  - unfold FlowerPacket.update in H.
    destruct (FlowerPacket.update_anims M (FlowerPacket.anims p)) as [an|] eqn:Han;
      [|done].
    simpl in H.
    destruct (FlowerPacket.update_rooms g an (FlowerPacket.rooms p) 0 0)
      as [[[rs n'] l]|] eqn:Hr; [|done].
    simpl in H. inversion H; subst; clear H.
    exists (FlowerPacket.updateModelMtx an), false, n'.
    split; [apply NoDup_seq|]. split; [|split; [|split; [|done]]].
    + pose proof (flower_update_rooms_eq g an (FlowerPacket.rooms p) [] 0) as E.
      simpl in E. rewrite Hr in E. exact E.
    + intros d d'. unfold FlowerPacket.updateModelMtx.
      destruct (negb _); [|by intros [= ->]].
      destruct (nth_Z an _); simpl; [|done]. by intros [= <-].
    + simpl. by apply anims_loop_length in Han.
  - stay_walk tree_updateRoom_loop_eq tree_update_loop_eq.
    exists (TreePacket.updateModelMtx an), true, n2.
    split; [by apply NoDup_stay_first|]. split; [|split; [|split]].
    + assert (pass_rooms TreePacket.flagged (TreePacket.groundCheck g)
                (TreePacket.updateModelMtx an) true
                (Z.to_nat (mStayNo g)
                 :: filter (fun r => Z.of_nat r <> mStayNo g)
                      (seq 0 (length (TreePacket.rooms p))))
                (TreePacket.rooms p) 0 = Some (rs2, n2, l1 ++ l2)) as E
        by (simpl; rewrite Hroom; simpl; rewrite Hp; simpl; by rewrite Hq).
      exact E.
    + intros d d'. unfold TreePacket.updateModelMtx.
      destruct (negb _); [|by intros [= ->]].
      destruct (nth_Z an _); simpl; [|done]. by intros [= <-].
    + simpl. by apply anims_loop_length in Han.
    + split; [done|]. apply lookup_lt_Some in Hroom. lia.
  - stay_walk grass_updateRoom_loop_eq grass_update_loop_eq.
    exists (GrassPacket.updateModelMtx an), true, n2.
    split; [by apply NoDup_stay_first|]. split; [|split; [|split]].
    + assert (pass_rooms GrassPacket.flagged (GrassPacket.groundCheck g)
                (GrassPacket.updateModelMtx an) true
                (Z.to_nat (mStayNo g)
                 :: filter (fun r => Z.of_nat r <> mStayNo g)
                      (seq 0 (length (GrassPacket.rooms p))))
                (GrassPacket.rooms p) 0 = Some (rs2, n2, l1 ++ l2)) as E
        by (simpl; rewrite Hroom; simpl; rewrite Hp; simpl; by rewrite Hq).
      exact E.
    + intros d d'. unfold GrassPacket.updateModelMtx.
      destruct (negb _); [|by intros [= ->]].
      destruct (_ <? _); [by intros [= ->]|].
      destruct (nth_Z an _); simpl; [|done]. by intros [= <-].
    + simpl. by apply anims_loop_length in Han.
    + split; [done|]. apply lookup_lt_Some in Hroom. lia.
  - stay_walk bush_updateRoom_loop_eq bush_update_loop_eq.
    exists (BushPacket.updateModelMtx an), true, n2.
    split; [by apply NoDup_stay_first|]. split; [|split; [|split]].
    + assert (pass_rooms BushPacket.flagged (BushPacket.groundCheck g)
                (BushPacket.updateModelMtx an) true
                (Z.to_nat (mStayNo g)
                 :: filter (fun r => Z.of_nat r <> mStayNo g)
                      (seq 0 (length (BushPacket.rooms p))))
                (BushPacket.rooms p) 0 = Some (rs2, n2, l1 ++ l2)) as E
        by (simpl; rewrite Hroom; simpl; rewrite Hp; simpl; by rewrite Hq).
      exact E.
    + intros d d'. unfold BushPacket.updateModelMtx.
      destruct (negb _); [|by intros [= ->]].
      destruct (nth_Z an _); simpl; [|done]. by intros [= <-].
    + simpl. by apply anims_loop_length in Han.
    + split; [done|]. apply lookup_lt_Some in Hroom. lia.
Qed.


(** What [update] leaves at each position of each bucket. *)
Lemma update_positions (k : Kind) M g (p p' : packet k) (log : QueryLog) :
  update k M g p = Some (p', log) ->
  length (rooms k p') = length (rooms k p)
  /\ anims_length k p' = anims_length k p
  /\ log = take 8 (flagged_in_order (fun d => needsGroundCheck (flags k d))
                    (visit_order k g (length (rooms k p))) (rooms k p))
  /\ NoDup (visit_order k g (length (rooms k p)))
  /\ match k with
     | KFlower => True
     | _ => 0 <= mStayNo g < Z.of_nat (length (rooms k p))
     end
  /\ forall r room, rooms k p !! r = Some room ->
     exists room', rooms k p' !! r = Some room' /\ length room' = length room /\
     forall i d, room !! i = Some d ->
     exists d', room' !! i = Some d' /\ animIdx k d' = animIdx k d /\
       ((((r, i) ∈ log) /\ needsGroundCheck (flags k d) = true
         /\ flags k d' = Z.land (flags k d) (Z.lnot 2)
         /\ pos k d' = pos k (groundCheck k g r d)
         /\ shadowModelMtx k d' = shadowModelMtx k (groundCheck k g r d))
        \/ (((r, i) ∉ log) /\ flags k d' = flags k d /\ pos k d' = pos k d
            /\ shadowModelMtx k d' = shadowModelMtx k d)).
Proof.
  intros H.
  apply update_walk_full in H
    as (refresh & brk & n' & Hnd & Hq & Href & Han & Hstay).
  pose proof (pass_rooms_log _ _ _ _ _ _ _ _ _ _ Hnd Hq) as (Hl & _ & Hlen).
  split; [done|]. split; [done|]. split; [exact Hl|]. split; [done|].
  split; [done|].
  intros r room Hroom.
  destruct (pass_rooms_at _ _ _ _ _ _ _ _ _ _ Hnd Hq r room Hroom)
    as (room' & Hroom' & Hlen' & Hpt).
  exists room'. split; [done|]. split; [done|].
  intros i d Hd. destruct (Hpt i d Hd) as (d' & Hd' & Hc).
  exists d'. split; [done|].
  destruct Hc as [[Hin Hs]|[Hout Hu]].
  - apply Href in Hs as (Hf & Hp & Hm & Ha).
    split; [by rewrite Ha, groundCheck_animIdx|]. left.
    split; [done|]. split.
    { rewrite Hl in Hin. apply elem_of_take in Hin as (j & Hj & _).
      apply list_elem_of_lookup_2, elem_of_flagged_in_order in Hj
        as (_ & room0 & d0 & Hr0 & Hd0 & Hn0).
      rewrite Hroom in Hr0. injection Hr0 as <-.
      rewrite Hd in Hd0. by injection Hd0 as <-. }
    split; [by rewrite Hf, groundCheck_flags|]. done.
  - destruct Hu as [->|Hr]; [split; [done|]; right; done|].
    apply Href in Hr as (Hf & Hp & Hm & Ha).
    split; [done|]. right. done.
Qed.

(** The buckets of [p'] hold an instance exactly where those of [p] do. *)
Lemma update_instance_back (k : Kind) M g (p p' : packet k) (log : QueryLog) r i d' :
  update k M g p = Some (p', log) ->
  instance_at k p' r i = Some d' ->
  exists d, instance_at k p r i = Some d /\ animIdx k d' = animIdx k d /\
    ((((r, i) ∈ log) /\ needsGroundCheck (flags k d) = true
      /\ flags k d' = Z.land (flags k d) (Z.lnot 2)
      /\ pos k d' = pos k (groundCheck k g r d))
     \/ (((r, i) ∉ log) /\ flags k d' = flags k d /\ pos k d' = pos k d)).
Proof.
  intros Hup Hd'.
  destruct (update_positions k M g p p' log Hup) as (Hlen & _ & _ & _ & _ & Hat).
  unfold instance_at in *.
  destruct (rooms k p' !! r) as [room'|] eqn:Hroom'; simpl in Hd'; [|done].
  destruct (lookup_lt_is_Some_2 (rooms k p) r) as [room Hroom].
  { rewrite <- Hlen. by eapply lookup_lt_Some. }
  destruct (Hat r room Hroom) as (room'' & Hr'' & Hl & Hpt).
  rewrite Hroom' in Hr''. injection Hr'' as <-.
  destruct (lookup_lt_is_Some_2 room i) as [d Hd].
  { rewrite <- Hl. by eapply lookup_lt_Some. }
  destruct (Hpt i d Hd) as (d'' & Hd'' & Ha & Hc).
  rewrite Hd' in Hd''. injection Hd'' as <-.
  exists d. rewrite Hroom. simpl. split; [done|]. split; [done|].
  destruct Hc as [(?&?&?&?&?)|(?&?&?&?)]; [left|right]; done.
Qed.

Lemma update_well_formed (k : Kind) M g (p p' : packet k) (log : QueryLog) :
  update k M g p = Some (p', log) -> well_formed k g p -> well_formed k g p'.
Proof.
  intros Hup (H8 & Hidx & Hstay).
  destruct (update_positions k M g p p' log Hup) as (Hlen & Han & _).
  split; [by rewrite Han|]. split.
  - intros r i d' Hd'.
    destruct (update_instance_back k M g p p' log r i d' Hup Hd')
      as (d & Hd & -> & _).
    rewrite Han. by eapply Hidx.
  - destruct k; [done|by rewrite Hlen..].
Qed.

(** X1: a call of [update] that returns keeps the shape of a packet of any
    of the four kinds: the number of room buckets, the number of instances
    in every bucket and the number of animation slots are unchanged, and a
    well-formed packet stays well-formed.  No instance is added, removed
    or moved by [update]. *)
Theorem update_keeps_shape (k : Kind) M g (p p' : packet k) (log : QueryLog) :
  update k M g p = Some (p', log) ->
  length (rooms k p') = length (rooms k p)
  /\ (forall r, length <$> rooms k p' !! r = length <$> rooms k p !! r)
  /\ anims_length k p' = anims_length k p
  /\ (well_formed k g p -> well_formed k g p').
Proof.
  intros Hup.
  destruct (update_positions k M g p p' log Hup) as (Hlen & Han & _ & _ & _ & Hat).
  split; [done|]. split; [|split; [done|]].
  - intros r. destruct (rooms k p !! r) as [room|] eqn:Hroom.
    + destruct (Hat r room Hroom) as (room' & -> & Hl & _). simpl. by rewrite Hl.
    + apply lookup_ge_None in Hroom.
      rewrite (proj2 (lookup_ge_None (rooms k p') r)); [done|lia].
  - by apply (update_well_formed k M g p p' log Hup).
Qed.

Lemma visit_order_covers (k : Kind) g (n r : nat) :
  (r < n)%nat -> r ∈ visit_order k g n.
Proof.
  intros Hr.
  assert (r ∈ seq 0 n) as Hseq by (apply elem_of_seq; lia).
  destruct k; [done|..]; simpl;
    (destruct (decide (Z.of_nat r = mStayNo g)) as [E|E];
     [apply elem_of_cons; left; lia
     |apply elem_of_cons; right; by apply list_elem_of_filter]).
Qed.

(** X2: [update] does not stop early.  If, after a call that returns, some
    instance of the packet still has its [needsGroundCheck] flag set, then
    that call made exactly 8 ground checks ([kMaxGroundChecksPerFrame]). *)
Theorem update_work_conserving (k : Kind) M g (p p' : packet k) (log : QueryLog)
    r i d' :
  update k M g p = Some (p', log) ->
  instance_at k p' r i = Some d' ->
  needsGroundCheck (flags k d') = true ->
  length log = 8%nat.
Proof.
  intros Hup Hd' Hflag.
  destruct (update_instance_back k M g p p' log r i d' Hup Hd')
    as (d & Hd & _ & Hc).
  destruct Hc as [(_ & _ & Hf & _)|(Hout & Hf & _)].
  { rewrite Hf, needs_cleared in Hflag. done. }
  destruct (update_positions k M g p p' log Hup) as (_ & _ & Hlog & _ & _ & _).
  rewrite Hf in Hflag.
  set (L := flagged_in_order _ _ _) in Hlog.
  assert ((r, i) ∈ L) as HL.
  { apply elem_of_flagged_in_order. unfold instance_at in Hd.
    destruct (rooms k p !! r) as [room|] eqn:Hroom; simpl in Hd; [|done].
    split; [apply visit_order_covers; by eapply lookup_lt_Some|].
    by exists room, d. }
  destruct (decide (length L <= 8)%nat) as [Hle|Hgt].
  - exfalso. apply Hout. by rewrite Hlog, take_ge.
  - rewrite Hlog, length_take. lia.
Qed.

(** X3: on a packet in which no instance needs a ground check, [update]
    makes no ground query at all and leaves the flags, the position and
    the shadow matrix of every instance as they were. *)
Theorem update_idle (k : Kind) M g (p p' : packet k) (log : QueryLog) :
  update k M g p = Some (p', log) ->
  (forall r i d, instance_at k p r i = Some d ->
     needsGroundCheck (flags k d) = false) ->
  log = []
  /\ forall r i d, instance_at k p r i = Some d ->
     exists d', instance_at k p' r i = Some d'
       /\ flags k d' = flags k d /\ pos k d' = pos k d
       /\ shadowModelMtx k d' = shadowModelMtx k d.
Proof.
  intros Hup Hclear.
  destruct (update_positions k M g p p' log Hup) as (_ & _ & Hlog & _ & _ & Hat).
  assert (log = []) as ->.
  { destruct log as [|[r i] rest]; [done|]. exfalso.
    assert ((r, i) ∈ (r, i) :: rest) as Hin by (apply elem_of_cons; by left).
    rewrite Hlog in Hin. apply elem_of_take in Hin as (j & Hj & _).
    apply list_elem_of_lookup_2, elem_of_flagged_in_order in Hj
      as (_ & room & d & Hr & Hd & Hn).
    rewrite (Hclear r i d) in Hn; [done|].
    unfold instance_at. by rewrite Hr. }
  split; [done|]. intros r i d Hd. unfold instance_at in Hd |- *.
  destruct (rooms k p !! r) as [room|] eqn:Hroom; simpl in Hd; [|done].
  destruct (Hat r room Hroom) as (room' & -> & _ & Hpt). simpl.
  destruct (Hpt i d Hd) as (d' & Hd' & _ & [(Hin & _)|(_ & ? & ? & ?)]).
  - by apply elem_of_nil in Hin.
  - by exists d'.
Qed.

Lemma groundCheck_pos_hit (k : Kind) g r (d : instance k) :
  gt (GroundCross (bgS g) (chk_pos (pos k d))) neg_infinity = true ->
  pos k (groundCheck k g r d)
  = f32_set (pos k d) 1 (GroundCross (bgS g) (chk_pos (pos k d))).
Proof.
  intros Hhit. destruct k; cbn [pos groundCheck] in *.
  - unfold FlowerPacket.groundCheck, Grass.checkGroundY.
    rewrite Hhit. reflexivity.
  - unfold TreePacket.groundCheck, TreePacket.checkGroundY.
    rewrite Hhit. cbn [TreePacket.pos TreePacket.set_pos TreePacket.set_flags
      TreePacket.set_shadowModelMtx].
    unfold f32_set. by rewrite list_insert_insert_eq.
  - unfold GrassPacket.groundCheck, Grass.checkGroundY.
    rewrite Hhit. reflexivity.
  - unfold BushPacket.groundCheck, BushPacket.checkGroundY.
    rewrite Hhit. cbn [BushPacket.pos BushPacket.set_pos BushPacket.set_flags
      BushPacket.set_shadowModelMtx].
    unfold f32_set. by rewrite list_insert_insert_eq.
Qed.

(** X4: when [update] checks an instance whose ray hits the ground
    ([GroundCross] returns more than [-Infinity]), the instance's height
    [pos[1]] becomes the ground height rounded to single precision, and
    [pos[0]] and [pos[2]] keep their values; for all four kinds. *)
Theorem ground_hit_sets_height (k : Kind) M g (p p' : packet k) (log : QueryLog)
    r i (d : instance k) :
  update k M g p = Some (p', log) ->
  (r, i) ∈ log ->
  instance_at k p r i = Some d ->
  gt (GroundCross (bgS g) (chk_pos (pos k d))) neg_infinity = true ->
  length (pos k d) = 3%nat ->
  exists d', instance_at k p' r i = Some d'
    /\ f32_get (pos k d') 0 = f32_get (pos k d) 0
    /\ f32_get (pos k d') 1 = fround (GroundCross (bgS g) (chk_pos (pos k d)))
    /\ f32_get (pos k d') 2 = f32_get (pos k d) 2.
Proof.
  intros Hup Hin Hd Hhit Hlen.
  destruct (update_positions k M g p p' log Hup) as (_ & _ & _ & _ & _ & Hat).
  unfold instance_at in Hd |- *.
  destruct (rooms k p !! r) as [room|] eqn:Hroom; simpl in Hd; [|done].
  destruct (Hat r room Hroom) as (room' & -> & _ & Hpt). simpl.
  destruct (Hpt i d Hd) as (d' & Hd' & _ & [(_ & _ & _ & Hp & _)|(Hout & _)]);
    [|done].
  exists d'. split; [done|]. rewrite Hp, groundCheck_pos_hit by done.
  unfold f32_get, f32_set.
  rewrite list_lookup_insert_eq by lia.
  rewrite !list_lookup_insert_ne by lia. done.
Qed.


Import Backlog.

Lemma NoDup_flagged_from {D} (needs : D -> bool) r (room : list D) : forall i,
  NoDup (flagged_from needs r room i).
Proof.
  induction room as [|d rest IH]; intros i; simpl; [constructor|].
  destruct (needs d); simpl; [|apply IH].
  constructor; [|apply IH].
  intros (_ & Hle & _)%elem_of_flagged_from. lia.
Qed.

Lemma NoDup_flagged_in_order {D} (needs : D -> bool) (rs : list (list D)) :
  forall order, NoDup order -> NoDup (flagged_in_order needs order rs).
Proof.
  induction order as [|r rest IH]; intros Hnd; [constructor|].
  apply NoDup_cons in Hnd as [Hr Hnd].
  change (flagged_in_order needs (r :: rest) rs)
    with (flagged_from needs r (default [] (rs !! r)) 0
          ++ flagged_in_order needs rest rs).
  apply NoDup_app. split; [apply NoDup_flagged_from|]. split; [|by apply IH].
  intros [r' j] (-> & _)%elem_of_flagged_from
    (Hin & _)%elem_of_flagged_in_order. done.
Qed.

Lemma pending_elem (k : Kind) (p : packet k) r i :
  (r, i) ∈ pending k p <->
  exists d, instance_at k p r i = Some d /\ needsGroundCheck (flags k d) = true.
Proof.
  unfold pending, instance_at. rewrite elem_of_flagged_in_order. split.
  - intros (_ & room & d & Hr & Hd & Hn). exists d. by rewrite Hr.
  - intros (d & Hd & Hn).
    destruct (rooms k p !! r) as [room|] eqn:Hr; simpl in Hd; [|done].
    split; [apply elem_of_seq; apply lookup_lt_Some in Hr; lia|].
    by exists room, d.
Qed.

Lemma pending_nil (k : Kind) (p : packet k) :
  pending k p = [] <->
  forall r i d, instance_at k p r i = Some d -> needsGroundCheck (flags k d) = false.
Proof.
  split.
  - intros E r i d Hd. destruct (needsGroundCheck (flags k d)) eqn:Hn; [|done].
    assert ((r, i) ∈ pending k p) as Hin by (apply pending_elem; by exists d).
    rewrite E in Hin. by apply elem_of_nil in Hin.
  - intros H. destruct (pending k p) as [|[r i] rest] eqn:E; [done|].
    assert ((r, i) ∈ pending k p) as Hin by (rewrite E; apply elem_of_cons; by left).
    apply pending_elem in Hin as (d & Hd & Hn). by rewrite (H r i d Hd) in Hn.
Qed.

(** One call takes [min 8 (pending)] instances off the backlog. *)
Lemma update_pending (k : Kind) M g (p p' : packet k) (log : QueryLog) :
  update k M g p = Some (p', log) ->
  length log = (length (pending k p) `min` 8)%nat
  /\ length (pending k p') = (length (pending k p) - length log)%nat.
Proof.
  intros Hup.
  destruct (update_positions k M g p p' log Hup) as (_ & _ & Hlog & Hnd & _ & Hat).
  set (L := flagged_in_order _ _ _) in Hlog.
  assert (NoDup L) as HndL by (by apply NoDup_flagged_in_order).
  assert (NoDup (pending k p)) as Hndp
    by (apply NoDup_flagged_in_order, NoDup_seq).
  assert (NoDup (pending k p')) as Hndp'
    by (apply NoDup_flagged_in_order, NoDup_seq).
  assert (forall x, x ∈ L <-> x ∈ pending k p) as HL.
  { intros [r i]. unfold L, pending. rewrite !elem_of_flagged_in_order.
    split; intros (_ & room & d & Hr & Hd & Hn).
    - split; [apply elem_of_seq; apply lookup_lt_Some in Hr; lia|].
      by exists room, d.
    - split; [apply visit_order_covers; by eapply lookup_lt_Some|].
      by exists room, d. }
  assert (length L = length (pending k p)) as HlenL
    by (apply Permutation_length, NoDup_Permutation; done).
  assert (NoDup log) as Hndlog by (rewrite Hlog; eapply sublist_NoDup; [exact HndL|apply sublist_take]).
  assert (forall x, x ∈ log -> x ∈ pending k p) as Hsub.
  { intros x Hx. apply HL. rewrite Hlog in Hx.
    apply elem_of_take in Hx as (j & Hj & _). by eapply list_elem_of_lookup_2. }
  assert (forall x, x ∈ pending k p' <-> x ∈ pending k p /\ x ∉ log) as Hp'.
  { intros [r i]. rewrite !pending_elem. split.
    - intros (d' & Hd' & Hn').
      destruct (update_instance_back k M g p p' log r i d' Hup Hd')
        as (d & Hd & _ & [(_ & _ & Hf & _)|(Hout & Hf & _)]).
      + rewrite Hf, needs_cleared in Hn'. done.
      + split; [|done]. exists d. by rewrite <- Hf.
    - intros [(d & Hd & Hn) Hout]. unfold instance_at in Hd |- *.
      destruct (rooms k p !! r) as [room|] eqn:Hroom; simpl in Hd; [|done].
      destruct (Hat r room Hroom) as (room' & -> & _ & Hpt). simpl.
      destruct (Hpt i d Hd) as (d' & Hd' & _ & [(Hin & _)|(_ & Hf & _)]); [done|].
      exists d'. by rewrite Hf. }
  assert (pending k p ≡ₚ pending k p' ++ log) as Hperm.
  { apply NoDup_Permutation; [done| |].
    - apply NoDup_app. split; [done|]. split; [|done].
      intros x Hx. by apply Hp' in Hx as [_ Hx].
    - intros x. rewrite elem_of_app, Hp'. split.
      + intros Hx. destruct (decide (x ∈ log)); [by right|by left].
      + intros [[Hx _]|Hx]; [done|by apply Hsub]. }
  apply Permutation_length in Hperm. rewrite length_app in Hperm.
  split; [|lia]. rewrite Hlog, length_take. lia.
Qed.

(** X5: the backlog of ground checks is worked off at 8 per frame.  On a
    well-formed packet with at most [8 * n] flagged instances, [n]
    successive calls of [update] all return, and afterwards no instance of
    the packet has its [needsGroundCheck] flag set. *)
Theorem updates_clear_backlog (k : Kind) M g (n : nat) (p : packet k) :
  well_formed k g p ->
  (length (pending k p) <= 8 * n)%nat ->
  exists p', updates k M g n p = Some p'
    /\ forall r i d, instance_at k p' r i = Some d ->
         needsGroundCheck (flags k d) = false.
Proof.
  revert p. induction n as [|n IH]; intros p Hwf Hlen.
  - exists p. split; [done|]. apply pending_nil.
    destruct (pending k p); [done|simpl in Hlen; lia].
  - destruct (update_total k M g p Hwf) as [[p1 log] Hup].
    destruct (update_pending k M g p p1 log Hup) as (Hlog & Hp1).
    destruct (IH p1) as (p' & Hn & Hclear).
    + by eapply update_well_formed.
    + lia.
    + exists p'. cbn [updates]. rewrite Hup. done.
Qed.


Lemma flower_newData_instances (p p1 : FlowerPacket.t) g rnd pos0 isPink roomIdx item data :
  FlowerPacket.newData p g rnd pos0 isPink roomIdx item = Some (p1, data) ->
  exists room,
    FlowerPacket.rooms p !! Z.to_nat roomIdx = Some room
    /\ 0 <= roomIdx
    /\ FlowerPacket.anims p1 = FlowerPacket.anims p
    /\ length (FlowerPacket.rooms p1) = length (FlowerPacket.rooms p)
    /\ instance_at KFlower p1 (Z.to_nat roomIdx) (length room) = Some data
    /\ (forall r i, (r, i) <> (Z.to_nat roomIdx, length room) ->
          instance_at KFlower p1 r i = instance_at KFlower p r i)
    /\ FlowerPacket.flags data = FlowerFlags_needsGroundCheck
    /\ FlowerPacket.animIdx data = rnd
    /\ FlowerPacket.pos data = vec3_clone pos0.
Proof.
  unfold FlowerPacket.newData.
  destruct (nth_Z (FlowerPacket.rooms p) roomIdx) as [room|] eqn:Hroom; [|done].
  cbn [mbind option_bind]. intros [= <- <-].
  apply nth_Z_Some in Hroom as [H0 Hroom].
  exists room. split; [done|]. split; [done|]. split; [done|].
  cbn [FlowerPacket.rooms]. split; [by rewrite length_insert|].
  pose proof (lookup_lt_Some _ _ _ Hroom) as Hlt.
  unfold instance_at. cbn [rooms FlowerPacket.rooms].
  change (instance KFlower) with FlowerPacket.FlowerData. split.
  - rewrite list_lookup_insert_eq by done. cbn [mbind option_bind].
    rewrite lookup_app_r by done. by rewrite Nat.sub_diag.
  - split; [|done]. intros r i Hne.
    destruct (decide (r = Z.to_nat roomIdx)) as [->|Hr].
    + rewrite list_lookup_insert_eq by done. rewrite Hroom.
      cbn [mbind option_bind].
      destruct (decide (i < length room)%nat) as [Hi|Hi].
      * by rewrite lookup_app_l.
      * assert (length room < i)%nat by (destruct (decide (i = length room)); [congruence|lia]).
        rewrite (proj2 (lookup_ge_None room i)) by lia.
        apply lookup_ge_None. rewrite length_app. simpl. lia.
    + by rewrite list_lookup_insert_ne.
Qed.

(** When at most 8 instances are pending, one call queries them all. *)
Lemma update_queries_all (k : Kind) M g (p p' : packet k) (log : QueryLog) r i :
  update k M g p = Some (p', log) ->
  (length (pending k p) <= 8)%nat ->
  (r, i) ∈ pending k p -> (r, i) ∈ log.
Proof.
  intros Hup Hlen Hin.
  destruct (update_pending k M g p p' log Hup) as (Hl & Hp').
  destruct (decide ((r, i) ∈ log)) as [|Hout]; [done|exfalso].
  apply pending_elem in Hin as (d & Hd & Hn).
  destruct (update_positions k M g p p' log Hup) as (_ & _ & _ & _ & _ & Hat).
  unfold instance_at in Hd.
  destruct (rooms k p !! r) as [room|] eqn:Hroom; simpl in Hd; [|done].
  destruct (Hat r room Hroom) as (room' & Hroom' & _ & Hpt).
  destruct (Hpt i d Hd) as (d' & Hd' & _ & [(Hin' & _)|(_ & Hf & _)]); [done|].
  assert ((r, i) ∈ pending k p') as Hin'.
  { apply pending_elem. exists d'. unfold instance_at. rewrite Hroom'. simpl.
    split; [done|]. by rewrite Hf. }
  assert (length (pending k p') = 0)%nat as Hz by lia.
  destruct (pending k p'); [by apply elem_of_nil in Hin'|done].
Qed.

Lemma flower_groundCheck_pos g r (d : instance KFlower) :
  pos KFlower (groundCheck KFlower g r d)
  = f32_set (pos KFlower d) 1
      (if gt (GroundCross (bgS g) (chk_pos (pos KFlower d))) neg_infinity
       then GroundCross (bgS g) (chk_pos (pos KFlower d))
       else f32_get (pos KFlower d) 1).
Proof. reflexivity. Qed.

(** X6: [newData] followed by [update].  A flower added by
    [FlowerPacket.newData] to a well-formed packet with fewer than 8
    pending ground checks sits at the end of its room's bucket and is
    checked by the next [update], whether or not the ray hits: its flag is
    cleared, and its height is the ground height in single precision when
    the ray hits and the height it was spawned with when it misses. *)
Theorem spawned_flower_is_grounded M g (p p1 : FlowerPacket.t) rnd pos0 isPink
    roomIdx item data :
  FlowerPacket.newData p g rnd pos0 isPink roomIdx item = Some (p1, data) ->
  well_formed KFlower g p ->
  0 <= rnd < 8 ->
  (length (pending KFlower p) < 8)%nat ->
  exists room p2 log d',
    FlowerPacket.rooms p !! Z.to_nat roomIdx = Some room
    /\ instance_at KFlower p1 (Z.to_nat roomIdx) (length room) = Some data
    /\ update KFlower M g p1 = Some (p2, log)
    /\ (Z.to_nat roomIdx, length room) ∈ log
    /\ instance_at KFlower p2 (Z.to_nat roomIdx) (length room) = Some d'
    /\ needsGroundCheck (flags KFlower d') = false
    /\ f32_get (pos KFlower d') 1
       = fround (if gt (GroundCross (bgS g) (chk_pos (vec3_clone pos0))) neg_infinity
                 then GroundCross (bgS g) (chk_pos (vec3_clone pos0))
                 else f32_get (vec3_clone pos0) 1).
Proof.
  intros Hnew (H8 & Hidx & _) Hrnd Hpend.
  destruct (flower_newData_instances _ _ _ _ _ _ _ _ _ Hnew)
    as (room & Hroom & H0 & Han & Hlen & Hat & Hother & Hfl & Hai & Hpos).
  exists room.
  assert (well_formed KFlower g p1) as Hwf1.
  { split; [simpl in *; by rewrite Han|]. split; [|done].
    intros r i d Hd. simpl in *. rewrite Han.
    destruct (decide ((r, i) = (Z.to_nat roomIdx, length room))) as [[= -> ->]|Hne].
    - rewrite Hat in Hd. injection Hd as <-. rewrite Hai. lia.
    - rewrite Hother in Hd by done. by eapply Hidx. }
  assert (forall x, x ∈ pending KFlower p1 ->
            x ∈ (Z.to_nat roomIdx, length room) :: pending KFlower p) as Hsub.
  { intros [r i] (d & Hd & Hn)%pending_elem. apply elem_of_cons.
    destruct (decide ((r, i) = (Z.to_nat roomIdx, length room))) as [|Hne];
      [by left|right].
    apply pending_elem. exists d. by rewrite <- Hother. }
  assert (length (pending KFlower p1) <= 8)%nat as Hpend1.
  { assert (pending KFlower p1 ⊆+ (Z.to_nat roomIdx, length room) :: pending KFlower p)
      as Hms by (apply NoDup_submseteq;
                 [apply NoDup_flagged_in_order, NoDup_seq|done]).
    apply submseteq_length in Hms. simpl in Hms. lia. }
  destruct (update_total KFlower M g p1 Hwf1) as [[p2 log] Hup].
  assert ((Z.to_nat roomIdx, length room) ∈ log) as Hin.
  { apply (update_queries_all KFlower M g p1 p2 log _ _ Hup Hpend1).
    apply pending_elem. exists data. split; [done|]. simpl. by rewrite Hfl. }
  destruct (update_positions KFlower M g p1 p2 log Hup) as (_ & _ & _ & _ & _ & Hpts).
  pose proof Hat as Hat'. unfold instance_at in Hat.
  destruct (rooms KFlower p1 !! Z.to_nat roomIdx) as [room1|] eqn:Hroom1;
    simpl in Hat; [|done].
  destruct (Hpts _ room1 Hroom1) as (room2 & Hroom2 & _ & Hpt).
  destruct (Hpt _ data Hat) as (d' & Hd' & _ & [(_ & _ & Hf & Hp & _)|(Hout & _)]);
    [|done].
  exists p2, log, d'. split; [done|]. split; [done|]. split; [done|].
  split; [done|].
  split; [unfold instance_at; rewrite Hroom2; done|].
  split; [by rewrite Hf, needs_cleared|].
  rewrite Hp, flower_groundCheck_pos.
  change (pos KFlower data) with (FlowerPacket.pos data). rewrite Hpos.
  unfold f32_get at 1. unfold f32_set.
  rewrite list_lookup_insert_eq; [done|]. unfold vec3_clone, f32_of. simpl. lia.
Qed.

Import Fixtures MoreFixtures.

Lemma update_keeps_shape_witness :
  exists p' log,
    update KTree zero_angle_math (globals_in no_ground 0) one_tree = Some (p', log)
    /\ length (rooms KTree p') = 64%nat
    /\ anims_length KTree p' = 8%nat.
Proof.
  destruct (update KTree zero_angle_math (globals_in no_ground 0) one_tree)
    as [[p' log]|] eqn:Hup; [|by vm_compute in Hup].
  exists p', log. split; [reflexivity|].
  destruct (update_keeps_shape KTree _ _ _ p' log Hup) as (Hr & _ & Ha & _).
  rewrite Hr, Ha. split; reflexivity.
Defined.

Lemma trees_1_and_9_left_over :
  (needsGroundCheck ∘ flags KTree)
    <$> (update KTree zero_angle_math (globals_in flat_ground 1) trees_1_and_9
           ≫= fun '(p', _) => instance_at KTree p' 1 8)
  = Some true.
Proof. vm_compute. reflexivity. Qed.

Lemma update_work_conserving_witness :
  exists p' log,
    update KTree zero_angle_math (globals_in flat_ground 1) trees_1_and_9
    = Some (p', log)
    /\ (needsGroundCheck ∘ flags KTree) <$> instance_at KTree p' 1 8 = Some true
    /\ length log = 8%nat.
Proof.
  pose proof trees_1_and_9_left_over as Hleft.
  destruct (update KTree zero_angle_math (globals_in flat_ground 1) trees_1_and_9)
    as [[p' log]|] eqn:Hup; [|discriminate].
  cbn [mbind option_bind] in Hleft.
  exists p', log. split; [reflexivity|]. split; [exact Hleft|].
  destruct (instance_at KTree p' 1 8) as [d'|] eqn:Hd'; [|discriminate].
  injection Hleft as Hflag.
  exact (update_work_conserving KTree _ _ _ p' log 1%nat 8%nat d' Hup Hd' Hflag).
Defined.

Lemma settled_flowers_clear r i d :
  instance_at KFlower settled_flowers r i = Some d ->
  needsGroundCheck (flags KFlower d) = false.
Proof.
  unfold instance_at.
  change (rooms KFlower settled_flowers)
    with ([settled_flower] :: replicate 63 ([] : list FlowerPacket.FlowerData)).
  destruct r as [|r]; cbn [lookup list_lookup mbind option_bind].
  - destruct i as [|i]; [by intros [= <-]|done].
  - destruct (replicate 63 [] !! r) as [room|] eqn:Hroom; [|done].
    apply replicate_lookup_nil in Hroom as ->. done.
Qed.

Lemma update_idle_witness :
  exists p' d',
    update KFlower zero_angle_math (globals_in flat_ground 0) settled_flowers
    = Some (p', [])
    /\ instance_at KFlower p' 0 0 = Some d'
    /\ pos KFlower d' = pos KFlower settled_flower.
Proof.
  destruct (update KFlower zero_angle_math (globals_in flat_ground 0) settled_flowers)
    as [[p' log]|] eqn:Hup; [|by vm_compute in Hup].
  destruct (update_idle KFlower _ _ _ p' log Hup settled_flowers_clear)
    as (-> & Hsame).
  destruct (Hsame 0%nat 0%nat settled_flower eq_refl) as (d' & Hd' & _ & Hp & _).
  by exists p', d'.
Defined.

Lemma one_tree_update_level :
  snd <$> update KTree zero_angle_math (globals_in flat_ground 0) one_tree
  = Some [(0, 0)]%nat.
Proof. vm_compute. reflexivity. Qed.

Lemma ground_hit_sets_height_witness :
  exists p' d',
    (fst <$> update KTree zero_angle_math (globals_in flat_ground 0) one_tree)
    = Some p'
    /\ instance_at KTree p' 0 0 = Some d'
    /\ f32_get (pos KTree d') 1 = fround 0.
Proof.
  pose proof one_tree_update_level as Hlog.
  destruct (update KTree zero_angle_math (globals_in flat_ground 0) one_tree)
    as [[p' log]|] eqn:Hup; [|discriminate].
  injection Hlog as Hlog. cbn [snd] in Hlog.
  destruct (ground_hit_sets_height KTree zero_angle_math (globals_in flat_ground 0)
              one_tree p' log 0%nat 0%nat tree Hup) as (d' & Hd' & _ & Hy & _).
  - rewrite Hlog. apply elem_of_cons. by left.
  - reflexivity.
  - reflexivity.
  - reflexivity.
  - exists p', d'. split; [reflexivity|]. split; [exact Hd'|]. exact Hy.
Defined.

Lemma flowers_20_pending : length (pending KFlower flowers_20) = 20%nat.
Proof. vm_compute. reflexivity. Qed.

Lemma updates_clear_backlog_witness :
  length (pending KFlower flowers_20) = 20%nat
  /\ exists p',
       updates KFlower zero_angle_math (globals_in flat_ground 0) 3 flowers_20
       = Some p'
       /\ pending KFlower p' = [].
Proof.
  split; [exact flowers_20_pending|].
  destruct (updates_clear_backlog KFlower zero_angle_math (globals_in flat_ground 0)
              3 flowers_20 flowers_20_well_formed) as (p' & Hn & Hclear).
  - rewrite flowers_20_pending. lia.
  - exists p'. split; [exact Hn|]. by apply pending_nil.
Defined.


Lemma settled_flowers_well_formed :
  well_formed KFlower (globals_in flat_ground 0) settled_flowers.
Proof.
  split; [vm_compute; lia|]. split; [|done].
  intros r i d Hd. unfold instance_at in Hd.
  change (rooms KFlower settled_flowers)
    with ([settled_flower] :: replicate 63 ([] : list FlowerPacket.FlowerData)) in Hd.
  destruct r as [|r]; cbn [lookup list_lookup mbind option_bind] in Hd.
  - destruct i as [|i]; [|done]. injection Hd as <-. vm_compute. done.
  - destruct (replicate 63 [] !! r) as [room|] eqn:Hroom; [|done].
    apply replicate_lookup_nil in Hroom as ->. done.
Qed.

Lemma settled_flowers_pending : pending KFlower settled_flowers = [].
Proof. vm_compute. reflexivity. Qed.

Lemma spawned_flower_is_grounded_witness :
  (exists p1 data p2 log d',
     FlowerPacket.newData settled_flowers (globals_in flat_ground 0) 3
       [1; 2; 3]%float false 0 0 = Some (p1, data)
     /\ update KFlower zero_angle_math (globals_in flat_ground 0) p1 = Some (p2, log)
     /\ instance_at KFlower p2 0 1 = Some d'
     /\ needsGroundCheck (flags KFlower d') = false
     /\ f32_get (pos KFlower d') 1 = 0%float)
  /\ (exists p1 data p2 log d',
        FlowerPacket.newData settled_flowers (globals_in no_ground 0) 3
          [1; 2; 3]%float false 0 0 = Some (p1, data)
        /\ update KFlower zero_angle_math (globals_in no_ground 0) p1 = Some (p2, log)
        /\ instance_at KFlower p2 0 1 = Some d'
        /\ needsGroundCheck (flags KFlower d') = false
        /\ f32_get (pos KFlower d') 1 = 2%float).
Proof.
  split.
  - destruct (FlowerPacket.newData settled_flowers (globals_in flat_ground 0) 3
                [1; 2; 3]%float false 0 0) as [[p1 data]|] eqn:Hnew;
      [|by vm_compute in Hnew].
    destruct (spawned_flower_is_grounded zero_angle_math (globals_in flat_ground 0)
                settled_flowers p1 3 [1; 2; 3]%float false 0 0 data Hnew
                settled_flowers_well_formed)
      as (room & p2 & log & d' & Hroom & _ & Hup & _ & Hd' & Hc & Hy).
    + lia.
    + rewrite settled_flowers_pending. simpl. lia.
    + injection Hroom as <-.
      exists p1, data, p2, log, d'. split; [reflexivity|]. split; [exact Hup|].
      split; [exact Hd'|]. split; [exact Hc|]. exact Hy.
  - destruct (FlowerPacket.newData settled_flowers (globals_in no_ground 0) 3
                [1; 2; 3]%float false 0 0) as [[p1 data]|] eqn:Hnew;
      [|by vm_compute in Hnew].
    destruct (spawned_flower_is_grounded zero_angle_math (globals_in no_ground 0)
                settled_flowers p1 3 [1; 2; 3]%float false 0 0 data Hnew)
      as (room & p2 & log & d' & Hroom & _ & Hup & _ & Hd' & Hc & Hy).
    + split; [vm_compute; lia|]. split; [|done].
      intros r i d Hd. exact (proj1 (proj2 settled_flowers_well_formed) r i d Hd).
    + lia.
    + rewrite settled_flowers_pending. simpl. lia.
    + injection Hroom as <-.
      exists p1, data, p2, log, d'. split; [reflexivity|]. split; [exact Hup|].
      split; [exact Hd'|]. split; [exact Hc|]. exact Hy.
Defined.

End FoliageMore.

End Foliage.

(* ===================================================================== *)
(** ** Ordering of binary64 numbers *)
(* ===================================================================== *)

Section FloatOrder.
Local Open Scope float_scope.

Lemma SFcompare_antisym (a b : spec_float) :
  SFcompare b a = CompOpp <$> SFcompare a b.
Proof.
  destruct a as [sa|sa| |sa ma ea], b as [sb|sb| |sb mb eb]; simpl;
    try (destruct sa); try (destruct sb); simpl; try reflexivity.
  all: rewrite (Z.compare_antisym ea eb); destruct (ea ?= eb)%Z; simpl;
    try reflexivity; f_equal;
    change (Pos.compare_cont Eq mb ma) with (Pos.compare mb ma);
    change (Pos.compare_cont Eq ma mb) with (Pos.compare ma mb);
    rewrite (Pos.compare_antisym ma mb); by destruct (ma ?= mb)%positive.
Qed.

Lemma Prim2SF_1 : Prim2SF 1 = S754_finite false 4503599627370496 (-52).
Proof. vm_compute. reflexivity. Qed.

Lemma ltb_leb_false (x y : float) : (x <? y) = true -> (y <=? x) = false.
Proof.
  rewrite ltb_spec, leb_spec. unfold SFltb, SFleb.
  rewrite (SFcompare_antisym (Prim2SF x) (Prim2SF y)).
  destruct (SFcompare (Prim2SF x) (Prim2SF y)) as [[]|]; simpl; intros; congruence.
Qed.

Lemma Prim2SF_0 : Prim2SF 0 = S754_zero false.
Proof. vm_compute. reflexivity. Qed.

Lemma leb_1_not_leb_0 (t : float) : (1 <=? t) = true -> (t <=? 0) = false.
Proof.
  rewrite !leb_spec. rewrite Prim2SF_1, Prim2SF_0.
  unfold SFleb, SFcompare.
  destruct (Prim2SF t) as [s|s| |s m e]; try (destruct s); intros; congruence.
Qed.

Lemma leb_antisym_1 (t : float) : (1 <=? t) = true -> (t <=? 1) = true -> t = 1.
Proof.
  rewrite !leb_spec. intros H1 H2. apply Prim2SF_inj.
  rewrite Prim2SF_1 in *.
  unfold SFleb in *.
  rewrite (SFcompare_antisym (Prim2SF t)) in H1.
  destruct (Prim2SF t) as [s|s| |s m e]; try (destruct s).
  all: unfold SFcompare in *.
  all: try (cbn [fmap option_fmap option_map CompOpp] in *; congruence).
  destruct (e ?= -52)%Z eqn:He; try (cbn [fmap option_fmap option_map CompOpp] in *; congruence).
  apply Z.compare_eq in He. subst e.
  destruct (PosDef.Pos.compare_cont Eq m 4503599627370496) eqn:Hm;
    try (cbn [fmap option_fmap option_map CompOpp] in *; congruence).
  apply Pos.compare_eq in Hm. 
  subst m. reflexivity.
Qed.

Lemma ltb_leb_true (x y : float) : (x <? y) = true -> (x <=? y) = true.
Proof.
  rewrite ltb_spec, leb_spec. unfold SFltb, SFleb.
  by destruct (SFcompare (Prim2SF x) (Prim2SF y)) as [[]|].
Qed.

Lemma ltb_eqb_false (x y : float) : (x <? y) = true -> (y =? x) = false.
Proof.
  rewrite FloatAxioms.ltb_spec, FloatAxioms.eqb_spec. unfold SFltb, SFeqb.
  rewrite (SFcompare_antisym (Prim2SF x) (Prim2SF y)).
  destruct (SFcompare (Prim2SF x) (Prim2SF y)) as [[]|]; simpl; intros; congruence.
Qed.

Lemma SFcompare_refl (a : spec_float) :
  a <> S754_nan -> SFcompare a a = Some Eq.
Proof.
  destruct a as [s|s| |s m e]; try (destruct s); simpl; try done.
  all: intros _; rewrite Z.compare_refl; f_equal.
  all: change (Pos.compare_cont Eq m m) with (Pos.compare m m).
  all: by rewrite Pos.compare_refl.
Qed.

Lemma SFcompare_Some_not_nan (a b : spec_float) (c : comparison) :
  SFcompare a b = Some c -> a <> S754_nan /\ b <> S754_nan.
Proof. destruct a as [s|s| |s m e], b as [s'|s'| |s' m' e']; simpl; done. Qed.

Lemma ltb_not_nan (x y : float) :
  (x <? y) = true -> (x =? x) = true /\ (y =? y) = true.
Proof.
  rewrite FloatAxioms.ltb_spec, !FloatAxioms.eqb_spec. unfold SFltb, SFeqb.
  destruct (SFcompare (Prim2SF x) (Prim2SF y)) as [c|] eqn:E; [|done].
  intros _. apply SFcompare_Some_not_nan in E as [Hx Hy].
  by rewrite !SFcompare_refl.
Qed.

Lemma eqb_not_nan (x y : float) :
  (x =? y) = true -> (x =? x) = true /\ (y =? y) = true.
Proof.
  rewrite !FloatAxioms.eqb_spec. unfold SFeqb.
  destruct (SFcompare (Prim2SF x) (Prim2SF y)) as [c|] eqn:E; [|done].
  intros _. apply SFcompare_Some_not_nan in E as [Hx Hy].
  by rewrite !SFcompare_refl.
Qed.

Lemma ltb_asym (x y : float) : (x <? y) = true -> (y <? x) = false.
Proof.
  rewrite !FloatAxioms.ltb_spec. unfold SFltb.
  rewrite (SFcompare_antisym (Prim2SF x) (Prim2SF y)).
  destruct (SFcompare (Prim2SF x) (Prim2SF y)) as [[]|]; simpl; intros; congruence.
Qed.

Lemma ltb_eqb_false_l (x y : float) : (x <? y) = true -> (x =? y) = false.
Proof.
  rewrite FloatAxioms.ltb_spec, FloatAxioms.eqb_spec. unfold SFltb, SFeqb.
  destruct (SFcompare (Prim2SF x) (Prim2SF y)) as [[]|]; simpl; intros; congruence.
Qed.

End FloatOrder.

(* ===================================================================== *)
(** ** Function values: the list parameter *)
(* ===================================================================== *)

Section ListParameter.
Import JS JStudio JStudio.FVB Fixtures.
Local Open Scope float_scope.

Lemma findIndex_key_0_1_1_5 (t : float) :
  findIndex_key keys_0_1_1_5 0 t
  = if t <=? 0 then 0%Z else if t <=? 1 then 2%Z else (-1)%Z.
Proof.
  unfold keys_0_1_1_5, findIndex_key, ge.
  change ((0 mod 2 =? 0)%Z) with true.
  change (((0 + 1) mod 2 =? 0)%Z) with false.
  change (((0 + 1 + 1) mod 2 =? 0)%Z) with true.
  change (((0 + 1 + 1 + 1) mod 2 =? 0)%Z) with false.
  cbn [andb]. change (0 + 1 + 1)%Z with 2%Z. reflexivity.
Qed.

Lemma list_parameter_0_1_1_5 :
  list_parameter EInterpolateType_Linear keys_0_1_1_5
  = {| interpolate := 1; keyCount := 2; keys := keys_0_1_1_5; curKeyIdx := 0;
       interpFunc := Some interpolateLinear |}.
Proof. vm_compute. reflexivity. Qed.

(** C6: the curve with keys [(0,1), (1,5)] in Linear mode evaluates to 1 at
    time -1, to 3 at time 0.5 and to 5 at time 2; every time at or before
    the first key's time yields the first key's value, every time at or
    after the last key's time yields the last key's value. *)
Theorem list_parameter_boundaries :
  let fv := list_parameter EInterpolateType_Linear keys_0_1_1_5 in
  fst <$> getValue fv (-1) = Some (num 1)
  /\ fst <$> getValue fv 0.5 = Some (num 3)
  /\ fst <$> getValue fv 2 = Some (num 5)
  /\ (forall t, (t <=? 0) = true -> fst <$> getValue fv t = Some (num 1))
  /\ (forall t, (1 <=? t) = true -> fst <$> getValue fv t = Some (num 5)).
Proof.
  cbv zeta. rewrite list_parameter_0_1_1_5.
  split; [vm_compute; reflexivity|]. split; [vm_compute; reflexivity|].
  split; [vm_compute; reflexivity|].
  split; intros t Ht; unfold getValue, Range_getParameter, to_number;
    cbn [keys with_curKeyIdx curKeyIdx]; rewrite findIndex_key_0_1_1_5.
  - rewrite Ht. vm_compute. reflexivity.
  - rewrite (leb_1_not_leb_0 t Ht). destruct (t <=? 1) eqn:Ht1.
    + rewrite (leb_antisym_1 t Ht Ht1). vm_compute. reflexivity.
    + vm_compute. reflexivity.
Qed.

Lemma prepare_falls_through (fv : FunctionValue_ListParameter) :
  (0 <= interpolate fv <= 3)%Z ->
  interpFunc (prepare fv)
  = Some (if gt (keyCount fv) 2 then interpolateBSpline else interpolateLinear).
Proof.
  intros H. unfold prepare, EInterpolateType_None, EInterpolateType_Linear,
    EInterpolateType_Plateau, EInterpolateType_BSpline.
  cbn [interpFunc with_interpFunc].
  assert (interpolate fv = 0 \/ interpolate fv = 1 \/ interpolate fv = 2
          \/ interpolate fv = 3)%Z as [E|[E|[E|E]]] by lia;
    rewrite E; cbn [Z.eqb Pos.eqb orb]; by destruct (gt (keyCount fv) 2).
Qed.

(** C3, three keys: [prepare] falls through its [switch] and installs the
    B-spline evaluator for the Linear mode; on the keys [(0,0), (1,1), (2,4)]
    the curve evaluates at time 0.5 to 0.5416..., above the value 0.5 of the
    Linear formula between the keys (0,0) and (1,1). *)
Theorem linear_mode_with_three_keys :
  let fv := list_parameter EInterpolateType_Linear keys_0_0_1_1_2_4 in
  interpFunc fv = Some interpolateBSpline
  /\ fst <$> getValue fv 0.5 = Some (num 0x1.1555555555555p-1)
  /\ Linear 0.5 0 0 1 1 = 0.5
  /\ (0.5 <? 0x1.1555555555555p-1) = true.
Proof. vm_compute. repeat split. Qed.

(** C3, two keys: a curve of exactly two keys (t0,v0), (t1,v1) in Linear
    mode evaluates at a time t strictly between t0 and t1 to
    v0 + ((v1 - v0) * (t - t0)) / (t1 - t0), in binary64 arithmetic. *)
Theorem linear_mode_with_two_keys (t t0 v0 t1 v1 : float) :
  (t0 <? t) = true -> (t <? t1) = true ->
  fst <$> getValue (list_parameter EInterpolateType_Linear [t0; v0; t1; v1]) t
  = Some (num (v0 + ((v1 - v0) * (t - t0)) / (t1 - t0))).
Proof.
  intros H0 H1.
  assert (list_parameter EInterpolateType_Linear [t0; v0; t1; v1]
          = {| interpolate := 1; keyCount := 2; keys := [t0; v0; t1; v1];
               curKeyIdx := 0; interpFunc := Some interpolateLinear |}) as ->
    by (vm_compute; reflexivity).
  unfold getValue, Range_getParameter, to_number.
  cbn [keys with_curKeyIdx curKeyIdx].
  assert (findIndex_key [t0; v0; t1; v1] 0 t = 2%Z) as ->.
  { unfold findIndex_key, ge.
    rewrite (ltb_leb_false _ _ H0), (ltb_leb_true _ _ H1).
    change ((0 mod 2 =? 0)%Z) with true.
    change (((0 + 1) mod 2 =? 0)%Z) with false.
    change (((0 + 1 + 1) mod 2 =? 0)%Z) with true.
    reflexivity. }
  vm_compute. reflexivity.
Qed.

Lemma linear_mode_with_two_keys_witness :
  (0 <? 0.5) = true /\ (0.5 <? 1) = true
  /\ fst <$> getValue (list_parameter EInterpolateType_Linear [0; 1; 1; 5]) 0.5
     = Some (num (1 + ((5 - 1) * (0.5 - 0)) / (1 - 0))).
Proof.
  split; [reflexivity|]. split; [reflexivity|].
  apply (linear_mode_with_two_keys 0.5 0 1 1 5); reflexivity.
Defined.

(** X20: a list-parameter curve clamps below its first key: at any time
    at or before the first key time, [getValue] returns the first key's
    value, whatever the interpolation function. *)
Theorem getValue_at_or_before_first_key (fv : FunctionValue_ListParameter)
    (t0 v0 : number) (rest : list number) (t : number) :
  keys fv = t0 :: v0 :: rest ->
  ge t0 t = true ->
  fst <$> getValue fv t = Some (num v0).
Proof.
  intros Hk Hge. unfold getValue, Range_getParameter, to_number.
  rewrite Hk. cbn [findIndex_key]. change ((0 mod 2 =? 0)%Z) with true.
  rewrite Hge. cbn [andb].
  change (of_Z 0 / 2) with 0. cbn [curKeyIdx with_curKeyIdx keys].
  change (0 =? 0) with true. cbv iota. rewrite Hk.
  change (0 * 2 + 1) with 1. reflexivity.
Qed.

(** X21: a list-parameter curve without keys has no value: [getValue]
    returns [undefined] at every time, and does not throw. *)
Theorem getValue_without_keys (fv : FunctionValue_ListParameter) (t : number) :
  keys fv = [] ->
  fst <$> getValue fv t = Some undefined.
Proof.
  intros Hk. unfold getValue, Range_getParameter, to_number.
  rewrite Hk. cbn [findIndex_key].
  change (of_Z (-1) / 2) with (-0.5). cbn [curKeyIdx with_curKeyIdx keys].
  change (-0.5 =? 0) with false. change (lt (-0.5) 0) with true. cbv iota.
  rewrite Hk. unfold elem. by destruct (index_of _).
Qed.

Lemma prepare_invalid_mode (fv : FunctionValue_ListParameter) :
  (interpolate fv < 0 \/ 3 < interpolate fv)%Z ->
  prepare fv = fv.
Proof.
  intros H. unfold prepare, EInterpolateType_None, EInterpolateType_Linear,
    EInterpolateType_Plateau, EInterpolateType_BSpline.
  destruct (Z.eqb_spec (interpolate fv) 0); [lia|].
  destruct (Z.eqb_spec (interpolate fv) 1); [lia|].
  destruct (Z.eqb_spec (interpolate fv) 2); [lia|].
  destruct (Z.eqb_spec (interpolate fv) 3); [lia|].
  cbn [orb]. by destruct fv.
Qed.

(** X22: with an interpolation type outside 0..3, [prepare] installs no
    interpolation function, and [getValue] throws at every time strictly
    inside a two-key curve (after the first key, up to the second). *)
Theorem getValue_invalid_mode_throws (interp : Z) (t0 v0 t1 v1 t : number) :
  (interp < 0 \/ 3 < interp)%Z ->
  (t0 <? t) = true -> (t <=? t1) = true ->
  getValue (list_parameter interp [t0; v0; t1; v1]) t = None.
Proof.
  intros Hi H0 H1. unfold list_parameter.
  rewrite prepare_invalid_mode by done.
  unfold getValue, Range_getParameter, to_number.
  cbn [keys setData with_interpolate new_ListParameter findIndex_key].
  unfold ge. rewrite (ltb_leb_false _ _ H0), H1.
  change ((0 mod 2 =? 0)%Z) with true.
  change (((0 + 1) mod 2 =? 0)%Z) with false.
  change (((0 + 1 + 1) mod 2 =? 0)%Z) with true.
  cbn [andb]. change (of_Z (0 + 1 + 1) / 2) with 1.
  cbn [curKeyIdx with_curKeyIdx]. change (1 =? 0) with false.
  change (lt 1 0) with false. cbv iota. reflexivity.
Qed.

Lemma getValue_with_interpolate (fv : FunctionValue_ListParameter) (m : Z)
    (t : number) :
  fst <$> getValue (with_interpolate fv m) t = fst <$> getValue fv t.
Proof.
  destruct fv as [i kc ks c f]. unfold getValue, with_interpolate.
  cbn [interpolate keyCount keys curKeyIdx interpFunc with_curKeyIdx].
  destruct (PrimFloat.eqb _ 0); [reflexivity|].
  destruct (lt _ 0); [reflexivity|].
  destruct f as [[| | |]|]; reflexivity.
Qed.

Lemma prepare_with_interpolate (fv : FunctionValue_ListParameter) (m : Z) :
  (0 <= m <= 3)%Z ->
  prepare (with_interpolate fv m)
  = with_interpolate
      (with_interpFunc fv
         (Some (if gt (keyCount fv) 2 then interpolateBSpline
                else interpolateLinear))) m.
Proof.
  intros H.
  pose proof (prepare_falls_through (with_interpolate fv m) H) as E.
  unfold prepare in *. cbn [interpFunc with_interpFunc] in E.
  unfold with_interpFunc at 1. rewrite E. reflexivity.
Qed.

(** X23: the interpolation type does not select the curve.  For any key
    data and any time, [getValue] gives the same result for any two of the
    four valid interpolation types, because [prepare] falls through to its
    last case for each of them. *)
Theorem getValue_ignores_mode (m1 m2 : Z) (values : Float32Array) (t : number) :
  (0 <= m1 <= 3)%Z -> (0 <= m2 <= 3)%Z ->
  fst <$> getValue (list_parameter m1 values) t
  = fst <$> getValue (list_parameter m2 values) t.
Proof.
  intros H1 H2. unfold list_parameter.
  rewrite !prepare_with_interpolate by done.
  by rewrite !getValue_with_interpolate.
Qed.

Lemma getValue_at_or_before_first_key_witness :
  ge 0 (-1) = true
  /\ fst <$> getValue (list_parameter EInterpolateType_Linear keys_0_1_1_5) (-1)
     = Some (num 1).
Proof.
  split; [reflexivity|].
  apply (getValue_at_or_before_first_key _ 0 1 [1; 5] (-1)); reflexivity.
Defined.

Lemma getValue_without_keys_witness :
  fst <$> getValue (list_parameter EInterpolateType_Linear []) 0.5 = Some undefined.
Proof. apply getValue_without_keys. reflexivity. Defined.

Lemma getValue_invalid_mode_throws_witness :
  getValue (list_parameter 7 [0; 1; 1; 5]) 0.5 = None.
Proof.
  apply (getValue_invalid_mode_throws 7 0 1 1 5 0.5); [lia|reflexivity..].
Defined.

Lemma getValue_ignores_mode_witness :
  fst <$> getValue (list_parameter EInterpolateType_None keys_0_0_1_1_2_4) 0.5
  = fst <$> getValue (list_parameter EInterpolateType_BSpline keys_0_0_1_1_2_4) 0.5.
Proof.
  apply getValue_ignores_mode.
  - change (0 <= 0 <= 3)%Z. lia.
  - change (0 <= 3 <= 3)%Z. lia.
Defined.

End ListParameter.

(* ===================================================================== *)
(** ** Block objects: the sequence, the paragraph header *)
(* ===================================================================== *)

Section BlockObject.
Import JS JStudio Fixtures.
Local Open Scope Z_scope.

(** C4, the disabled object: with the top bit of the flag word set,
    [forward] only puts the object in the Inactive status; the End command
    is not read, no update is made and the end hook is not called. *)
Lemma forward_disabled_object :
  forward false 4 (new_STBObject 0x8000 3 stb_end_first) 1
  = Ok (true, with_status (new_STBObject 0x8000 3 stb_end_first) Inactive,
        [set_mStatus Inactive]).
Proof. vm_compute. reflexivity. Qed.

Ltac step Hfl Hsus Hw Hcmd Hw32 Hpsn :=
  unfold isSuspended, process_sequence, log;
  cbn -[Z.land getUint8 getUint32 PrimFloat.eqb PrimFloat.ltb gt ge Z.eqb truthy];
  rewrite ?Hfl, ?Hsus, ?Hw, ?Hcmd, ?Hw32, ?Hpsn;
  change (truthy 0) with false; change (0 =? 0) with true.

(** C4: an object with an adaptor, whose flag word has the top bit clear,
    in its initial status, not suspended and not waiting, whose first
    sequence command is End: one call of [forward], for any frame count,
    begins the adaptor, enters Wait, makes exactly one update of length 0,
    enters End and calls the end hook; the Suspend status never occurs. *)
Theorem forward_end_first (o : STBObject) (frameCount : number) (fuel : nat) :
  mAdaptor o = true ->
  Z.land (mFlags o) 0x8000 = 0 ->
  mStatus o = Still ->
  mIsSequence o = false ->
  isSuspended o = false ->
  PrimFloat.eqb (mWait o) 0 = true ->
  pSequence_next o <> 0 ->
  getUint8 (mData o) (pSequence_next o) = Some 0 ->
  is_Some (getUint32 (mData o) (pSequence_next o)) ->
  (4 <= fuel)%nat ->
  forward false fuel o frameCount
  = Ok (false,
        {| mAdaptor := true; mFlags := mFlags o; mStatus := End;
           mIsSequence := false; mSuspendFrames := mSuspendFrames o;
           mData := mData o; pSequence := 0; pSequence_next := 0;
           mWait := mWait o |},
        [adaptor_do_begin; set_mStatus Wait; adaptor_log "End" None;
         adaptor_updateVariableValue 0; adaptor_do_update 0;
         set_mStatus End; adaptor_do_end]).
Proof.
  intros Had Hfl Hst Hseq Hsus Hw Hne Hcmd [w Hw32] Hfuel.
  destruct o as [ad fl st sq sf dat ps psn wt]. cbn [mAdaptor mFlags mStatus
    mIsSequence mSuspendFrames mData pSequence pSequence_next mWait] in *.
  subst ad st sq.
  do 4 (destruct fuel as [|fuel]; [lia|]).
  assert ((psn =? 0) = false) as Hpsn by (by apply Z.eqb_neq).
  unfold forward, isSuspended in *. cbn [mSuspendFrames] in Hsus.
  do 6 step Hfl Hsus Hw Hcmd Hw32 Hpsn.
  reflexivity.
Qed.

Lemma forward_end_first_witness :
  let o := new_STBObject 0 3 stb_end_first in
  getUint8 (mData o) (pSequence_next o) = Some 0
  /\ forward false 4 o 1
     = Ok (false,
           {| mAdaptor := true; mFlags := mFlags o; mStatus := End;
              mIsSequence := false; mSuspendFrames := mSuspendFrames o;
              mData := mData o; pSequence := 0; pSequence_next := 0;
              mWait := mWait o |},
           [adaptor_do_begin; set_mStatus Wait; adaptor_log "End" None;
            adaptor_updateVariableValue 0; adaptor_do_update 0;
            set_mStatus End; adaptor_do_end]).
Proof.
  cbv zeta. split; [reflexivity|].
  apply (forward_end_first (new_STBObject 0 3 stb_end_first) 1 4);
    try reflexivity.
  - discriminate.
  - eexists. reflexivity.
Defined.

Lemma land_pow2_testbit (h n : Z) :
  0 <= n -> (Z.land h (2 ^ n) =? 0) = negb (Z.testbit h n).
Proof.
  intros Hn. destruct (Z.testbit h n) eqn:Hb; simpl.
  - apply Z.eqb_neq. intros E.
    assert (Z.testbit (Z.land h (2 ^ n)) n = true) as Hbit
      by (rewrite Z.land_spec, Hb, Z.pow2_bits_true; done).
    rewrite E, Z.bits_0 in Hbit. done.
  - apply Z.eqb_eq, Z.bits_inj'. intros m Hm.
    rewrite Z.land_spec, Z.bits_0, Z.pow2_bits_eqb by done.
    destruct (Z.eqb_spec n m) as [->|_]; [by rewrite Hb|by rewrite andb_false_r].
Qed.

(** C5: [TParagraph.parse] reads the first u16 of the paragraph.  Top bit
    clear: the size is that u16, the type the u16 at offset + 2, the payload
    starts at offset + 4.  Top bit set: the size is the u32 at the offset
    with bit 31 cleared, the type the u32 at offset + 4, the payload starts
    at offset + 8.  (A payload of size 0 is reported at offset 0; the next
    paragraph follows the payload, padded to 4 bytes.)  The bytes
    80 00 00 10 give size 0x10 in the 32-bit form, the bytes 00 10 give
    size 0x10 in the 16-bit form. *)
Theorem paragraph_header_form (view : DataView) (byteIdx h : Z) :
  getUint16 view byteIdx = Some h ->
  (Z.testbit h 15 = false ->
   forall ty, getUint16 view (byteIdx + 2) = Some ty ->
   TParagraph_parse view byteIdx
   = Some {| type := ty; dataSize := h;
             dataOffset := if h =? 0 then 0 else byteIdx + 4;
             nextOffset := byteIdx + 4 + align h 4 |})
  /\ (Z.testbit h 15 = true ->
      forall w ty, getUint32 view byteIdx = Some w ->
      getUint32 view (byteIdx + 4) = Some ty ->
      TParagraph_parse view byteIdx
      = Some {| type := ty; dataSize := Z.clearbit w 31;
                dataOffset := if Z.clearbit w 31 =? 0 then 0 else byteIdx + 8;
                nextOffset := byteIdx + 8 + align (Z.clearbit w 31) 4 |})
  /\ (forall t0 t1 t2 t3 rest,
        TParagraph_parse
          (Byte.x80 :: Byte.x00 :: Byte.x00 :: Byte.x10
           :: t0 :: t1 :: t2 :: t3 :: rest) 0
        = Some {| type := default 0 (getUint32 [t0; t1; t2; t3] 0);
                  dataSize := 0x10; dataOffset := 8; nextOffset := 24 |})
  /\ (forall t0 t1 rest,
        TParagraph_parse (Byte.x00 :: Byte.x10 :: t0 :: t1 :: rest) 0
        = Some {| type := default 0 (getUint16 [t0; t1] 0);
                  dataSize := 0x10; dataOffset := 4; nextOffset := 20 |}).
Proof.
  intros Hh. unfold TParagraph_parse. rewrite Hh. cbn [mbind option_bind].
  change 0x8000 with (2 ^ 15). rewrite land_pow2_testbit by lia.
  split; [|split; [|split]].
  - intros Hb ty Hty. rewrite Hb, Hty. cbn [negb mbind option_bind].
    destruct (h =? 0) eqn:E; [|reflexivity].
    apply Z.eqb_eq in E. subst h.
    change (align 0 4) with 0. by rewrite Z.add_0_r.
  - intros Hb w ty Hw Hty. rewrite Hb, Z.add_0_r, Hw, Hty.
    cbn [negb mbind option_bind].
    replace (Z.land w (Z.lnot 2147483648)) with (Z.clearbit w 31)
      by (unfold Z.clearbit; rewrite Z.ldiff_land; done).
    destruct (Z.clearbit w 31 =? 0) eqn:E; [|reflexivity].
    apply Z.eqb_eq in E. rewrite E.
    change (align 0 4) with 0. by rewrite Z.add_0_r.
  - intros. reflexivity.
  - intros. reflexivity.
Qed.

Lemma paragraph_header_form_witness :
  getUint16 [Byte.x00; Byte.x10; Byte.x00; Byte.x02] 0 = Some 0x10
  /\ TParagraph_parse [Byte.x00; Byte.x10; Byte.x00; Byte.x02] 0
     = Some {| type := 2; dataSize := 0x10; dataOffset := 4; nextOffset := 20 |}.
Proof.
  split; [reflexivity|].
  destruct (paragraph_header_form [Byte.x00; Byte.x10; Byte.x00; Byte.x02] 0 0x10
              eq_refl) as [H16 _].
  exact (H16 eq_refl 2 eq_refl).
Defined.

Section BlockObjectMore.

(** X13: [STBObject.forward] on an object whose flag bit [0x8000] is set
    returns [true] whatever the rest of its state: an object that is not
    yet [Inactive] becomes [Inactive] (and a running sequence is ended
    through the adaptor's [adaptor_do_end]), an [Inactive] one is left
    alone.  No command is read. *)
Theorem forward_disabled (cs : bool) (fuel : nat) (o : STBObject) (frameCount : number) :
  Z.land (mFlags o) 0x8000 <> 0 ->
  forward cs (S fuel) o frameCount
  = Ok (true,
        (if EStatus_eqb (mStatus o) Inactive then o else with_status o Inactive),
        (if EStatus_eqb (mStatus o) Inactive then []
         else set_mStatus Inactive
              :: (if mIsSequence o && mAdaptor o then [adaptor_do_end] else []))).
Proof.
  intros Hfl. unfold forward. cbn [forward_outer].
  unfold truthy. destruct (Z.eqb_spec (Z.land (mFlags o) 32768) 0) as [E|_]; [done|].
  cbn [negb]. destruct (EStatus_eqb (mStatus o) Inactive); cbn [negb]; [done|].
  unfold assign_status, do_end. cbn [with_status mIsSequence mAdaptor app].
  by destruct (mIsSequence o), (mAdaptor o).
Qed.

(** X14: an enabled object that is not [Inactive], is between sequences
    and has no next command ([pSequence_next] is 0) is finished:
    [forward] returns [false], records [pSequence = 0] and calls nothing
    on the adaptor. *)
Theorem forward_after_end (fuel : nat) (o : STBObject) (frameCount : number) :
  Z.land (mFlags o) 0x8000 = 0 ->
  mStatus o <> Inactive ->
  isSuspended o = false ->
  mIsSequence o = false ->
  pSequence_next o = 0 ->
  forward false (S (S fuel)) o frameCount = Ok (false, with_pSequence o 0, []).
Proof.
  intros Hfl Hst Hsus Hseq Hnext. unfold forward. cbn [forward_outer].
  rewrite Hfl. change (truthy 0) with false. cbv iota.
  assert (EStatus_eqb (mStatus o) Inactive = false) as ->
    by (destruct (mStatus o); done).
  cbn [mbind Res_bind]. rewrite Hsus. cbn [orb forward_inner].
  cbn [pSequence with_pSequence mIsSequence]. rewrite Hnext, Hseq. done.
Qed.

(** X15: while an object in a sequence is suspended (by its own
    [mSuspendFrames] or by the control), [forward] consumes no time: from
    [Wait] or [Suspend] it sets the status to [Suspend], lets the adaptor
    update, and returns [true] with the sequence pointers and [mWait]
    unchanged. *)
Theorem forward_suspended (cs : bool) (fuel : nat) (o : STBObject)
    (frameCount : number) :
  Z.land (mFlags o) 0x8000 = 0 ->
  mStatus o = Wait \/ mStatus o = Suspend ->
  mIsSequence o = true ->
  cs || isSuspended o = true ->
  forward cs (S fuel) o frameCount
  = Ok (true, with_status o Suspend,
        set_mStatus Suspend
        :: (if mAdaptor o
            then [adaptor_updateVariableValue frameCount; adaptor_do_update frameCount]
            else [])).
Proof.
  intros Hfl Hst Hseq Hsus. unfold forward. cbn [forward_outer].
  rewrite Hfl. change (truthy 0) with false. cbv iota.
  assert (EStatus_eqb (mStatus o) Inactive = false) as ->
    by (destruct Hst as [-> | ->]; done).
  cbn [mbind Res_bind]. rewrite Hsus, Hseq.
  assert (EStatus_eqb (mStatus o) Wait || EStatus_eqb (mStatus o) Suspend = true)
    as -> by (destruct Hst as [-> | ->]; done).
  unfold assert, assign_status, do_wait. cbn [mbind Res_bind with_status mAdaptor app].
  by destruct (mAdaptor o).
Qed.

(** X16: an object without an adaptor (as [TControlObject] is built)
    cannot run a sequence: when its next command has type 0 to 4,
    [forward] throws, since [process_sequence] calls [this.mAdaptor.log]
    without a guard. *)
Theorem forward_without_adaptor_throws (fuel : nat) (o : STBObject)
    (frameCount : number) (cmd : Z) :
  mAdaptor o = false ->
  Z.land (mFlags o) 0x8000 = 0 ->
  mStatus o = Still ->
  mIsSequence o = false ->
  isSuspended o = false ->
  PrimFloat.eqb (mWait o) 0 = true ->
  pSequence_next o <> 0 ->
  getUint8 (mData o) (pSequence_next o) = Some cmd ->
  0 <= cmd <= 4 ->
  is_Some (getUint32 (mData o) (pSequence_next o)) ->
  forward false (S (S (S fuel))) o frameCount = Throw.
Proof.
  intros Had Hfl Hst Hseq Hsus Hw Hne Hcmd Hrange [w Hw32].
  destruct o as [ad fl st sq sf dat ps psn wt]. cbn [mAdaptor mFlags mStatus
    mIsSequence mSuspendFrames mData pSequence pSequence_next mWait] in *.
  subst ad st sq.
  assert ((psn =? 0) = false) as Hpsn by (by apply Z.eqb_neq).
  unfold forward, isSuspended in *. cbn [mSuspendFrames] in Hsus.
  assert (cmd = 0 \/ cmd = 1 \/ cmd = 2 \/ cmd = 3 \/ cmd = 4)
    as [-> | [-> | [-> | [-> | ->]]]] by lia;
    do 3 step Hfl Hsus Hw Hcmd Hw32 Hpsn; reflexivity.
Qed.

(** X17: the first [Wait] command of an object.  When the command at
    [pSequence_next] is a wait of [n > 0] frames and [forward] is called
    with [frameCount < n], the object begins ([adaptor_do_begin]), goes to
    status [Wait], steps its pointers by 4 bytes, keeps the remaining
    [n - frameCount] frames in [mWait] and returns [true] after one
    adaptor update. *)
Theorem forward_wait_first (o : STBObject) (frameCount : number) (fuel : nat) (w : Z) :
  mAdaptor o = true ->
  Z.land (mFlags o) 0x8000 = 0 ->
  mStatus o = Still ->
  mIsSequence o = false ->
  isSuspended o = false ->
  PrimFloat.eqb (mWait o) 0 = true ->
  pSequence_next o <> 0 ->
  getUint8 (mData o) (pSequence_next o) = Some 2 ->
  getUint32 (mData o) (pSequence_next o) = Some w ->
  let n := Z.land w 0xFFFFFF in
  (0 <? of_Z n)%float = true ->
  (frameCount <? of_Z n)%float = true ->
  forward false (S (S (S fuel))) o frameCount
  = Ok (true,
        {| mAdaptor := true; mFlags := mFlags o; mStatus := Wait;
           mIsSequence := true; mSuspendFrames := mSuspendFrames o;
           mData := mData o; pSequence := pSequence_next o;
           pSequence_next := pSequence_next o + 4;
           mWait := (of_Z n - frameCount)%float |},
        [adaptor_do_begin; set_mStatus Wait; adaptor_log "Wait" (Some n);
         adaptor_updateVariableValue frameCount; adaptor_do_update frameCount]).
Proof.
  intros Had Hfl Hst Hseq Hsus Hw Hne Hcmd Hw32 n Hpos Hlt.
  destruct o as [ad fl st sq sf dat ps psn wt]. cbn [mAdaptor mFlags mStatus
    mIsSequence mSuspendFrames mData pSequence pSequence_next mWait] in *.
  subst ad st sq.
  assert ((psn =? 0) = false) as Hpsn by (by apply Z.eqb_neq).
  pose proof (ltb_eqb_false _ _ Hpos) as Hnz.
  pose proof (ltb_leb_false _ _ Hlt) as Hge.
  unfold forward, isSuspended in *. cbn [mSuspendFrames] in Hsus.
  do 3 step Hfl Hsus Hw Hcmd Hw32 Hpsn.
  fold n. rewrite Hnz. unfold gt, ge. rewrite Hpos.
  cbn -[Z.land of_Z PrimFloat.leb PrimFloat.sub]. fold n. rewrite Hge.
  reflexivity.
Qed.


Import BlockFixtures.

Lemma forward_disabled_witness :
  forward false 1 (new_STBObject 0x8000 3 stb_end_first) 1
  = Ok (true, with_status (new_STBObject 0x8000 3 stb_end_first) Inactive,
        [set_mStatus Inactive]).
Proof.
  apply (forward_disabled false 0 (new_STBObject 0x8000 3 stb_end_first) 1).
  discriminate.
Defined.

Lemma forward_after_end_witness :
  forward false 2 ended_object 1 = Ok (false, with_pSequence ended_object 0, []).
Proof.
  apply (forward_after_end 0 ended_object 1); try reflexivity. discriminate.
Defined.

Lemma forward_suspended_witness :
  forward false 1 suspended_object 1
  = Ok (true, with_status suspended_object Suspend,
        [set_mStatus Suspend; adaptor_updateVariableValue 1; adaptor_do_update 1]).
Proof.
  apply (forward_suspended false 0 suspended_object 1); try reflexivity. by left.
Defined.

Lemma forward_without_adaptor_throws_witness :
  forward false 3 control_object 1 = Throw.
Proof.
  apply (forward_without_adaptor_throws 0 control_object 1 2); try reflexivity.
  - discriminate.
  - lia.
  - eexists. reflexivity.
Defined.

Lemma forward_wait_first_witness :
  let o := new_STBObject 0 3 stb_wait_first in
  forward false 3 o 1
  = Ok (true,
        {| mAdaptor := true; mFlags := 0; mStatus := Wait; mIsSequence := true;
           mSuspendFrames := 0; mData := stb_wait_first; pSequence := 16;
           pSequence_next := 20; mWait := 4 |},
        [adaptor_do_begin; set_mStatus Wait; adaptor_log "Wait" (Some 5);
         adaptor_updateVariableValue 1; adaptor_do_update 1]).
Proof.
  cbv zeta.
  apply (forward_wait_first (new_STBObject 0 3 stb_wait_first) 1 0 0x02000005);
    try reflexivity.
  discriminate.
Defined.

End BlockObjectMore.

Section Paragraph.

Lemma align_4 (n : Z) : align n 4 = 4 * ((n + 3) / 4).
Proof.
  unfold align. change (4 - 1) with (Z.ones 2).
  rewrite <- Z.ldiff_land, Z.ldiff_ones_r by lia.
  rewrite Z.shiftr_div_pow2, Z.shiftl_mul_pow2 by lia.
  change (Z.ones 2) with 3. change (2 ^ 2) with 4. lia.
Qed.

Lemma align_4_bounds (n : Z) : n <= align n 4 < n + 4 /\ align n 4 mod 4 = 0.
Proof.
  rewrite align_4. split.
  - pose proof (Z.div_mod (n + 3) 4 ltac:(lia)).
    pose proof (Z.mod_pos_bound (n + 3) 4 ltac:(lia)). lia.
  - by rewrite Z.mul_comm, Z.mod_mul.
Qed.

Lemma byte_at_range (view : DataView) (i b : Z) :
  byte_at view i = Some b -> 0 <= i < Z.of_nat (length view) /\ 0 <= b < 256.
Proof.
  unfold byte_at. destruct (Z.ltb_spec i 0); [done|].
  destruct (view !! Z.to_nat i) as [x|] eqn:Hx; [|done].
  intros [= <-]. apply lookup_lt_Some in Hx. split; [lia|].
  destruct x; vm_compute; split; congruence.
Qed.

Lemma byte_at_is_Some (view : DataView) (i : Z) :
  0 <= i < Z.of_nat (length view) -> is_Some (byte_at view i).
Proof.
  intros Hi. unfold byte_at. destruct (Z.ltb_spec i 0); [lia|].
  destruct (lookup_lt_is_Some_2 view (Z.to_nat i)) as [x ->]; [lia|]. by eexists.
Qed.

Lemma byte_at_None (view : DataView) (i : Z) :
  i < 0 \/ Z.of_nat (length view) <= i -> byte_at view i = None.
Proof.
  intros Hi. unfold byte_at. destruct (Z.ltb_spec i 0); [done|].
  rewrite (proj2 (lookup_ge_None view (Z.to_nat i))); [done|lia].
Qed.

Lemma lor_shiftl_byte (a b k : Z) :
  0 <= k -> 0 <= b < 2 ^ k -> Z.lor (Z.shiftl a k) b = a * 2 ^ k + b.
Proof.
  intros Hk Hb.
  assert (Z.land (Z.shiftl a k) b = 0) as Hland.
  { apply Z.bits_inj'. intros n Hn. rewrite Z.land_spec, Z.bits_0.
    destruct (Z.ltb_spec n k).
    - by rewrite Z.shiftl_spec_low.
    - destruct (Z.eq_dec b 0) as [->|Hne]; [by rewrite Z.bits_0, andb_false_r|].
      rewrite (Z.bits_above_log2 b n), andb_false_r; [done|lia|].
      apply Z.lt_le_trans with k; [|done]. apply Z.log2_lt_pow2; lia. }
  pose proof (Z.add_lor_land (Z.shiftl a k) b) as E.
  rewrite Hland, Z.add_0_r in E.
  rewrite <- (Z.shiftl_mul_pow2 a k) by done. exact E.
Qed.

Lemma getUint16_range (view : DataView) (i h : Z) :
  getUint16 view i = Some h ->
  0 <= i /\ i + 2 <= Z.of_nat (length view) /\ 0 <= h < 65536.
Proof.
  unfold getUint16.
  destruct (byte_at view i) as [b0|] eqn:H0; [|done].
  destruct (byte_at view (i + 1)) as [b1|] eqn:H1; [|done].
  intros [= <-].
  apply byte_at_range in H0 as [? ?], H1 as [? ?].
  split; [lia|]. split; [lia|].
  rewrite lor_shiftl_byte by (simpl; lia). change (2 ^ 8) with 256. lia.
Qed.

Lemma getUint16_is_Some (view : DataView) (i : Z) :
  0 <= i -> i + 2 <= Z.of_nat (length view) -> is_Some (getUint16 view i).
Proof.
  intros H0 H2. unfold getUint16.
  destruct (byte_at_is_Some view i) as [b0 ->]; [lia|].
  destruct (byte_at_is_Some view (i + 1)) as [b1 ->]; [lia|]. by eexists.
Qed.

Lemma getUint32_is_Some (view : DataView) (i : Z) :
  0 <= i -> i + 4 <= Z.of_nat (length view) -> is_Some (getUint32 view i).
Proof.
  intros H0 H2. unfold getUint32.
  destruct (byte_at_is_Some view i) as [b0 ->]; [lia|].
  destruct (byte_at_is_Some view (i + 1)) as [b1 ->]; [lia|].
  destruct (byte_at_is_Some view (i + 2)) as [b2 ->]; [lia|].
  destruct (byte_at_is_Some view (i + 3)) as [b3 ->]; [lia|]. by eexists.
Qed.

Lemma getUint32_range (view : DataView) (i w : Z) :
  getUint32 view i = Some w ->
  0 <= i /\ i + 4 <= Z.of_nat (length view) /\ 0 <= w < 2 ^ 32.
Proof.
  unfold getUint32.
  destruct (byte_at view i) as [b0|] eqn:H0; [|done].
  destruct (byte_at view (i + 1)) as [b1|] eqn:H1; [|done].
  destruct (byte_at view (i + 2)) as [b2|] eqn:H2; [|done].
  destruct (byte_at view (i + 3)) as [b3|] eqn:H3; [|done].
  intros [= <-].
  apply byte_at_range in H0 as [? ?], H1 as [? ?], H2 as [? ?], H3 as [? ?].
  split; [lia|]. split; [lia|].
  rewrite (lor_shiftl_byte b2 b3 8) by (simpl; lia).
  rewrite (lor_shiftl_byte b1 _ 16) by (simpl; lia).
  rewrite (lor_shiftl_byte b0 _ 24) by (simpl; lia).
  simpl. lia.
Qed.

Lemma clear_top_bit (w : Z) :
  0 <= w < 2 ^ 32 -> 0 <= Z.land w (Z.lnot 0x80000000) < 2 ^ 31.
Proof.
  intros Hw.
  replace (Z.land w (Z.lnot 2147483648)) with (w mod 2 ^ 31).
  - apply Z.mod_pos_bound. lia.
  - rewrite <- Z.land_ones by lia. apply Z.bits_inj'. intros n Hn.
    rewrite !Z.land_spec, Z.lnot_spec by done.
    change 2147483648 with (2 ^ 31). rewrite Z.pow2_bits_eqb by lia.
    destruct (Z.ltb_spec n 31).
    + rewrite Z.ones_spec_low by lia.
      destruct (Z.eqb_spec 31 n); [lia|done].
    + rewrite Z.ones_spec_high by lia.
      destruct (Z.eqb_spec 31 n) as [<-|Hne]; [by rewrite !andb_false_r|].
      rewrite (Z.bits_above_log2 w n); [done|lia|].
      destruct (Z.eq_dec w 0) as [->|]; [simpl; lia|].
      apply Z.lt_le_trans with 32; [|lia]. apply Z.log2_lt_pow2; lia.
Qed.

(** X18: a paragraph that [TParagraph.parse] reads lies in front of its
    [nextOffset]: the size is below [2^31], [nextOffset] is at least 4
    bytes past the start and 4-byte aligned relative to it, and a
    non-empty payload ends at most 3 padding bytes before [nextOffset].
    Walking a block paragraph by paragraph therefore always advances. *)
Theorem paragraph_advances (view : DataView) (byteIdx : Z) (para : TParagraph) :
  TParagraph_parse view byteIdx = Some para ->
  0 <= dataSize para < 2 ^ 31
  /\ byteIdx + 4 <= nextOffset para
  /\ (nextOffset para - byteIdx) mod 4 = 0
  /\ (dataSize para <> 0 ->
      byteIdx + 4 <= dataOffset para
      /\ dataOffset para + dataSize para <= nextOffset para
      /\ nextOffset para < dataOffset para + dataSize para + 4).
Proof.
  unfold TParagraph_parse.
  destruct (getUint16 view byteIdx) as [h|] eqn:Hh; [|done].
  cbn [mbind option_bind].
  apply getUint16_range in Hh as (_ & _ & Hh).
  assert (forall ty size off,
            0 <= size < 2 ^ 31 -> (off = 4 \/ off = 8) ->
            (if size =? 0
             then Some {| dataSize := size; type := ty; dataOffset := 0;
                          nextOffset := byteIdx + off |}
             else Some {| dataSize := size; type := ty; dataOffset := byteIdx + off;
                          nextOffset := byteIdx + off + align size 4 |})
            = Some para ->
            0 <= dataSize para < 2 ^ 31
            /\ byteIdx + 4 <= nextOffset para
            /\ (nextOffset para - byteIdx) mod 4 = 0
            /\ (dataSize para <> 0 ->
                byteIdx + 4 <= dataOffset para
                /\ dataOffset para + dataSize para <= nextOffset para
                /\ nextOffset para < dataOffset para + dataSize para + 4)) as Hgen.
  { intros ty size off Hsize Hoff.
    pose proof (align_4_bounds size) as [Hb Hm].
    destruct (Z.eqb_spec size 0) as [->|Hnz]; intros [= <-];
      cbn [dataSize nextOffset dataOffset].
    - split; [lia|]. split; [lia|]. split; [|done].
      destruct Hoff as [-> | ->];
        [replace (byteIdx + 4 - byteIdx) with 4 by lia
        |replace (byteIdx + 8 - byteIdx) with 8 by lia]; done.
    - split; [lia|]. split; [lia|]. split; [|lia].
      replace (byteIdx + off + align size 4 - byteIdx) with (align size 4 + off) by lia.
      rewrite Z.add_mod, Hm by lia. destruct Hoff as [-> | ->]; done. }
  destruct (Z.land h 32768 =? 0).
  - destruct (getUint16 view (byteIdx + 2)) as [ty|]; [|done].
    cbn [mbind option_bind]. apply Hgen; [simpl; lia|by left].
  - destruct (getUint32 view (byteIdx + 0)) as [w|] eqn:Hw; [|done].
    destruct (getUint32 view (byteIdx + 4)) as [ty|]; [|done].
    cbn [mbind option_bind]. apply getUint32_range in Hw as (_ & _ & Hw).
    apply Hgen; [by apply clear_top_bit|by right].
Qed.

(** X19: [TParagraph.parse] throws ([RangeError] of the [DataView]) when
    fewer than 4 bytes are left at [byteIdx] or [byteIdx] is negative, and
    returns whenever 8 bytes are left. *)
Theorem paragraph_parse_bounds (view : DataView) (byteIdx : Z) :
  (byteIdx < 0 \/ Z.of_nat (length view) < byteIdx + 4 ->
   TParagraph_parse view byteIdx = None)
  /\ (0 <= byteIdx -> byteIdx + 8 <= Z.of_nat (length view) ->
      is_Some (TParagraph_parse view byteIdx)).
Proof.
  split.
  - intros Hout. unfold TParagraph_parse.
    destruct (getUint16 view byteIdx) as [h|] eqn:Hh; [|done].
    cbn [mbind option_bind].
    apply getUint16_range in Hh as (H0 & H2 & _).
    destruct (Z.land h 32768 =? 0).
    + destruct (getUint16 view (byteIdx + 2)) as [ty|] eqn:Hty; [|done].
      apply getUint16_range in Hty. lia.
    + destruct (getUint32 view (byteIdx + 0)) as [w|] eqn:Hw; [|done].
      apply getUint32_range in Hw. lia.
  - intros H0 H8. unfold TParagraph_parse.
    destruct (getUint16_is_Some view byteIdx) as [h ->]; [lia..|].
    cbn [mbind option_bind].
    destruct (Z.land h 32768 =? 0).
    + destruct (getUint16_is_Some view (byteIdx + 2)) as [ty ->]; [lia..|].
      cbn [mbind option_bind]. destruct (h =? 0); by eexists.
    + destruct (getUint32_is_Some view (byteIdx + 0)) as [w ->]; [lia..|].
      destruct (getUint32_is_Some view (byteIdx + 4)) as [ty ->]; [lia..|].
      cbn [mbind option_bind]. destruct (_ =? 0); by eexists.
Qed.


Lemma paragraph_advances_witness :
  TParagraph_parse [Byte.x00; Byte.x05; Byte.x00; Byte.x02] 0
  = Some {| type := 2; dataSize := 5; dataOffset := 4; nextOffset := 12 |}
  /\ (12 - 0) mod 4 = 0.
Proof.
  split; [reflexivity|].
  destruct (paragraph_advances [Byte.x00; Byte.x05; Byte.x00; Byte.x02] 0
              {| type := 2; dataSize := 5; dataOffset := 4; nextOffset := 12 |}
              eq_refl) as (_ & _ & Hmod & _).
  exact Hmod.
Defined.

Lemma paragraph_parse_bounds_witness :
  TParagraph_parse [Byte.x00; Byte.x05; Byte.x00] 0 = None
  /\ is_Some (TParagraph_parse (replicate 8 Byte.x80) 0).
Proof.
  split.
  - destruct (paragraph_parse_bounds [Byte.x00; Byte.x05; Byte.x00] 0) as [H _].
    apply H. right. simpl. lia.
  - destruct (paragraph_parse_bounds (replicate 8 Byte.x80) 0) as [_ H].
    apply H; simpl; lia.
Defined.

End Paragraph.

End BlockObject.

(* ===================================================================== *)
(** ** The grass spawner *)
(* ===================================================================== *)

Section GrassSpawner.
Import JS glMatrix Grass DGrass SpawnSpec Fixtures.
Local Open Scope Z_scope.

Lemma grass_loop_spec rnd this (offsets : list (list Z)) itemIdx0 : forall n j p room,
  nth_Z (GrassPacket.rooms p) (roomNo this) = Some room ->
  (forall i, (j <= i < j + n)%nat -> exists x y z, offsets !! i = Some [x; y; z]) ->
  grass_loop rnd this offsets itemIdx0 n j p
  = Some {| GrassPacket.rooms :=
              <[Z.to_nat (roomNo this) :=
                  room ++ map (fun i => spawned_grass (rnd i) itemIdx0
                                          (grass_pos this (offsets !!! i)))
                              (seq j n)]> (GrassPacket.rooms p);
            GrassPacket.anims := GrassPacket.anims p |}.
Proof.
  induction n as [|n IH]; intros j p room Hroom Hoff; simpl.
  - rewrite app_nil_r. destruct p as [rs an]. simpl in *.
    apply nth_Z_Some in Hroom as [_ Hroom]. by rewrite list_insert_id.
  - destruct (Hoff j) as (x & y & z & Hj); [lia|].
    unfold offset_at. rewrite Hj. cbn [mbind option_bind lookup list_lookup].
    unfold GrassPacket.newData. rewrite Hroom. cbn [mbind option_bind].
    pose proof Hroom as [Hnn Hlk]%nth_Z_Some.
    rewrite (IH (S j) _ (room ++ [spawned_grass (rnd j) itemIdx0
                                     (grass_pos this (offsets !!! j))])).
    + cbn [GrassPacket.rooms GrassPacket.anims]. rewrite list_insert_insert_eq.
      rewrite <- app_assoc. done.
    + cbn [GrassPacket.rooms]. rewrite nth_Z_nonneg by done.
      rewrite list_lookup_insert_eq by (by eapply lookup_lt_Some).
      unfold spawned_grass, grass_pos.
      rewrite (list_lookup_total_correct _ _ _ Hj). done.
    + intros i Hi. apply Hoff. lia.
Qed.

Lemma kSpawnOffsets_table : Forall (Forall table_offset) kSpawnOffsets.
Proof.
  unfold kSpawnOffsets.
  repeat (first [apply Forall_nil_2 | apply Forall_cons_2]).
  all: vm_compute; repeat split.
Qed.

Lemma table_offset_lookup (g : Z) (j : nat) (o : list Z) :
  default [] (nth_Z kSpawnOffsets g) !! j = Some o -> table_offset o.
Proof.
  intros Hj. destruct (nth_Z kSpawnOffsets g) as [grp|] eqn:Hg; [|done].
  apply nth_Z_Some in Hg as [_ Hg]. simpl in Hj.
  pose proof kSpawnOffsets_table as H.
  rewrite Forall_lookup in H. specialize (H _ _ Hg).
  rewrite Forall_lookup in H. exact (H _ _ Hj).
Qed.

Lemma grass_pos_placed (this : fopAc_ac_c) (x y z : Z) :
  table_offset [x; y; z] ->
  vec3_clone (grass_pos this [x; y; z])
  = placed (pos this) [of_Z x; of_Z y; of_Z z].
Proof.
  intros (Hx & Hy & Hz).
  unfold grass_pos, vec3_clone, vec3_add, vec3_set, placed, f32_of.
  cbn [map f32_get lookup list_lookup list_lookup_total lookup_total
       default from_option].
  unfold id. by rewrite Hx, Hy, Hz.
Qed.

Lemma spawned_lookup {A} (f : nat -> A) (n j : nat) :
  (j < n)%nat -> map f (seq 0 n) !! j = Some (f j).
Proof.
  intros Hj. rewrite list_lookup_fmap, lookup_seq_lt by done. done.
Qed.

(** C7: an actor whose parameter word is 0x2 decodes to spawn pattern 2,
    foliage type Grass and item index 0; pattern 2 is group 1 with count 15;
    group 1 starts with the offsets (-18,0,76), (-15,0,26), (133,0,0); and
    [subload] appends to the actor's room bucket of the grass packet exactly
    15 instances, the j-th at the actor's position plus the j-th offset of
    group 1, component by component and without rotation (each sum held in
    single precision), leaving the tree and flower packets and every other
    bucket unchanged. *)
Theorem grass_spawner_parameter_2 M globals rnd (apos arot : vec3) (room_no : Z)
    (scn : dScnPlay) (room : list GrassPacket.GrassData) :
  nth_Z (GrassPacket.rooms (grassPacket scn)) room_no = Some room ->
  let this := {| parameters := 0x2; pos := apos; rot := arot; roomNo := room_no |} in
  spawnPatternId 0x2 = 2
  /\ foliageType 0x2 = Some DGrass.Grass
  /\ itemIdx 0x2 = 0
  /\ nth_Z kSpawnPatterns 2 = Some {| group := 1; count := 15 |}
  /\ take 3 (default [] (nth_Z kSpawnOffsets 1))
     = [[-18; 0; 76]; [-15; 0; 26]; [133; 0; 0]]
  /\ (forall j, (j < 15)%nat ->
       exists x y z, default [] (nth_Z kSpawnOffsets 1) !! j = Some [x; y; z])
  /\ exists scn' new,
       subload M globals rnd this scn = Some scn'
       /\ treePacket scn' = treePacket scn
       /\ flowerPacket scn' = flowerPacket scn
       /\ GrassPacket.anims (grassPacket scn') = GrassPacket.anims (grassPacket scn)
       /\ GrassPacket.rooms (grassPacket scn')
          = <[Z.to_nat room_no := room ++ new]> (GrassPacket.rooms (grassPacket scn))
       /\ length new = 15%nat
       /\ forall j x y z,
            (j < 15)%nat ->
            default [] (nth_Z kSpawnOffsets 1) !! j = Some [x; y; z] ->
            new !! j
            = Some {| GrassPacket.flags := GrassFlags_needsGroundCheck;
                      GrassPacket.animIdx := rnd j;
                      GrassPacket.itemIdx := 0;
                      GrassPacket.pos :=
                        [fround (fround (of_Z x + f32_get apos 0));
                         fround (fround (of_Z y + f32_get apos 1));
                         fround (fround (of_Z z + f32_get apos 2))];
                      GrassPacket.modelMtx := mat4_create |}.
Proof.
  intros Hroom this.
  assert (forall j, (j < 15)%nat ->
            exists x y z, default [] (nth_Z kSpawnOffsets 1) !! j = Some [x; y; z])
    as Htable.
  { intros j Hj.
    assert (j ∈ seq 0 15) as Hin by (apply elem_of_seq; lia).
    clear Hj. revert j Hin. apply Forall_forall.
    repeat (apply Forall_cons; split; [by eexists _, _, _|]). apply Forall_nil. done. }
  split; [reflexivity|]. split; [reflexivity|]. split; [reflexivity|].
  split; [reflexivity|]. split; [reflexivity|]. split; [exact Htable|].
  unfold subload. change (parameters this) with 2.
  change (spawnPatternId 2) with 2. change (itemIdx 2) with 0.
  change (foliageType 2) with (Some DGrass.Grass).
  change (nth_Z kSpawnPatterns 2) with (Some {| group := 1; count := 15 |}).
  cbn [mbind option_bind group count].
  rewrite (grass_loop_spec rnd this _ 0 _ 0%nat (grassPacket scn) room Hroom).
  - cbn [mbind option_bind]. eexists _, _. split; [reflexivity|].
    split; [reflexivity|]. split; [reflexivity|]. split; [reflexivity|].
    split; [reflexivity|]. split; [by rewrite length_map, length_seq|].
    intros j x y z Hj Ho.
    rewrite spawned_lookup by done.
    change (Z.to_nat 15) with 15%nat in *.
    rewrite (list_lookup_total_correct _ _ _ Ho).
    unfold spawned_grass.
    rewrite (grass_pos_placed this x y z (table_offset_lookup 1 j _ Ho)).
    reflexivity.
  - intros i Hi. apply Htable. lia.
Qed.

Lemma grass_spawner_parameter_2_witness :
  nth_Z (GrassPacket.rooms (grassPacket empty_scene)) 3 = Some []
  /\ exists scn' bucket,
       subload zero_angle_math (globals_in flat_ground 0) (fun _ => 0)
         {| parameters := 0x2; pos := [10; 20; 30]%float; rot := [0; 0; 0]%float;
            roomNo := 3 |} empty_scene = Some scn'
       /\ GrassPacket.rooms (grassPacket scn') !! 3%nat = Some bucket
       /\ length bucket = 15%nat
       /\ GrassPacket.pos <$> bucket !! 0%nat = Some [-8; 20; 106]%float
       /\ GrassPacket.pos <$> bucket !! 1%nat = Some [-5; 20; 56]%float
       /\ GrassPacket.pos <$> bucket !! 2%nat = Some [143; 20; 30]%float.
Proof.
  split; [reflexivity|].
  destruct (grass_spawner_parameter_2 zero_angle_math (globals_in flat_ground 0)
              (fun _ => 0) [10; 20; 30]%float [0; 0; 0]%float 3 empty_scene []
              eq_refl)
    as (_ & _ & _ & _ & _ & _ & scn' & new & Hsub & _ & _ & _ & Hrooms & Hlen & Hnew).
  exists scn', new. split; [exact Hsub|]. rewrite Hrooms.
  split; [reflexivity|]. split; [exact Hlen|].
  rewrite (Hnew 0%nat (-18) 0 76), (Hnew 1%nat (-15) 0 26), (Hnew 2%nat 133 0 0)
    by (lia || reflexivity).
  split; [|split]; vm_compute; reflexivity.
Defined.

Section SpawnerMore.
Import SpawnedFoliage.

Lemma tree_loop_spec rnd this (offsets : list (list Z)) rotation : forall n j p room,
  nth_Z (TreePacket.rooms p) (roomNo this) = Some room ->
  (forall i, (j <= i < j + n)%nat -> exists x y z, offsets !! i = Some [x; y; z]) ->
  tree_loop rnd this offsets rotation n j p
  = Some {| TreePacket.rooms :=
              <[Z.to_nat (roomNo this) :=
                  room ++ map (fun i => spawned_tree (rnd i)
                                          (tree_pos this rotation (offsets !!! i)))
                              (seq j n)]> (TreePacket.rooms p);
            TreePacket.anims := TreePacket.anims p |}.
Proof.
  induction n as [|n IH]; intros j p room Hroom Hoff; simpl.
  - rewrite app_nil_r. destruct p as [rs an]. simpl in *.
    apply nth_Z_Some in Hroom as [_ Hroom]. by rewrite list_insert_id.
  - destruct (Hoff j) as (x & y & z & Hj); [lia|].
    unfold offset_at. rewrite Hj. cbn [mbind option_bind lookup list_lookup].
    unfold TreePacket.newData. rewrite Hroom. cbn [mbind option_bind].
    pose proof Hroom as [Hnn Hlk]%nth_Z_Some.
    rewrite (IH (S j) _ (room ++ [spawned_tree (rnd j)
                                     (tree_pos this rotation (offsets !!! j))])).
    + cbn [TreePacket.rooms TreePacket.anims]. rewrite list_insert_insert_eq.
      rewrite <- app_assoc. done.
    + cbn [TreePacket.rooms]. rewrite nth_Z_nonneg by done.
      rewrite list_lookup_insert_eq by (by eapply lookup_lt_Some).
      unfold spawned_tree, tree_pos, offset_numbers.
      rewrite (list_lookup_total_correct _ _ _ Hj). done.
    + intros i Hi. apply Hoff. lia.
Qed.

Lemma flower_loop_spec globals rnd this (offsets : list (list Z)) isPink itemIdx0 :
  forall n j p room,
  nth_Z (FlowerPacket.rooms p) (roomNo this) = Some room ->
  (forall i, (j <= i < j + n)%nat -> exists x y z, offsets !! i = Some [x; y; z]) ->
  flower_loop globals rnd this offsets isPink itemIdx0 n j p
  = Some {| FlowerPacket.rooms :=
              <[Z.to_nat (roomNo this) :=
                  room ++ map (fun i => spawned_flower globals (rnd i) isPink
                                          (roomNo this) itemIdx0
                                          (grass_pos this (offsets !!! i)))
                              (seq j n)]> (FlowerPacket.rooms p);
            FlowerPacket.anims := FlowerPacket.anims p |}.
Proof.
  induction n as [|n IH]; intros j p room Hroom Hoff; simpl.
  - rewrite app_nil_r. destruct p as [rs an]. simpl in *.
    apply nth_Z_Some in Hroom as [_ Hroom]. by rewrite list_insert_id.
  - destruct (Hoff j) as (x & y & z & Hj); [lia|].
    unfold offset_at. rewrite Hj. cbn [mbind option_bind lookup list_lookup].
    unfold FlowerPacket.newData. rewrite Hroom. cbn [mbind option_bind].
    pose proof Hroom as [Hnn Hlk]%nth_Z_Some.
    rewrite (IH (S j) _ (room ++ [spawned_flower globals (rnd j) isPink
                                     (roomNo this) itemIdx0
                                     (grass_pos this (offsets !!! j))])).
    + cbn [FlowerPacket.rooms FlowerPacket.anims]. rewrite list_insert_insert_eq.
      rewrite <- app_assoc. done.
    + cbn [FlowerPacket.rooms]. rewrite nth_Z_nonneg by done.
      rewrite list_lookup_insert_eq by (by eapply lookup_lt_Some).
      unfold spawned_flower, grass_pos.
      rewrite (list_lookup_total_correct _ _ _ Hj).
      by destruct (String.eqb _ _ && _ && isPink), isPink.
    + intros i Hi. apply Hoff. lia.
Qed.


Lemma spawnPatternId_range (params : Z) : 0 <= spawnPatternId params < 16.
Proof.
  unfold spawnPatternId. rewrite Z.shiftr_0_r.
  change 15 with (Z.ones 4). rewrite Z.land_ones by lia.
  apply Z.mod_pos_bound. lia.
Qed.

Lemma foliageTypeBits_range (params : Z) : 0 <= foliageTypeBits params < 4.
Proof.
  unfold foliageTypeBits.
  replace (Z.land params 48) with (Z.shiftl (Z.land (Z.shiftr params 4) 3) 4).
  - rewrite Z.shiftr_shiftl_l, Z.sub_diag, Z.shiftl_0_r by lia.
    change 3 with (Z.ones 2). rewrite Z.land_ones by lia.
    apply Z.mod_pos_bound. lia.
  - rewrite Z.shiftl_land, <- Z.ldiff_ones_r by lia.
    change (Z.shiftl 3 4) with 48.
    apply Z.bits_inj'. intros n Hn.
    rewrite !Z.land_spec, Z.ldiff_spec.
    destruct (Z.testbit 48 n) eqn:E; [|by rewrite !andb_false_r].
    rewrite !andb_true_r.
    destruct (Z.ltb_spec n 4) as [Hlt|Hge].
    + assert (n = 0 \/ n = 1 \/ n = 2 \/ n = 3) as [-> | [-> | [-> | ->]]] by lia;
        discriminate E.
    + rewrite Z.ones_spec_high by lia. by rewrite andb_true_r.
Qed.

Lemma foliageType_total (params : Z) : is_Some (foliageType params).
Proof.
  unfold foliageType. pose proof (foliageTypeBits_range params) as H.
  assert (foliageTypeBits params = 0 \/ foliageTypeBits params = 1
          \/ foliageTypeBits params = 2 \/ foliageTypeBits params = 3)
    as [-> | [-> | [-> | ->]]] by lia; by eexists.
Qed.

Lemma spawn_pattern_cases (id : Z) (pat : SpawnPattern) :
  nth_Z kSpawnPatterns id = Some pat ->
  (0 <= id < 8) /\ pat ∈ kSpawnPatterns.
Proof.
  intros [Hnn Hlk]%nth_Z_Some. split.
  - apply lookup_lt_Some in Hlk. simpl in Hlk. lia.
  - by eapply list_elem_of_lookup_2.
Qed.

(** Every pattern of the table reads its offsets inside its group. *)
Lemma spawn_pattern_offsets (id : Z) (pat : SpawnPattern) :
  nth_Z kSpawnPatterns id = Some pat ->
  forall i, (0 <= i < 0 + Z.to_nat (count pat))%nat ->
  exists x y z, default [] (nth_Z kSpawnOffsets (group pat)) !! i = Some [x; y; z].
Proof.
  intros [_ Hin]%spawn_pattern_cases i Hi.
  assert (i ∈ seq 0 (Z.to_nat (count pat))) as Hseq by (apply elem_of_seq; lia).
  clear Hi. revert i Hseq. apply Forall_forall.
  unfold kSpawnPatterns in Hin.
  repeat (apply elem_of_cons in Hin as [->|Hin];
          [repeat (apply Forall_cons; split; [by eexists _, _, _|]);
           by apply Forall_nil|]).
  by apply elem_of_nil in Hin.
Qed.

Lemma kSpawnOffsets_level : Forall (Forall level_offset) kSpawnOffsets.
Proof.
  unfold kSpawnOffsets.
  repeat (first [apply Forall_nil_2 | apply Forall_cons_2]).
  all: vm_compute; repeat split.
Qed.

Lemma level_offset_lookup (g : Z) (j : nat) (o : list Z) :
  default [] (nth_Z kSpawnOffsets g) !! j = Some o -> level_offset o.
Proof.
  intros Hj. destruct (nth_Z kSpawnOffsets g) as [grp|] eqn:Hg; [|done].
  apply nth_Z_Some in Hg as [_ Hg]. simpl in Hj.
  pose proof kSpawnOffsets_level as H.
  rewrite Forall_lookup in H. specialize (H _ _ Hg).
  rewrite Forall_lookup in H. exact (H _ _ Hj).
Qed.

Lemma tree_pos_placed (M : MathLib) (this : fopAc_ac_c) (x y z : Z) :
  level_offset [x; y; z] ->
  vec3_clone (tree_pos this
                (mat4_fromYRotation M (f32_get (rot this) 1 / 32767 * Math_PI)%float)
                [x; y; z])
  = placed (pos this) (turned M (f32_get (rot this) 1) x y z).
Proof.
  intros (Hw & Hy).
  unfold tree_pos, offset_numbers, vec3_clone, vec3_add, vec3_transformMat4,
    mat4_fromYRotation, placed, turned, f32_of.
  cbn [map f32_get lookup list_lookup list_lookup_total lookup_total
       default from_option].
  unfold id.
  assert (fround 0 = 0%float) as -> by (vm_compute; reflexivity).
  assert (fround 1 = 1%float) as -> by (vm_compute; reflexivity).
  rewrite Hw. change (falsy 1) with false. cbv iota.
  by rewrite Hy.
Qed.

(** X7: what [d_a_grass.subload] registers.  With a spawn pattern id below
    8 (the pattern table has 8 entries) and the actor's room present in the
    packet concerned, [subload] returns and appends to that room's bucket,
    in order, one instance per offset of the pattern: grass and flowers at
    the actor's position plus the offset, trees at the actor's position
    plus the offset turned about Y by the actor's yaw, all sums held in
    single precision.  The two other packets are untouched, and the type
    bits always name one of the four foliage types. *)
Theorem subload_registers M globals rnd (this : fopAc_ac_c) (scn : dScnPlay)
    (pat : SpawnPattern) :
  nth_Z kSpawnPatterns (spawnPatternId (parameters this)) = Some pat ->
  let offsets := default [] (nth_Z kSpawnOffsets (group pat)) in
  let n := Z.to_nat (count pat) in
  let r := Z.to_nat (roomNo this) in
  let item := itemIdx (parameters this) in
  (forall j, (j < n)%nat -> exists x y z, offsets !! j = Some [x; y; z])
  /\
  match foliageType (parameters this) with
  | Some Grass =>
      forall room, nth_Z (GrassPacket.rooms (grassPacket scn)) (roomNo this) = Some room ->
      exists new,
        subload M globals rnd this scn
        = Some {| grassPacket :=
                    {| GrassPacket.rooms :=
                         <[r := room ++ new]> (GrassPacket.rooms (grassPacket scn));
                       GrassPacket.anims := GrassPacket.anims (grassPacket scn) |};
                  treePacket := treePacket scn; flowerPacket := flowerPacket scn |}
        /\ length new = n
        /\ forall j x y z,
             (j < n)%nat -> offsets !! j = Some [x; y; z] ->
             new !! j
             = Some {| GrassPacket.flags := GrassFlags_needsGroundCheck;
                       GrassPacket.animIdx := rnd j;
                       GrassPacket.itemIdx := item;
                       GrassPacket.pos := placed (pos this) [of_Z x; of_Z y; of_Z z];
                       GrassPacket.modelMtx := mat4_create |}
  | Some Tree =>
      forall room, nth_Z (TreePacket.rooms (treePacket scn)) (roomNo this) = Some room ->
      exists new,
        subload M globals rnd this scn
        = Some {| grassPacket := grassPacket scn;
                  treePacket :=
                    {| TreePacket.rooms :=
                         <[r := room ++ new]> (TreePacket.rooms (treePacket scn));
                       TreePacket.anims := TreePacket.anims (treePacket scn) |};
                  flowerPacket := flowerPacket scn |}
        /\ length new = n
        /\ forall j x y z,
             (j < n)%nat -> offsets !! j = Some [x; y; z] ->
             new !! j
             = Some {| TreePacket.flags := TreeFlags_needsGroundCheck;
                       TreePacket.animIdx := rnd j;
                       TreePacket.status := TreePacket.UNCUT;
                       TreePacket.trunkAlpha := 0xFF;
                       TreePacket.pos :=
                         placed (pos this) (turned M (f32_get (rot this) 1) x y z);
                       TreePacket.unkMatrix := mat4_create;
                       TreePacket.topModelMtx := mat4_create;
                       TreePacket.trunkModelMtx := mat4_create;
                       TreePacket.shadowModelMtx := mat4_create |}
  | Some ((WhiteFlower | PinkFlower) as ty) =>
      forall room, nth_Z (FlowerPacket.rooms (flowerPacket scn)) (roomNo this) = Some room ->
      let isPink := match ty with PinkFlower => true | _ => false end in
      exists new,
        subload M globals rnd this scn
        = Some {| grassPacket := grassPacket scn; treePacket := treePacket scn;
                  flowerPacket :=
                    {| FlowerPacket.rooms :=
                         <[r := room ++ new]> (FlowerPacket.rooms (flowerPacket scn));
                       FlowerPacket.anims := FlowerPacket.anims (flowerPacket scn) |} |}
        /\ length new = n
        /\ forall j x y z,
             (j < n)%nat -> offsets !! j = Some [x; y; z] ->
             new !! j
             = Some {| FlowerPacket.flags := FlowerFlags_needsGroundCheck;
                       FlowerPacket.type :=
                         if String.eqb (stageName globals) "sea"
                            && (roomNo this =? 0x21) && isPink
                         then FlowerPacket.BESSOU
                         else if isPink then FlowerPacket.PINK
                              else FlowerPacket.WHITE;
                       FlowerPacket.animIdx := rnd j;
                       FlowerPacket.itemIdx := item;
                       FlowerPacket.particleLifetime := 0;
                       FlowerPacket.pos := placed (pos this) [of_Z x; of_Z y; of_Z z];
                       FlowerPacket.modelMatrix := mat4_create |}
  | None => False
  end.
Proof.
  intros Hpat offsets n r item.
  pose proof (spawn_pattern_offsets _ _ Hpat) as Hoff.
  split; [intros j Hj; apply Hoff; lia|].
  destruct (foliageType_total (parameters this)) as [ty Hty].
  unfold subload. rewrite Hpat, Hty. cbn [mbind option_bind].
  destruct ty; intros room Hroom; cbv zeta.
  - rewrite (grass_loop_spec rnd this _ _ _ 0%nat _ room Hroom Hoff).
    eexists. split; [reflexivity|].
    split; [by rewrite length_map, length_seq|].
    intros j x y z Hj Ho. rewrite spawned_lookup by done.
    rewrite (list_lookup_total_correct _ _ _ Ho). unfold spawned_grass.
    by rewrite (grass_pos_placed this x y z (table_offset_lookup _ j _ Ho)).
  - rewrite (tree_loop_spec rnd this _ _ _ 0%nat _ room Hroom Hoff).
    eexists. split; [reflexivity|].
    split; [by rewrite length_map, length_seq|].
    intros j x y z Hj Ho. rewrite spawned_lookup by done.
    rewrite (list_lookup_total_correct _ _ _ Ho). unfold spawned_tree.
    by rewrite (tree_pos_placed M this x y z (level_offset_lookup _ j _ Ho)).
  - rewrite (flower_loop_spec globals rnd this _ _ _ _ 0%nat _ room Hroom Hoff).
    eexists. split; [reflexivity|].
    split; [by rewrite length_map, length_seq|].
    intros j x y z Hj Ho. rewrite spawned_lookup by done.
    rewrite (list_lookup_total_correct _ _ _ Ho). unfold spawned_flower.
    rewrite (grass_pos_placed this x y z (table_offset_lookup _ j _ Ho)).
    by rewrite andb_false_r.
  - rewrite (flower_loop_spec globals rnd this _ _ _ _ 0%nat _ room Hroom Hoff).
    eexists. split; [reflexivity|].
    split; [by rewrite length_map, length_seq|].
    intros j x y z Hj Ho. rewrite spawned_lookup by done.
    rewrite (list_lookup_total_correct _ _ _ Ho). unfold spawned_flower.
    by rewrite (grass_pos_placed this x y z (table_offset_lookup _ j _ Ho)).
Qed.

Lemma spawn_pattern_count_pos (id : Z) (pat : SpawnPattern) :
  nth_Z kSpawnPatterns id = Some pat -> exists n, Z.to_nat (count pat) = S n.
Proof.
  intros [_ Hin]%spawn_pattern_cases. unfold kSpawnPatterns in Hin.
  repeat (apply elem_of_cons in Hin as [->|Hin]; [by eexists|]).
  by apply elem_of_nil in Hin.
Qed.

(** X8: [d_a_grass.subload] throws ([TypeError]) when the spawn pattern id
    is 8 or more, since [kSpawnPatterns] has 8 entries and [pattern.group]
    is read off [undefined]; and, with a valid pattern, when the packet of
    the actor's foliage type has no bucket for the actor's room. *)
Theorem subload_throws M globals rnd (this : fopAc_ac_c) (scn : dScnPlay) :
  (8 <= spawnPatternId (parameters this) -> subload M globals rnd this scn = None)
  /\ (spawnPatternId (parameters this) < 8 ->
      match foliageType (parameters this) with
      | Some Grass => nth_Z (GrassPacket.rooms (grassPacket scn)) (roomNo this) = None
      | Some Tree => nth_Z (TreePacket.rooms (treePacket scn)) (roomNo this) = None
      | _ => nth_Z (FlowerPacket.rooms (flowerPacket scn)) (roomNo this) = None
      end ->
      subload M globals rnd this scn = None).
Proof.
  split.
  - intros Hid. unfold subload.
    assert (nth_Z kSpawnPatterns (spawnPatternId (parameters this)) = None) as ->; [|done].
    unfold nth_Z. destruct (Z.ltb_spec (spawnPatternId (parameters this)) 0); [done|].
    apply lookup_ge_None. simpl. lia.
  - intros Hid Hroom.
    pose proof (spawnPatternId_range (parameters this)) as Hrange.
    destruct (nth_Z_is_Some kSpawnPatterns (spawnPatternId (parameters this)))
      as [pat Hpat]; [simpl; lia|].
    destruct (spawn_pattern_count_pos _ _ Hpat) as [n Hn].
    destruct (spawn_pattern_offsets _ _ Hpat 0%nat) as (x & y & z & Ho); [lia|].
    unfold subload. rewrite Hpat. cbn [mbind option_bind]. rewrite Hn.
    destruct (foliageType_total (parameters this)) as [ty Hty].
    rewrite Hty in Hroom |- *.
    destruct ty; cbn [grass_loop tree_loop flower_loop]; unfold offset_at;
      rewrite Ho; cbn [mbind option_bind lookup list_lookup];
      unfold GrassPacket.newData, TreePacket.newData, FlowerPacket.newData;
      rewrite Hroom; done.
Qed.



Lemma subload_registers_witness :
  nth_Z kSpawnPatterns (spawnPatternId 0x11) = Some {| group := 0; count := 7 |}
  /\ foliageType 0x11 = Some Tree
  /\ take 2 (default [] (nth_Z kSpawnOffsets 0)) = [[0; 0; 0]; [3; 0; -50]]
  /\ exists scn' bucket,
       subload quarter_turn_math (globals_in flat_ground 0) (fun _ => 0)
         {| parameters := 0x11; pos := [10; 20; 30]%float;
            rot := [0; 16383.5; 0]%float; roomNo := 3 |} empty_scene = Some scn'
       /\ grassPacket scn' = grassPacket empty_scene
       /\ flowerPacket scn' = flowerPacket empty_scene
       /\ TreePacket.rooms (treePacket scn') !! 3%nat = Some bucket
       /\ length bucket = 7%nat
       /\ TreePacket.pos <$> bucket !! 0%nat = Some [10; 20; 30]%float
       /\ TreePacket.pos <$> bucket !! 1%nat = Some [-40; 20; 27]%float.
Proof.
  split; [reflexivity|]. split; [reflexivity|]. split; [reflexivity|].
  pose proof (subload_registers quarter_turn_math (globals_in flat_ground 0)
                (fun _ => 0)
                {| parameters := 0x11; pos := [10; 20; 30]%float;
                   rot := [0; 16383.5; 0]%float; roomNo := 3 |}
                empty_scene {| group := 0; count := 7 |} eq_refl) as H.
  cbv zeta in H. destruct H as [_ H].
  change (foliageType _) with (Some Tree) in H. cbv iota in H.
  destruct (H [] eq_refl) as (new & Hsub & Hlen & Hnew).
  eexists _, new. split; [exact Hsub|]. split; [reflexivity|].
  split; [reflexivity|]. split; [reflexivity|]. split; [exact Hlen|].
  rewrite (Hnew 0%nat 0 0 0), (Hnew 1%nat 3 0 (-50))
    by (change (Z.to_nat _) with 7%nat; lia || reflexivity).
  split; vm_compute; reflexivity.
Defined.

Lemma subload_throws_witness :
  subload zero_angle_math (globals_in flat_ground 0) (fun _ => 0)
    {| parameters := 0x08; pos := [10; 20; 30]%float; rot := [0; 0; 0]%float;
       roomNo := 3 |} empty_scene = None
  /\ subload zero_angle_math (globals_in flat_ground 0) (fun _ => 0)
       {| parameters := 0x02; pos := [10; 20; 30]%float; rot := [0; 0; 0]%float;
          roomNo := 64 |} empty_scene = None.
Proof.
  split.
  - destruct (subload_throws zero_angle_math (globals_in flat_ground 0) (fun _ => 0)
                {| parameters := 0x08; pos := [10; 20; 30]%float;
                   rot := [0; 0; 0]%float; roomNo := 3 |} empty_scene) as [H _].
    apply H. change (8 <= 8). lia.
  - destruct (subload_throws zero_angle_math (globals_in flat_ground 0) (fun _ => 0)
                {| parameters := 0x02; pos := [10; 20; 30]%float;
                   rot := [0; 0; 0]%float; roomNo := 64 |} empty_scene) as [_ H].
    apply H; [change (2 < 8); lia|reflexivity].
Defined.

End SpawnerMore.

End GrassSpawner.

(* ===================================================================== *)
(** ** The legacy flower packet *)
(* ===================================================================== *)

Section LegacyFlowers.
Import JS glMatrix LegacyGrass Fixtures.
Local Open Scope Z_scope.

Lemma findIndex_undefined_full (ds : gmap Z FlowerData) (n : nat) : forall i,
  (forall j, i <= j < i + Z.of_nat n -> is_Some (ds !! j)) ->
  findIndex_undefined ds i n = -1.
Proof.
  induction n as [|n IH]; intros i H; simpl; [done|].
  destruct (H i) as [d ->]; [lia|]. apply IH. intros j Hj. apply H. lia.
Qed.

Lemma findIndex_undefined_first (ds : gmap Z FlowerData) (n : nat) : forall i k,
  i <= k < i + Z.of_nat n -> ds !! k = None ->
  (forall j, i <= j < k -> is_Some (ds !! j)) ->
  findIndex_undefined ds i n = k.
Proof.
  induction n as [|n IH]; intros i k Hk Hnone Hbefore; simpl; [lia|].
  destruct (ds !! i) as [d|] eqn:Hi.
  - assert (i <> k) by (intros ->; congruence).
    apply IH; [lia|done|]. intros j Hj. apply Hbefore. lia.
  - destruct (decide (i = k)) as [->|Hne]; [done|].
    destruct (Hbefore i) as [d Hd]; [lia|]. congruence.
Qed.

(** C9: when the slots 0 .. 199 of the legacy flower packet are all
    occupied, [newData] logs the warning and returns; each of the 200 slots
    holds what it held before, so none is overwritten and none receives the
    new record (which [setData] stores under the property -1, outside the
    array's slots). *)
Theorem legacy_newData_when_full (p : FlowerPacket) (rnd : Z) (pos0 : vec3)
    (type0 : FlowerType) (roomIdx itemIdx0 : Z) :
  (forall i, 0 <= i < kMaxFlowerDatas -> is_Some (slot p i)) ->
  exists p' data,
    newData p rnd pos0 type0 roomIdx itemIdx0
    = (p', data, ["Failed to allocate flower data"%string])
    /\ (forall i, 0 <= i < kMaxFlowerDatas -> slot p' i = slot p i)
    /\ datas p' = <[-1 := data]> (datas p).
Proof.
  intros Hfull. unfold newData.
  rewrite (findIndex_undefined_full (datas p) _ 0)
    by (intros j Hj; apply Hfull; unfold kMaxFlowerDatas in *; lia).
  change (-1 =? -1) with true. cbv iota.
  unfold setData. eexists _, _. split; [reflexivity|]. split; [|reflexivity].
  intros i Hi. unfold slot. cbn [datas].
  apply lookup_insert_ne. lia.
Qed.

Lemma legacy_filled_lookup (n : nat) (i : Z) :
  0 <= i < Z.of_nat n -> is_Some (legacy_filled n !! i).
Proof.
  induction n as [|n IH]; intros Hi; [lia|].
  cbn [legacy_filled]. destruct (decide (i = Z.of_nat n)) as [->|Hne].
  - rewrite lookup_insert_eq. by eexists.
  - rewrite lookup_insert_ne by done. apply IH. lia.
Qed.

Lemma legacy_newData_when_full_witness :
  exists p' data,
    newData legacy_full 0 [0; 0; 0]%float WHITE 0 0
    = (p', data, ["Failed to allocate flower data"%string])
    /\ slot p' 0 = slot legacy_full 0
    /\ slot p' 199 = slot legacy_full 199.
Proof.
  destruct (legacy_newData_when_full legacy_full 0 [0; 0; 0]%float WHITE 0 0)
    as (p' & data & Hnew & Hslots & _).
  - intros i Hi. apply legacy_filled_lookup. unfold kMaxFlowerDatas in Hi. lia.
  - exists p', data. split; [exact Hnew|].
    split; apply Hslots; unfold kMaxFlowerDatas; lia.
Defined.

Section LegacyMore.
Import LegacyAGrass.

Lemma newData_first_free (p : FlowerPacket) (k rnd : Z) pos0 ty room item :
  0 <= k < kMaxFlowerDatas ->
  slot p k = None ->
  (forall j, 0 <= j < k -> is_Some (slot p j)) ->
  newData p rnd pos0 ty room item = (setData p rnd k pos0 ty room item, []).
Proof.
  intros Hk Hfree Hocc. unfold newData.
  rewrite (findIndex_undefined_first (datas p) _ 0 k);
    [| unfold kMaxFlowerDatas in *; lia | done | done].
  destruct (Z.eqb_spec k (-1)); [lia|done].
Qed.

(** X9: the legacy [FlowerPacket.newData] stores the new flower in the
    first free slot: when slots [0 .. k-1] are taken and slot [k] (below
    [kMaxFlowerDatas]) is free, the flower lands in slot [k], nothing is
    logged, every other slot is unchanged, and the flower carries the
    [needsGroundCheck] flag, a copy of the position and the requested type
    (the Bessou type in room 0x21 of stage [sea]). *)
Theorem legacy_newData_first_free (p : FlowerPacket) (k rnd : Z) pos0 ty room item :
  0 <= k < kMaxFlowerDatas ->
  slot p k = None ->
  (forall j, 0 <= j < k -> is_Some (slot p j)) ->
  exists p' data,
    newData p rnd pos0 ty room item = (p', data, [])
    /\ slot p' k = Some data
    /\ (forall i, i <> k -> slot p' i = slot p i)
    /\ flags data = FlowerFlags_needsGroundCheck
    /\ LegacyGrass.pos data = vec3_clone pos0
    /\ type data = (if String.eqb (stage p) "sea" && (room =? 0x21) then BESSOU else ty).
Proof.
  intros Hk Hfree Hocc. rewrite (newData_first_free p k) by done.
  unfold setData, slot. eexists _, _. split; [reflexivity|]. cbn [datas].
  split; [by rewrite lookup_insert_eq|].
  split; [intros i Hi; by rewrite lookup_insert_ne|]. done.
Qed.

Lemma setData_filled_to (p : FlowerPacket) (m rnd : Z) pos0 ty room item :
  0 <= m -> filled_to p m ->
  filled_to (fst (setData p rnd m pos0 ty room item)) (m + 1).
Proof.
  intros Hm [Hocc Hfree]. unfold filled_to, setData. cbn [fst]. unfold slot in *.
  cbn [datas]. split.
  - intros i Hi. destruct (decide (i = m)) as [->|Hne].
    + rewrite lookup_insert_eq. by eexists.
    + rewrite lookup_insert_ne by done. apply Hocc. lia.
  - intros i Hi. rewrite lookup_insert_ne by lia. apply Hfree. lia.
Qed.

Lemma legacy_flower_loop_spec rnd actor (offsets : list (list Z)) ty item con :
  forall n j p m,
  0 <= m -> m + Z.of_nat n <= kMaxFlowerDatas ->
  filled_to p m ->
  (forall i, (j <= i < j + n)%nat -> exists x y z, offsets !! i = Some [x; y; z]) ->
  exists p',
    flower_loop rnd actor offsets ty item n j p con = Some (p', con)
    /\ stage p' = stage p
    /\ filled_to p' (m + Z.of_nat n)
    /\ (forall i, (i < n)%nat ->
          slot p' (m + Z.of_nat i)
          = Some (legacy_spawned (stage p) rnd actor offsets ty item (j + i)))
    /\ (forall i, i < m -> slot p' i = slot p i).
Proof.
  induction n as [|n IH]; intros j p m Hm Hcap Hfill Hoff.
  - exists p. split; [done|]. split; [done|]. rewrite Z.add_0_r.
    split; [done|]. split; [intros i Hi; lia|done].
  - destruct (Hoff j) as (x & y & z & Hj); [lia|].
    cbn [flower_loop]. unfold DGrass.offset_at. rewrite Hj.
    cbn [mbind option_bind lookup list_lookup].
    destruct Hfill as [Hocc Hfree].
    rewrite (newData_first_free p m);
      [| unfold kMaxFlowerDatas in *; lia | apply Hfree; lia | done].
    set (sd := setData p (rnd j) m _ ty (roomIndex actor) item).
    assert (filled_to (fst sd) (m + 1)) as Hfill1
      by (by apply setData_filled_to).
    destruct sd as [p1 data] eqn:Hsd. cbn [fst] in Hfill1.
    rewrite app_nil_r.
    destruct (IH (S j) p1 (m + 1)) as (p' & Hloop & Hst & Hfill' & Hnew & Hold).
    + lia.
    + lia.
    + done.
    + intros i Hi. apply Hoff. lia.
    + assert (stage p1 = stage p) as Hst1
        by (unfold sd, setData in Hsd; by injection Hsd as <- _).
      assert (slot p1 m = Some (legacy_spawned (stage p) rnd actor offsets ty item j))
        as Hm1.
      { unfold sd, setData in Hsd. injection Hsd as <- _. unfold slot. cbn [datas].
        rewrite lookup_insert_eq. unfold legacy_spawned, setData. cbn [snd stage new_FlowerPacket].
        rewrite (list_lookup_total_correct _ _ _ Hj). done. }
      assert (forall i, i < m -> slot p1 i = slot p i) as Hold1.
      { intros i Hi. unfold sd, setData in Hsd. injection Hsd as <- _.
        unfold slot. cbn [datas]. by rewrite lookup_insert_ne by lia. }
      exists p'. split; [exact Hloop|]. split; [congruence|].
      split; [by replace (m + Z.of_nat (S n)) with (m + 1 + Z.of_nat n) by lia|].
      split.
      * intros [|i] Hi.
        -- rewrite Z.add_0_r, Nat.add_0_r, Hold by lia. done.
        -- replace (m + Z.of_nat (S i)) with (m + 1 + Z.of_nat i) by lia.
           rewrite Hnew by lia. rewrite Hst1. do 2 f_equal. lia.
      * intros i Hi. rewrite Hold by lia. by apply Hold1.
Qed.




Lemma legacy_pattern_offsets (id : Z) (pat : SpawnPattern) :
  nth_Z kGrassSpawnPatterns id = Some pat ->
  forall i, (0 <= i < 0 + Z.to_nat (count pat))%nat ->
  exists x y z,
    default [] (nth_Z kGrassSpawnOffsets (group pat)) !! i = Some [x; y; z].
Proof.
  intros [_ Hlk]%nth_Z_Some i Hi.
  apply list_elem_of_lookup_2 in Hlk as Hin.
  assert (i ∈ seq 0 (Z.to_nat (count pat))) as Hseq by (apply elem_of_seq; lia).
  clear Hi Hlk. revert i Hseq. apply Forall_forall.
  unfold kGrassSpawnPatterns in Hin.
  repeat (apply elem_of_cons in Hin as [->|Hin];
          [repeat (apply Forall_cons; split; [by eexists _, _, _|]);
           by apply Forall_nil|]).
  by apply elem_of_nil in Hin.
Qed.

(** X10: the legacy [AGrass.create] on a flower actor (type bits 2 or 3)
    whose pattern fits into the free slots: starting from a packet filled
    up to slot [m], it fills the next [count] slots, in order, with one
    flower per offset of the pattern, logs nothing, and leaves the slots
    below [m] as they were. *)
Theorem legacy_create_fills rnd stage0 (fp : option FlowerPacket) (actor : Actor)
    (pat : SpawnPattern) (m : Z) :
  let p := default (new_FlowerPacket stage0) fp in
  let ty := Z.shiftr (Z.land (parameters actor) 0x030) 4 in
  let offsets := default [] (nth_Z kGrassSpawnOffsets (group pat)) in
  let item := Z.land (Z.shiftr (parameters actor) 6) 0x3f in
  nth_Z kGrassSpawnPatterns (Z.land (parameters actor) 0x00F) = Some pat ->
  ty = 2 \/ ty = 3 ->
  0 <= m -> m + count pat <= kMaxFlowerDatas ->
  filled_to p m ->
  exists p',
    create rnd stage0 fp actor = Some (Some p', [])
    /\ filled_to p' (m + count pat)
    /\ (forall i, (i < Z.to_nat (count pat))%nat ->
          slot p' (m + Z.of_nat i)
          = Some (legacy_spawned (stage p) rnd actor offsets
                    (if ty =? 2 then WHITE else PINK) item i))
    /\ (forall i, i < m -> slot p' i = slot p i).
Proof.
  intros p ty offsets item Hpat Hty Hm Hcap Hfill.
  assert (0 <= count pat) as Hcount.
  { apply nth_Z_Some in Hpat as [_ Hlk]. apply list_elem_of_lookup_2 in Hlk.
    unfold kGrassSpawnPatterns in Hlk.
    repeat (apply elem_of_cons in Hlk as [->|Hlk]; [simpl; lia|]).
    by apply elem_of_nil in Hlk. }
  destruct (legacy_flower_loop_spec rnd actor offsets
              (if ty =? 2 then WHITE else PINK) item []
              (Z.to_nat (count pat)) 0%nat p m)
    as (p' & Hloop & _ & Hfill' & Hnew & Hold);
    [done|lia|done|exact (legacy_pattern_offsets _ _ Hpat)|].
  exists p'. unfold create. rewrite Z.shiftr_0_r, Hpat. cbn [mbind option_bind].
  fold ty. fold item. fold offsets. fold p.
  rewrite Z2Nat.id in Hfill' by done.
  assert (match ty with
          | 2 | 3 =>
              '(p'0, con) ← flower_loop rnd actor offsets
                               (if ty =? 2 then WHITE else PINK) item
                               (Z.to_nat (count pat)) 0 p [];
              Some (Some p'0, con)
          | _ => Some (fp, [])
          end = Some (Some p', [])) as E
    by (destruct Hty as [E|E]; rewrite E in *; by rewrite Hloop).
  split; [exact E|]. done.
Qed.

(** X11: the legacy [AGrass.create] only spawns flowers.  For an actor
    whose type bits say grass or tree (bit 0x20 clear) and whose pattern id
    is valid, it returns without touching the flower packet and without
    logging. *)
Theorem legacy_create_ignores_grass_and_trees rnd stage0 (fp : option FlowerPacket)
    (actor : Actor) :
  Z.land (parameters actor) 0x00F < 8 ->
  Z.land (parameters actor) 0x020 = 0 ->
  create rnd stage0 fp actor = Some (fp, []).
Proof.
  intros Hid Hty. unfold create. rewrite Z.shiftr_0_r.
  destruct (nth_Z_is_Some kGrassSpawnPatterns (Z.land (parameters actor) 15))
    as [pat ->].
  { split; [apply Z.land_nonneg; lia|simpl; lia]. }
  cbn [mbind option_bind].
  assert (Z.shiftr (Z.land (parameters actor) 48) 4 = 0
          \/ Z.shiftr (Z.land (parameters actor) 48) 4 = 1) as [-> | ->]; [|done..].
  pose proof (foliageTypeBits_range (parameters actor)) as Hr.
  unfold DGrass.foliageTypeBits in Hr.
  assert (Z.testbit (Z.shiftr (Z.land (parameters actor) 48) 4) 1 = false) as Hb.
  { rewrite Z.shiftr_spec by lia. change (1 + 4) with 5.
    rewrite Z.land_spec. change (Z.testbit 48 5) with true.
    assert (Z.testbit (Z.land (parameters actor) 32) 5 = false) as H5
      by (by rewrite Hty).
    rewrite Z.land_spec in H5. change (Z.testbit 32 5) with true in H5.
    exact H5. }
  set (t := Z.shiftr _ 4) in *.
  assert (t = 0 \/ t = 1 \/ t = 2 \/ t = 3) as [E | [E | [E | E]]] by lia;
    rewrite E in Hb; [by left|by right|done|done].
Qed.

(** X12: the spawn tables of the legacy file and of [d_a_grass] agree on
    every pattern and on every offset but one: entry 8 of offset group 1 is
    [(-18, 0, -74)] in [kGrassSpawnOffsets] and [(-18, 0, -65)] in
    [d_a_grass.kSpawnOffsets]. *)
Theorem spawn_offset_tables_differ :
  map (fun q => (group q, count q)) kGrassSpawnPatterns
  = map (fun q => (DGrass.group q, DGrass.count q)) DGrass.kSpawnPatterns
  /\ DGrass.kSpawnOffsets
     = <[1%nat := <[8%nat := [-18; 0; -65]]> (kGrassSpawnOffsets !!! 1%nat)]>
         kGrassSpawnOffsets
  /\ (kGrassSpawnOffsets !!! 1%nat) !! 8%nat = Some [-18; 0; -74].
Proof. split; [|split]; vm_compute; reflexivity. Qed.



Lemma legacy_newData_first_free_witness :
  exists p' data,
    newData legacy_partial 0 [1; 2; 3]%float WHITE 0 0 = (p', data, [])
    /\ slot p' 5 = Some data
    /\ slot p' 4 = slot legacy_partial 4.
Proof.
  destruct (legacy_newData_first_free legacy_partial 5 0 [1; 2; 3]%float WHITE 0 0)
    as (p' & data & Hnew & Hk & Hrest & _).
  - unfold kMaxFlowerDatas. lia.
  - reflexivity.
  - intros j Hj. apply (legacy_filled_lookup 5). lia.
  - exists p', data. split; [exact Hnew|]. split; [exact Hk|]. apply Hrest. lia.
Defined.

Lemma new_FlowerPacket_filled_to (stage0 : string) :
  filled_to (new_FlowerPacket stage0) 0.
Proof. split; [intros i Hi; lia|intros i _; apply lookup_empty]. Qed.

Lemma legacy_create_fills_witness :
  exists p',
    create (fun _ => 0) "sea" None
      {| parameters := 0x22; LegacyAGrass.pos := [10; 20; 30]%float; roomIndex := 3 |}
    = Some (Some p', [])
    /\ filled_to p' 15
    /\ type <$> slot p' 14 = Some WHITE.
Proof.
  destruct (legacy_create_fills (fun _ => 0) "sea" None
              {| parameters := 0x22; LegacyAGrass.pos := [10; 20; 30]%float;
                 roomIndex := 3 |}
              {| group := 1; count := 15 |} 0)
    as (p' & Hc & Hfill & Hnew & _).
  - reflexivity.
  - by left.
  - lia.
  - unfold kMaxFlowerDatas. simpl. lia.
  - apply new_FlowerPacket_filled_to.
  - exists p'. split; [exact Hc|]. split; [exact Hfill|].
    change 14 with (0 + Z.of_nat 14). rewrite (Hnew 14%nat) by (simpl; lia).
    reflexivity.
Defined.

Lemma legacy_create_ignores_grass_and_trees_witness :
  create (fun _ => 0) "sea" (Some legacy_partial)
    {| parameters := 0x12; LegacyAGrass.pos := [10; 20; 30]%float; roomIndex := 3 |}
  = Some (Some legacy_partial, []).
Proof.
  apply legacy_create_ignores_grass_and_trees; [change (2 < 8); lia|reflexivity].
Defined.

End LegacyMore.

End LegacyFlowers.

(* ===================================================================== *)
(** ** The toon texture's gain curve *)
(* ===================================================================== *)

Section Gain.
Import JS ToonTex Fixtures.
Local Open Scope float_scope.

Section GainGeneral.
Variable engine : number -> number -> number.

Lemma Math_pow_exponent_0 (x k : number) :
  (k =? 0) = true -> Math_pow engine x k = 1.
Proof.
  intros Hk. unfold Math_pow, is_NaN.
  destruct (eqb_not_nan _ _ Hk) as [-> _]. cbn [negb]. by rewrite Hk.
Qed.

Lemma Math_pow_exponent_NaN (x k : number) :
  is_NaN k = true -> Math_pow engine x k = nan.
Proof. intros Hk. unfold Math_pow. by rewrite Hk. Qed.


Lemma Math_pow_0_neg (k : number) :
  (k <? 0) = true -> Math_pow engine 0 k = infinity.
Proof.
  intros Hk. unfold Math_pow, is_NaN.
  destruct (ltb_not_nan _ _ Hk) as [-> _]. cbn [negb].
  rewrite (ltb_eqb_false_l _ _ Hk), (ltb_asym _ _ Hk).
  change (0 =? 0) with true. change (0 =? infinity) with false.
  change (0 =? neg_infinity) with false. change (classify 0) with PZero.
  done.
Qed.




(** X29: [gain] at the exponents where [Math.pow] is fixed by the
    language.  At the exponent 0 (or -0) the curve is flat, [gain(v, 0) =
    0.5] for every v, [NaN] and the infinities included; at the exponent
    [NaN] every value is [NaN]; and at a negative exponent the endpoints
    are infinite, [gain(0, k) = Infinity] and [gain(1, k) = -Infinity]. *)
Theorem gain_degenerate_exponents (v k : number) :
  ((k =? 0) = true -> gain engine v k = 0.5)
  /\ (is_NaN k = true -> gain engine v k = nan)
  /\ ((k <? 0) = true ->
      gain engine 0 k = infinity /\ gain engine 1 k = neg_infinity).
Proof.
  split; [|split].
  - intros Hk. unfold gain. rewrite (Math_pow_exponent_0 _ k Hk).
    by destruct (v <? 0.5).
  - intros Hk. unfold gain. rewrite (Math_pow_exponent_NaN _ k Hk).
    by destruct (v <? 0.5).
  - intros Hk. unfold gain.
    change (0 <? 0.5) with true. change (1 <? 0.5) with false. cbv iota zeta.
    change (2 * 0) with 0. change (2 * (1.0 - 1)) with 0.
    rewrite (Math_pow_0_neg k Hk). split; reflexivity.
Qed.

End GainGeneral.


Lemma gain_degenerate_exponents_witness :
  gain engine_exact_at_1 0.25 neg_zero = 0.5
  /\ gain engine_exact_at_1 0.25 nan = nan
  /\ gain engine_exact_at_1 0 (-1) = infinity
  /\ gain engine_exact_at_1 1 (-1) = neg_infinity.
Proof.
  destruct (gain_degenerate_exponents engine_exact_at_1 0.25 neg_zero) as (Hz & _ & _).
  destruct (gain_degenerate_exponents engine_exact_at_1 0.25 nan) as (_ & Hn & _).
  destruct (gain_degenerate_exponents engine_exact_at_1 0.25 (-1)) as (_ & _ & Hneg).
  split; [apply Hz; reflexivity|]. split; [apply Hn; reflexivity|].
  apply Hneg. reflexivity.
Defined.

End Gain.

(* ===================================================================== *)
(** ** JStudio variable values and adaptor tracks *)
(* ===================================================================== *)

Section VariableValueFacts.
Import JS glMatrix VariableValue.
Local Open Scope Z_scope.
Context {O : Type}.

Lemma forward_fields (vv : TVariableValue O) (frameCount : number) :
  mValue (forward vv frameCount) = mValue vv
  /\ mUpdateFunc (forward vv frameCount) = mUpdateFunc vv
  /\ mUpdateParam (forward vv frameCount) = mUpdateParam vv
  /\ mOutputFunc (forward vv frameCount) = mOutputFunc vv.
Proof. unfold forward. by destruct (_ <=? _)%float. Qed.

(** X24: [setValue_immediate] takes effect at the next [update] and only
    there.  After [setValue_immediate(v)], the first [update] stores [v],
    calls the output function (if one is set) once with [v], and clears
    the update function; every later [forward]/[update] leaves the value
    at [v] and calls nothing. *)
Theorem immediate_value_is_set_once (vv : TVariableValue O) (v : number)
    (frameCount secondsPerFrame : number) :
  exists vv1 vv2,
    setValue_immediate vv (js_number v) = Some vv1
    /\ update (forward vv1 frameCount) secondsPerFrame
       = Some (vv2, match mOutputFunc vv with
                    | Some out => [(out, js_number v)]
                    | None => []
                    end)
    /\ getValue vv2 = js_number v
    /\ forall frameCount' secondsPerFrame',
         update (forward vv2 frameCount') secondsPerFrame'
         = Some (forward vv2 frameCount', [])
         /\ getValue (forward vv2 frameCount') = js_number v.
Proof.
  set (vv1 := {| mValue := mValue vv; mAge := num 0;
                 mUpdateFunc := Some update_immediate;
                 mUpdateParam := js_number v; mOutputFunc := mOutputFunc vv |}).
  exists vv1,
    (with_mUpdateFunc (with_mValue (forward vv1 frameCount) (js_number v)) None).
  split; [reflexivity|].
  destruct (forward_fields vv1 frameCount) as (Hv & Hf & Hp & Ho).
  split; [|split; [reflexivity|]].
  - unfold update. rewrite Hf. cbn [vv1 mUpdateFunc call_updateFunc].
    rewrite Hp. cbn [vv1 mUpdateParam mbind option_bind with_mUpdateFunc
      with_mValue mOutputFunc mValue]. by rewrite Ho.
  - intros f' s'.
    set (vv2 := with_mUpdateFunc _ None).
    destruct (forward_fields vv2 f') as (Hv' & Hf' & _).
    unfold update, getValue. rewrite Hf', Hv'. done.
Qed.

Lemma updateVariableValue_lookup (vs : list (TVariableValue O)) spf fc : forall vs' outs k vv,
  adaptor_updateVariableValue vs spf fc = Some (vs', outs) ->
  vs !! k = Some vv ->
  exists vv' out, update (forward vv fc) spf = Some (vv', out) /\ vs' !! k = Some vv'.
Proof.
  induction vs as [|v rest IH]; intros vs' outs k vv H Hk; [done|].
  cbn [adaptor_updateVariableValue] in H.
  destruct (update (forward v fc) spf) as [[v' out]|] eqn:Hv; [|done].
  cbn [mbind option_bind] in H.
  destruct (adaptor_updateVariableValue rest spf fc) as [[rest' outs']|] eqn:Hr;
    [|done].
  cbn [mbind option_bind] in H. injection H as <- <-.
  destruct k as [|k]; simpl in Hk |- *.
  - injection Hk as <-. by exists v', out.
  - by eapply IH.
Qed.

Lemma update_immediate_value (vv vv' : TVariableValue O) (v : jsval) spf fc out :
  mUpdateFunc vv = Some update_immediate -> mUpdateParam vv = v ->
  update (forward vv fc) spf = Some (vv', out) -> getValue vv' = v.
Proof.
  intros Hf Hp. unfold update, forward.
  destruct (_ <=? _)%float; cbn [with_mAge mUpdateFunc]; rewrite Hf;
    cbn [call_updateFunc mbind option_bind]; intros [= <- _]; done.
Qed.

Lemma at_track_lookup (vs vs' : list (TVariableValue O)) (k : Z) method :
  at_track vs k method = Some vs' ->
  0 <= k /\ length vs' = length vs
  /\ (exists vv vv', vs !! Z.to_nat k = Some vv /\ method vv = Some vv'
                     /\ vs' !! Z.to_nat k = Some vv')
  /\ forall j, j <> Z.to_nat k -> vs' !! j = vs !! j.
Proof.
  unfold at_track. destruct (nth_Z vs k) as [vv|] eqn:Hk; [|done].
  cbn [mbind option_bind]. destruct (method vv) as [vv'|] eqn:Hm; [|done].
  cbn [mbind option_bind]. intros [= <-].
  apply nth_Z_Some in Hk as [H0 Hk]. split; [done|].
  split; [by rewrite length_insert|]. split.
  - exists vv, vv'. split; [done|]. split; [done|].
    apply list_lookup_insert_eq. by eapply lookup_lt_Some.
  - intros j Hj. by rewrite list_lookup_insert_ne.
Qed.


Lemma index_of_0 : index_of 0 = Some 0%nat.
Proof. vm_compute. reflexivity. Qed.
Lemma index_of_1 : index_of 1 = Some 1%nat.
Proof. vm_compute. reflexivity. Qed.
Lemma index_of_2 : index_of 2 = Some 2%nat.
Proof. vm_compute. reflexivity. Qed.

Lemma of_value_elem (a : list number) (i : number) (k : nat) :
  index_of i = Some k ->
  of_value (elem a i) <> js_undefined ->
  exists x, a !! k = Some x /\ of_value (elem a i) = js_number x.
Proof.
  unfold elem. intros -> H. destruct (a !! k) as [x|]; [by exists x|done].
Qed.

Lemma setValue_immediate_Some (vv vv' : TVariableValue O) (v : jsval) :
  setValue_immediate vv v = Some vv' ->
  v <> js_undefined
  /\ mUpdateFunc vv' = Some update_immediate /\ mUpdateParam vv' = v
  /\ mOutputFunc vv' = mOutputFunc vv /\ mValue vv' = mValue vv.
Proof.
  unfold setValue_immediate, setValue. destruct v; [done|..]; intros [= <-]; done.
Qed.

(** A track on which an immediate value is pending holds it after the
    next update of the tracks. *)
Lemma pending_immediate_lands (vs vs' : list (TVariableValue O)) spf fc outs k vv v :
  adaptor_updateVariableValue vs spf fc = Some (vs', outs) ->
  vs !! k = Some vv ->
  mUpdateFunc vv = Some update_immediate -> mUpdateParam vv = v ->
  exists vv', vs' !! k = Some vv' /\ getValue vv' = v.
Proof.
  intros Hup Hk Hf Hp.
  destruct (updateVariableValue_lookup vs spf fc vs' outs k vv Hup Hk)
    as (vv' & out & Hu & Hk').
  exists vv'. split; [done|]. by eapply update_immediate_value.
Qed.

Lemma setVec_tracks (vs vs1 : list (TVariableValue O)) (start : Z) (data : vec3) :
  adaptor_setVariableValue_Vec vs start data = Some vs1 ->
  0 <= start /\ length vs1 = length vs
  /\ (exists x0 x1 x2 v0 v1 v2,
        data !! 0%nat = Some x0 /\ data !! 1%nat = Some x1 /\ data !! 2%nat = Some x2
        /\ vs1 !! Z.to_nat start = Some v0
        /\ vs1 !! S (Z.to_nat start) = Some v1
        /\ vs1 !! S (S (Z.to_nat start)) = Some v2
        /\ mUpdateFunc v0 = Some update_immediate /\ mUpdateParam v0 = js_number x0
        /\ mUpdateFunc v1 = Some update_immediate /\ mUpdateParam v1 = js_number x1
        /\ mUpdateFunc v2 = Some update_immediate /\ mUpdateParam v2 = js_number x2)
  /\ forall j, (j < Z.to_nat start \/ Z.to_nat start + 3 <= j)%nat ->
       vs1 !! j = vs !! j.
Proof.
  unfold adaptor_setVariableValue_Vec.
  destruct (at_track vs (start + 0) _) as [va|] eqn:Ha; [|done].
  cbn [mbind option_bind].
  destruct (at_track va (start + 1) _) as [vb|] eqn:Hb; [|done].
  cbn [mbind option_bind]. intros Hc.
  apply at_track_lookup in Ha as (H0 & Hla & (a0 & a0' & _ & Hma & Ha') & Hoa).
  apply at_track_lookup in Hb as (_ & Hlb & (b0 & b0' & _ & Hmb & Hb') & Hob).
  apply at_track_lookup in Hc as (_ & Hlc & (c0 & c0' & _ & Hmc & Hc') & Hoc).
  apply setValue_immediate_Some in Hma as (Hna & Hfa & Hpa & _).
  apply setValue_immediate_Some in Hmb as (Hnb & Hfb & Hpb & _).
  apply setValue_immediate_Some in Hmc as (Hnc & Hfc & Hpc & _).
  destruct (of_value_elem data 0 0 index_of_0 Hna) as (x0 & Hx0 & E0).
  destruct (of_value_elem data 1 1 index_of_1 Hnb) as (x1 & Hx1 & E1).
  destruct (of_value_elem data 2 2 index_of_2 Hnc) as (x2 & Hx2 & E2).
  replace (Z.to_nat (start + 0)) with (Z.to_nat start) in * by lia.
  replace (Z.to_nat (start + 1)) with (S (Z.to_nat start)) in * by lia.
  replace (Z.to_nat (start + 2)) with (S (S (Z.to_nat start))) in * by lia.
  split; [lia|]. split; [congruence|]. split.
  - exists x0, x1, x2, a0', b0', c0'.
    split; [done|]. split; [done|]. split; [done|].
    split; [by rewrite Hoc, Hob by lia|].
    split; [by rewrite Hoc by lia|].
    split; [done|]. rewrite <- E0, <- E1, <- E2. done.
  - intros j Hj. rewrite Hoc, Hob, Hoa by lia. done.
Qed.

Lemma getVec_of_tracks (vs : list (TVariableValue O)) (start : Z) (dst : vec3)
    v0 v1 v2 (x0 x1 x2 : number) :
  0 <= start -> length dst = 3%nat ->
  vs !! Z.to_nat start = Some v0 ->
  vs !! S (Z.to_nat start) = Some v1 ->
  vs !! S (S (Z.to_nat start)) = Some v2 ->
  getValue v0 = js_number x0 -> getValue v1 = js_number x1 ->
  getValue v2 = js_number x2 ->
  adaptor_getVariableValue_Vec vs dst start = Some (f32_of [x0; x1; x2]).
Proof.
  intros H0 Hlen Hv0 Hv1 Hv2 E0 E1 E2. unfold adaptor_getVariableValue_Vec.
  rewrite !nth_Z_nonneg by lia.
  replace (Z.to_nat (start + 0)) with (Z.to_nat start) by lia.
  replace (Z.to_nat (start + 1)) with (S (Z.to_nat start)) by lia.
  replace (Z.to_nat (start + 2)) with (S (S (Z.to_nat start))) by lia.
  rewrite Hv0, Hv1, Hv2. cbn [mbind option_bind]. rewrite E0, E1, E2.
  destruct dst as [|y0 [|y1 [|y2 [|]]]]; try done.
Qed.

(** X25: [adaptor_setVariableValue_Vec], one [adaptor_updateVariableValue]
    and [adaptor_getVariableValue_Vec] at the same start track give back
    the three components of the vector that was set. *)
Theorem vec_tracks_round_trip (vs vs1 vs2 : list (TVariableValue O)) (start : Z)
    (data dst : vec3) spf fc outs :
  length dst = 3%nat ->
  adaptor_setVariableValue_Vec vs start data = Some vs1 ->
  adaptor_updateVariableValue vs1 spf fc = Some (vs2, outs) ->
  adaptor_getVariableValue_Vec vs2 dst start = Some (vec3_copy data).
Proof.
  intros Hdst Hset Hup.
  apply setVec_tracks in Hset
    as (H0 & _ & (x0 & x1 & x2 & v0 & v1 & v2 & Hx0 & Hx1 & Hx2
                  & Hv0 & Hv1 & Hv2 & Hf0 & Hp0 & Hf1 & Hp1 & Hf2 & Hp2) & _).
  destruct (pending_immediate_lands _ _ _ _ _ _ _ _ Hup Hv0 Hf0 Hp0) as (w0 & Hw0 & E0).
  destruct (pending_immediate_lands _ _ _ _ _ _ _ _ Hup Hv1 Hf1 Hp1) as (w1 & Hw1 & E1).
  destruct (pending_immediate_lands _ _ _ _ _ _ _ _ Hup Hv2 Hf2 Hp2) as (w2 & Hw2 & E2).
  rewrite (getVec_of_tracks vs2 start dst w0 w1 w2 x0 x1 x2) by done.
  unfold vec3_copy, f32_get. by rewrite Hx0, Hx1, Hx2.
Qed.

(** X26: the colour tracks do not round-trip.  After
    [adaptor_setVariableValue_GXColor] and one update,
    [adaptor_getVariableValue_GXColor] at the same start track returns the
    red, green and blue that were set, but its alpha is the blue value:
    the setter wrote alpha to track [start + 4] and left [start + 3]
    alone, and the getter reads alpha from track [start + 2]. *)
Theorem gxcolor_tracks_alpha (vs vs1 vs2 : list (TVariableValue O)) (start : Z)
    (data dst : GfxColor) spf fc outs :
  adaptor_setVariableValue_GXColor vs start data = Some vs1 ->
  adaptor_updateVariableValue vs1 spf fc = Some (vs2, outs) ->
  adaptor_getVariableValue_GXColor vs2 dst start
  = Some {| r := r data; g := g data; b := b data; a := b data |}
  /\ vs1 !! Z.to_nat (start + 3) = vs !! Z.to_nat (start + 3)
  /\ (exists v4, vs2 !! Z.to_nat (start + 4) = Some v4 /\ getValue v4 = a data).
Proof.
  unfold adaptor_setVariableValue_GXColor. intros Hset Hup.
  destruct (at_track vs (start + 0) _) as [va|] eqn:Ha; [|done].
  cbn [mbind option_bind] in Hset.
  destruct (at_track va (start + 1) _) as [vb|] eqn:Hb; [|done].
  cbn [mbind option_bind] in Hset.
  destruct (at_track vb (start + 2) _) as [vc|] eqn:Hc; [|done].
  cbn [mbind option_bind] in Hset. rename Hset into Hd.
  apply at_track_lookup in Ha as (H0 & _ & (a0 & a0' & _ & Hma & Ha') & Hoa).
  apply at_track_lookup in Hb as (_ & _ & (b0 & b0' & _ & Hmb & Hb') & Hob).
  apply at_track_lookup in Hc as (_ & _ & (c0 & c0' & _ & Hmc & Hc') & Hoc).
  apply at_track_lookup in Hd as (_ & _ & (d0 & d0' & _ & Hmd & Hd') & Hod).
  apply setValue_immediate_Some in Hma as (_ & Hfa & Hpa & _).
  apply setValue_immediate_Some in Hmb as (_ & Hfb & Hpb & _).
  apply setValue_immediate_Some in Hmc as (_ & Hfc & Hpc & _).
  apply setValue_immediate_Some in Hmd as (_ & Hfd & Hpd & _).
  assert (vs1 !! Z.to_nat (start + 0) = Some a0') as H1a
    by (rewrite Hod, Hoc, Hob by lia; done).
  assert (vs1 !! Z.to_nat (start + 1) = Some b0') as H1b
    by (rewrite Hod, Hoc by lia; done).
  assert (vs1 !! Z.to_nat (start + 2) = Some c0') as H1c
    by (rewrite Hod by lia; done).
  destruct (pending_immediate_lands _ _ _ _ _ _ _ _ Hup H1a Hfa Hpa) as (w0 & Hw0 & E0).
  destruct (pending_immediate_lands _ _ _ _ _ _ _ _ Hup H1b Hfb Hpb) as (w1 & Hw1 & E1).
  destruct (pending_immediate_lands _ _ _ _ _ _ _ _ Hup H1c Hfc Hpc) as (w2 & Hw2 & E2).
  destruct (pending_immediate_lands _ _ _ _ _ _ _ _ Hup Hd' Hfd Hpd) as (w4 & Hw4 & E4).
  split; [|split].
  - unfold adaptor_getVariableValue_GXColor. rewrite !nth_Z_nonneg by lia.
    rewrite Hw0, Hw1, Hw2. cbn [mbind option_bind]. by rewrite E0, E1, E2.
  - rewrite Hod, Hoc, Hob, Hoa by lia. done.
  - by exists w4.
Qed.

End VariableValueFacts.

(* ===================================================================== *)
(** ** The actor adaptor *)
(* ===================================================================== *)

Section ActorAdaptorFacts.
Import JS glMatrix VariableValue ActorAdaptor.
Local Open Scope Z_scope.

(** X27: after [TActorAdaptor.adaptor_do_begin] the [AnimFrame] track is
    pending with the actor's TEXTURE animation frame (the second of two
    writes to that track), and the [TexAnimFrame] track is as it was. *)
Theorem do_begin_anim_frame_track (mObject : TActor) (transform : option Transform)
    (s s' : Scratch) (vs vs' : Tracks) :
  adaptor_do_begin mObject transform s vs = Some (vs', s') ->
  (exists vv, vs' !! Z.to_nat AnimFrame = Some vv
     /\ mUpdateFunc vv = Some update_immediate
     /\ mUpdateParam vv = JSGGetTextureAnimationFrame mObject)
  /\ vs' !! Z.to_nat TexAnimFrame = vs !! Z.to_nat TexAnimFrame.
Proof.
  unfold adaptor_do_begin.
  set (pr := match transform with Some _ => _ | None => _ end).
  destruct pr as [pos rot].
  destruct (adaptor_setVariableValue_Vec vs PosX pos) as [v1|] eqn:H1; [|done].
  cbn [mbind option_bind].
  destruct (adaptor_setVariableValue_Vec v1 RotX rot) as [v2|] eqn:H2; [|done].
  cbn [mbind option_bind].
  destruct (adaptor_setVariableValue_Vec v2 ScaleX _) as [v3|] eqn:H3; [|done].
  cbn [mbind option_bind].
  destruct (at_track v3 AnimTransition _) as [v4|] eqn:H4; [|done].
  cbn [mbind option_bind].
  destruct (at_track v4 AnimFrame _) as [v5|] eqn:H5; [|done].
  cbn [mbind option_bind].
  destruct (at_track v5 AnimFrame _) as [v6|] eqn:H6; [|done].
  cbn [mbind option_bind]. intros [= <- _].
  apply setVec_tracks in H1 as (_ & _ & _ & Ho1).
  apply setVec_tracks in H2 as (_ & _ & _ & Ho2).
  apply setVec_tracks in H3 as (_ & _ & _ & Ho3).
  apply at_track_lookup in H4 as (_ & _ & _ & Ho4).
  apply at_track_lookup in H5 as (_ & _ & _ & Ho5).
  apply at_track_lookup in H6 as (_ & _ & (w & w' & _ & Hm & Hw') & Ho6).
  apply setValue_immediate_Some in Hm as (_ & Hf & Hp & _).
  split; [by exists w'|].
  unfold TexAnimFrame, AnimFrame, AnimTransition, PosX, RotX, ScaleX in *.
  rewrite Ho6, Ho5, Ho4, Ho3, Ho2, Ho1 by (simpl; lia). done.
Qed.

(** X28: without a demo transform, [adaptor_do_begin], one
    [adaptor_updateVariableValue] and [adaptor_do_update] pass back to the
    actor's setters exactly the translation, rotation and scaling that its
    getters gave at [adaptor_do_begin]. *)
Theorem begin_then_update_restores_actor (mObject : TActor) (s s1 s2 : Scratch)
    (vs vs1 vs2 : Tracks) spf fc outs :
  adaptor_do_begin mObject None s vs = Some (vs1, s1) ->
  adaptor_updateVariableValue vs1 spf fc = Some (vs2, outs) ->
  length (scratchVec3a s2) = 3%nat -> length (scratchVec3b s2) = 3%nat ->
  length (scratchVec3c s2) = 3%nat ->
  adaptor_do_update None s2 vs2
  = Some (vec3_copy (JSGGetTranslation mObject (scratchVec3a s)),
          vec3_copy (JSGGetRotation mObject (scratchVec3b s)),
          vec3_copy (JSGGetScaling mObject (scratchVec3c s))).
Proof.
  unfold adaptor_do_begin. intros Hb Hup La Lb Lc.
  set (pos := JSGGetTranslation mObject (scratchVec3a s)) in *.
  set (rot := JSGGetRotation mObject (scratchVec3b s)) in *.
  set (scale := JSGGetScaling mObject (scratchVec3c s)) in *.
  destruct (adaptor_setVariableValue_Vec vs PosX pos) as [v1|] eqn:H1; [|done].
  cbn [mbind option_bind] in Hb.
  destruct (adaptor_setVariableValue_Vec v1 RotX rot) as [v2|] eqn:H2; [|done].
  cbn [mbind option_bind] in Hb.
  destruct (adaptor_setVariableValue_Vec v2 ScaleX scale) as [v3|] eqn:H3; [|done].
  cbn [mbind option_bind] in Hb.
  destruct (at_track v3 AnimTransition _) as [v4|] eqn:H4; [|done].
  cbn [mbind option_bind] in Hb.
  destruct (at_track v4 AnimFrame _) as [v5|] eqn:H5; [|done].
  cbn [mbind option_bind] in Hb.
  destruct (at_track v5 AnimFrame _) as [v6|] eqn:H6; [|done].
  cbn [mbind option_bind] in Hb. injection Hb as <- _.
  apply at_track_lookup in H4 as (_ & _ & _ & Ho4).
  apply at_track_lookup in H5 as (_ & _ & _ & Ho5).
  apply at_track_lookup in H6 as (_ & _ & _ & Ho6).
  assert (forall j, (3 <= j)%nat -> v6 !! j = v3 !! j) as Hrest.
  { intros j Hj. unfold AnimFrame, AnimTransition in *.
    rewrite Ho6, Ho5, Ho4 by (simpl; lia). done. }
  apply setVec_tracks in H1
    as (_ & _ & (p0 & p1 & p2 & a0 & a1 & a2 & Hp0 & Hp1 & Hp2
                 & Ha0 & Ha1 & Ha2 & Fa0 & Pa0 & Fa1 & Pa1 & Fa2 & Pa2) & _).
  apply setVec_tracks in H2
    as (_ & _ & (r0 & r1 & r2 & b0 & b1 & b2 & Hr0 & Hr1 & Hr2
                 & Hb0 & Hb1 & Hb2 & Fb0 & Pb0 & Fb1 & Pb1 & Fb2 & Pb2) & Ho2).
  apply setVec_tracks in H3
    as (_ & _ & (c0 & c1 & c2 & d0 & d1 & d2 & Hc0 & Hc1 & Hc2
                 & Hd0 & Hd1 & Hd2 & Fd0 & Pd0 & Fd1 & Pd1 & Fd2 & Pd2) & Ho3).
  unfold PosX, RotX, ScaleX in *.
  change (Z.to_nat 3) with 3%nat in *. change (Z.to_nat 6) with 6%nat in *.
  change (Z.to_nat 9) with 9%nat in *.
  assert (v6 !! 3%nat = Some a0 /\ v6 !! 4%nat = Some a1 /\ v6 !! 5%nat = Some a2
          /\ v6 !! 6%nat = Some b0 /\ v6 !! 7%nat = Some b1 /\ v6 !! 8%nat = Some b2
          /\ v6 !! 9%nat = Some d0 /\ v6 !! 10%nat = Some d1 /\ v6 !! 11%nat = Some d2)
    as (Ea0 & Ea1 & Ea2 & Eb0 & Eb1 & Eb2 & Ed0 & Ed1 & Ed2).
  { rewrite !Hrest by lia. rewrite !(Ho3 3%nat), !(Ho3 4%nat), !(Ho3 5%nat),
      !(Ho3 6%nat), !(Ho3 7%nat), !(Ho3 8%nat) by lia.
    rewrite !(Ho2 3%nat), !(Ho2 4%nat), !(Ho2 5%nat) by lia. done. }
  destruct (pending_immediate_lands _ _ _ _ _ _ _ _ Hup Ea0 Fa0 Pa0) as (wa0 & Wa0 & Ga0).
  destruct (pending_immediate_lands _ _ _ _ _ _ _ _ Hup Ea1 Fa1 Pa1) as (wa1 & Wa1 & Ga1).
  destruct (pending_immediate_lands _ _ _ _ _ _ _ _ Hup Ea2 Fa2 Pa2) as (wa2 & Wa2 & Ga2).
  destruct (pending_immediate_lands _ _ _ _ _ _ _ _ Hup Eb0 Fb0 Pb0) as (wb0 & Wb0 & Gb0).
  destruct (pending_immediate_lands _ _ _ _ _ _ _ _ Hup Eb1 Fb1 Pb1) as (wb1 & Wb1 & Gb1).
  destruct (pending_immediate_lands _ _ _ _ _ _ _ _ Hup Eb2 Fb2 Pb2) as (wb2 & Wb2 & Gb2).
  destruct (pending_immediate_lands _ _ _ _ _ _ _ _ Hup Ed0 Fd0 Pd0) as (wd0 & Wd0 & Gd0).
  destruct (pending_immediate_lands _ _ _ _ _ _ _ _ Hup Ed1 Fd1 Pd1) as (wd1 & Wd1 & Gd1).
  destruct (pending_immediate_lands _ _ _ _ _ _ _ _ Hup Ed2 Fd2 Pd2) as (wd2 & Wd2 & Gd2).
  unfold adaptor_do_update.
  rewrite (getVec_of_tracks vs2 3 _ wa0 wa1 wa2 p0 p1 p2) by done.
  rewrite (getVec_of_tracks vs2 6 _ wb0 wb1 wb2 r0 r1 r2) by done.
  rewrite (getVec_of_tracks vs2 9 _ wd0 wd1 wd2 c0 c1 c2) by done.
  cbn [mbind option_bind]. unfold vec3_copy, f32_get.
  by rewrite Hp0, Hp1, Hp2, Hr0, Hr1, Hr2, Hc0, Hc1, Hc2.
Qed.


Import AdaptorFixtures.

Lemma vec_tracks_round_trip_witness :
  exists vs1 vs2 outs,
    adaptor_setVariableValue_Vec new_TActorAdaptor PosX [1; 2; 3]%float = Some vs1
    /\ adaptor_updateVariableValue vs1 seconds_per_frame 1 = Some (vs2, outs)
    /\ adaptor_getVariableValue_Vec vs2 vec3_create PosX = Some [1; 2; 3]%float.
Proof.
  destruct (adaptor_setVariableValue_Vec new_TActorAdaptor PosX [1; 2; 3]%float)
    as [vs1|] eqn:Hset; [|by vm_compute in Hset].
  destruct (adaptor_updateVariableValue vs1 seconds_per_frame 1)
    as [[vs2 outs]|] eqn:Hup.
  - exists vs1, vs2, outs. split; [reflexivity|]. split; [exact Hup|].
    exact (vec_tracks_round_trip new_TActorAdaptor vs1 vs2 PosX [1; 2; 3]%float
             vec3_create seconds_per_frame 1 outs eq_refl Hset Hup).
  - vm_compute in Hset. injection Hset as <-. by vm_compute in Hup.
Defined.

Lemma gxcolor_tracks_alpha_witness :
  exists vs1 vs2 outs,
    adaptor_setVariableValue_GXColor new_TActorAdaptor 0 opaque_red = Some vs1
    /\ adaptor_updateVariableValue vs1 seconds_per_frame 1 = Some (vs2, outs)
    /\ adaptor_getVariableValue_GXColor vs2 opaque_red 0
       = Some {| r := js_number 1; g := js_number 0; b := js_number 0;
                 a := js_number 0 |}.
Proof.
  destruct (adaptor_setVariableValue_GXColor new_TActorAdaptor 0 opaque_red)
    as [vs1|] eqn:Hset; [|by vm_compute in Hset].
  destruct (adaptor_updateVariableValue vs1 seconds_per_frame 1)
    as [[vs2 outs]|] eqn:Hup.
  - exists vs1, vs2, outs. split; [reflexivity|]. split; [exact Hup|].
    exact (proj1 (gxcolor_tracks_alpha new_TActorAdaptor vs1 vs2 0 opaque_red
                    opaque_red seconds_per_frame 1 outs Hset Hup)).
  - vm_compute in Hset. injection Hset as <-. by vm_compute in Hup.
Defined.

Lemma do_begin_anim_frame_track_witness :
  exists vs' s',
    adaptor_do_begin still_actor None zero_scratch new_TActorAdaptor = Some (vs', s')
    /\ mUpdateParam <$> vs' !! 0%nat = Some (js_number 9)
    /\ vs' !! 2%nat = Some new_TVariableValue.
Proof.
  destruct (adaptor_do_begin still_actor None zero_scratch new_TActorAdaptor)
    as [[vs' s']|] eqn:Hb; [|by vm_compute in Hb].
  exists vs', s'. split; [reflexivity|].
  destruct (do_begin_anim_frame_track still_actor None zero_scratch s'
              new_TActorAdaptor vs' Hb) as ((vv & Hvv & _ & Hp) & Htex).
  split.
  - change (Z.to_nat AnimFrame) with 0%nat in Hvv. rewrite Hvv. simpl. by rewrite Hp.
  - exact Htex.
Defined.

Lemma begin_then_update_restores_actor_witness :
  exists vs1 s1 vs2 outs,
    adaptor_do_begin still_actor None zero_scratch new_TActorAdaptor = Some (vs1, s1)
    /\ adaptor_updateVariableValue vs1 seconds_per_frame 1 = Some (vs2, outs)
    /\ adaptor_do_update None zero_scratch vs2
       = Some ([1; 2; 3]%float, [0; 0; 0]%float, [1; 1; 1]%float).
Proof.
  destruct (adaptor_do_begin still_actor None zero_scratch new_TActorAdaptor)
    as [[vs1 s1]|] eqn:Hb; [|by vm_compute in Hb].
  destruct (adaptor_updateVariableValue vs1 seconds_per_frame 1)
    as [[vs2 outs]|] eqn:Hup.
  - exists vs1, s1, vs2, outs. split; [reflexivity|]. split; [exact Hup|].
    exact (begin_then_update_restores_actor still_actor zero_scratch s1 zero_scratch
             new_TActorAdaptor vs1 vs2 seconds_per_frame 1 outs Hb Hup
             eq_refl eq_refl eq_refl).
  - vm_compute in Hb. injection Hb as <- _. by vm_compute in Hup.
Defined.

End ActorAdaptorFacts.

(* ===================================================================== *)
(** ** Room layers *)
(* ===================================================================== *)

Section RoomLayersFacts.
Import JS RoomLayers.
Local Open Scope Z_scope.

Lemma ToInt32_range (z : Z) : - 2 ^ 31 <= ToInt32 z < 2 ^ 31.
Proof.
  unfold ToInt32. pose proof (Z.mod_pos_bound z (2 ^ 32) ltac:(lia)).
  destruct (Z.ltb_spec (z mod 2 ^ 32) (2 ^ 31)); lia.
Qed.

Lemma ToInt32_testbit (z n : Z) :
  0 <= n < 32 -> Z.testbit (ToInt32 z) n = Z.testbit z n.
Proof.
  intros Hn. rewrite <- (Z.mod_pow2_bits_low (ToInt32 z) 32 n) by lia.
  rewrite <- (Z.mod_pow2_bits_low z 32 n) by lia. f_equal.
  unfold ToInt32. destruct (Z.ltb_spec (z mod 2 ^ 32) (2 ^ 31)).
  - apply Z.mod_mod. lia.
  - replace (z mod 2 ^ 32 - 2 ^ 32) with (z mod 2 ^ 32 + (-1) * 2 ^ 32) by lia.
    rewrite Z.mod_add by lia. apply Z.mod_mod. lia.
Qed.

Lemma int32_high_bits (x n : Z) :
  - 2 ^ 31 <= x < 2 ^ 31 -> 31 <= n -> Z.testbit x n = Z.testbit x 31.
Proof.
  intros Hx Hn. destruct (Z.neg_nonneg_cases x) as [Hneg|Hpos].
  - rewrite !Z.bits_above_log2_neg; try lia.
    all: destruct (Z.eq_dec x (-1)) as [->|]; [simpl; lia|];
      apply Z.lt_le_trans with 31; [|lia];
      apply Z.log2_lt_pow2; unfold Z.pred; lia.
  - rewrite !Z.bits_above_log2; try lia.
    all: destruct (Z.eq_dec x 0) as [->|]; [simpl; lia|];
      apply Z.lt_le_trans with 31; [|lia]; apply Z.log2_lt_pow2; lia.
Qed.

(** X30: [objectLayerVisible] is [true] for every negative layer, and for
    a layer [>= 0] it is bit [layer mod 32] of the mask: the shift count
    of [1 << layer] wraps at 32, so layer 32 tests bit 0 again. *)
Theorem objectLayerVisible_bit (layerMask layer : Z) :
  (layer < 0 -> objectLayerVisible layerMask layer = true)
  /\ (0 <= layer ->
      objectLayerVisible layerMask layer = Z.testbit layerMask (layer mod 32)).
Proof.
  unfold objectLayerVisible. split; intros Hl.
  - destruct (Z.ltb_spec layer 0); [done|lia].
  - destruct (Z.ltb_spec layer 0); [lia|].
    pose proof (Z.mod_pos_bound layer 32 ltac:(lia)) as Hc.
    set (c := layer mod 32) in *.
    unfold truthy, band.
    assert (forall n, 0 <= n < 32 ->
              Z.testbit (Z.land (ToInt32 layerMask) (ToInt32 (shl 1 layer))) n
              = Z.testbit layerMask n && (n =? c)) as Hbits.
    { intros n Hn. rewrite Z.land_spec, !ToInt32_testbit by lia.
      unfold shl. fold c. rewrite ToInt32_testbit by lia.
      change (ToInt32 1) with 1. rewrite Z.shiftl_1_l, Z.pow2_bits_eqb by lia.
      by rewrite (Z.eqb_sym c n). }
    destruct (Z.testbit layerMask c) eqn:Hbit.
    + destruct (Z.eqb_spec (Z.land (ToInt32 layerMask) (ToInt32 (shl 1 layer))) 0)
        as [E|_]; [|done].
      pose proof (Hbits c Hc) as Hb. rewrite E, Z.bits_0, Hbit, Z.eqb_refl in Hb. done.
    + assert (Z.land (ToInt32 layerMask) (ToInt32 (shl 1 layer)) = 0) as ->; [|done].
      assert (forall n, 0 <= n < 32 ->
                Z.testbit (Z.land (ToInt32 layerMask) (ToInt32 (shl 1 layer))) n = false)
        as Hlow.
      { intros n Hn. rewrite Hbits by done.
        destruct (Z.eqb_spec n c) as [->|]; [by rewrite Hbit|by rewrite andb_false_r]. }
      apply Z.bits_inj'. intros n Hn. rewrite Z.bits_0.
      destruct (Z.ltb_spec n 32); [apply Hlow; lia|].
      rewrite Z.land_spec.
      rewrite (int32_high_bits (ToInt32 layerMask) n),
              (int32_high_bits (ToInt32 (shl 1 layer)) n)
        by (try apply ToInt32_range; lia).
      rewrite <- Z.land_spec. apply Hlow. lia.
Qed.

End RoomLayersFacts.
